(** * Post-processing of NorESM history files: a shallow embedding

  The development follows [notebooks/dataset_manipulation/postprocess.py].
  Datasets are values that refer to variable objects living in a store;
  every function of the module is a computation in a state-and-exception
  monad over that store (and over the files written so far). *)

From Stdlib Require Import ZArith QArith String Ascii List Lia DecimalString.
From stdpp Require Import base option list gmap strings.

Local Open Scope string_scope.
Local Open Scope Z_scope.

(** ** Python helpers *)

Module Py.

(** Exceptions raised by the module or by the libraries it calls. *)
Inductive exn :=
| ValueError (msg : string)
| KeyError (key : string)
| AttributeError (name : string)
| UnboundLocalError (name : string)
| TypeError
| IndexError
| OutOfModel (why : string).

Inductive result (A : Type) :=
| Ok (a : A)
| Raise (e : exn).
Arguments Ok {A} a.
Arguments Raise {A} e.

(** [s.find(sub)]: index of the first occurrence, [-1] when there is none. *)
Fixpoint find_from (sub s : string) (i : Z) : Z :=
  if String.prefix sub s then i
  else match s with
       | EmptyString => -1
       | String _ s' => find_from sub s' (i + 1)
       end.

Definition find (s sub : string) : Z := find_from sub s 0.

(** [str(n)] for an integer. *)
Definition str (n : Z) : string := NilZero.string_of_int (Z.to_int n).

(** The operands of the [in] test of the forcing decomposition: a name is a
    string, the tested object is a list of strings. *)
Inductive obj :=
| Str (s : string)
| List (l : list string).

(** Python [==]: a list never equals a string. *)
Definition eq (a b : obj) : bool :=
  match a, b with
  | Str s, Str t => bool_decide (s = t)
  | List l, List k => bool_decide (l = k)
  | _, _ => false
  end.

(** [x in l] for a list [l]. *)
Definition contains (x : obj) (l : list obj) : bool := existsb (eq x) l.

(** Normalisation of one slice bound against a length (CPython's
    [PySlice_AdjustIndices], step 1). *)
Definition clamp (i len : Z) : Z :=
  if i <? 0 then Z.max (i + len) 0 else Z.min i len.

(** [l[start:stop]]. *)
Definition slice {A} (start stop : Z) (l : list A) : list A :=
  let len := Z.of_nat (length l) in
  let a := clamp start len in
  let b := clamp stop len in
  take (Z.to_nat (b - a)) (drop (Z.to_nat a) l).

End Py.

Import Py.

(** ** Time values *)

Module Time.

(** [numpy.datetime64[ns]] is a signed 64-bit count of nanoseconds since
    1970-01-01T00:00; additions wrap around. *)
Definition wrap64 (z : Z) : Z := (z + 2 ^ 63) mod 2 ^ 64 - 2 ^ 63.

Definition ns_per_day : Z := 86400 * 1000000000.

(** [np.timedelta64(n, 'D')] converted to nanoseconds. *)
Definition timedelta64_D (n : Z) : Z := n * ns_per_day.

(** Days since the epoch of a proleptic Gregorian date. *)
Definition days_from_civil (y m d : Z) : Z :=
  let y' := if m <=? 2 then y - 1 else y in
  let era := y' / 400 in
  let yoe := y' - era * 400 in
  let mp := if 2 <? m then m - 3 else m + 9 in
  let doy := (153 * mp + 2) / 5 + d - 1 in
  let doe := yoe * 365 + yoe / 4 - yoe / 100 + doy in
  era * 146097 + doe - 719468.

(** The proleptic Gregorian (year, month, day) of a day count. *)
Definition civil_from_days (z : Z) : Z * Z * Z :=
  let z' := z + 719468 in
  let era := z' / 146097 in
  let doe := z' - era * 146097 in
  let yoe := (doe - doe / 1460 + doe / 36524 - doe / 146096) / 365 in
  let doy := doe - (365 * yoe + yoe / 4 - yoe / 100) in
  let mp := (5 * doy + 2) / 153 in
  let d := doy - (153 * mp + 2) / 5 + 1 in
  let m := if mp <? 10 then mp + 3 else mp - 9 in
  let y := yoe + era * 400 in
  (if m <=? 2 then y + 1 else y, m, d).

(** The datetime64 value of midnight of a date. *)
Definition datetime64_of (y m d : Z) : Z := days_from_civil y m d * ns_per_day.

(** A [cftime.DatetimeNoLeap] object. *)
Record cftime := mkCf {
  cf_year : Z; cf_month : Z; cf_day : Z;
  cf_hour : Z; cf_minute : Z; cf_second : Z }.

(** [DatetimeNoLeap(year, month, day)]: midnight of that day; the
    constructor rejects a month outside 1..12 and a day outside the month
    (no month of the no-leap calendar is shorter than 28 days). *)
Definition noleap_month_length (m : Z) : Z :=
  if (m =? 2) then 28
  else if (m =? 4) || (m =? 6) || (m =? 9) || (m =? 11) then 30 else 31.

Definition DatetimeNoLeap (y m d : Z) : result cftime :=
  if (1 <=? m) && (m <=? 12) && (1 <=? d) && (d <=? noleap_month_length m)
  then Ok (mkCf y m d 0 0 0)
  else Raise (ValueError "invalid date").

(** A datetime-like value: a datetime64 or a cftime object. *)
Inductive instant :=
| Dt64 (ns : Z)
| Cf (c : cftime).

(** The [.dt.year], [.dt.month] and [.dt.day] fields. *)
Definition dt64_fields (ns : Z) : Z * Z * Z := civil_from_days (ns / ns_per_day).
Definition cf_fields (c : cftime) : Z * Z * Z := (cf_year c, cf_month c, cf_day c).

Definition dt_fields (t : instant) : Z * Z * Z :=
  match t with
  | Dt64 ns => dt64_fields ns
  | Cf c => cf_fields c
  end.

Definition dt_year (t : instant) : Z := (dt_fields t).1.1.
Definition dt_month (t : instant) : Z := (dt_fields t).1.2.
Definition dt_day (t : instant) : Z := (dt_fields t).2.

(** The 64-bit pattern that numpy reads as "not a time". *)
Definition NaT : Z := - 2 ^ 63.

(** [t + np.timedelta64(n, 'D')] on a datetime64: NaT stays NaT, any other
    value is added on 64 bits. *)
Definition add_days (n : Z) (ns : Z) : Z :=
  if ns =? NaT then NaT else wrap64 (ns + timedelta64_D n).

(** The first instant of month [m] of year [y], in either representation. *)
Definition month_start (t : instant) (y m : Z) : Prop :=
  t = Dt64 (datetime64_of y m 1) \/ t = Cf (mkCf y m 1 0 0 0).

(** A value that lies on day [d] of month [m] of year [y]. *)
Definition on_day (t : instant) (y m d : Z) : Prop :=
  dt_fields t = (y, m, d).

End Time.

Import Time.


(** ** Arrays *)

Module Arr.

(** An n-dimensional array as nested lists: the list under a [Node] runs
    along the leading axis. *)
#[warnings="-register-all"] Inductive nd (A : Type) :=
| Leaf (a : A)
| Node (xs : list (nd A)).
Arguments Leaf {A} a.
Arguments Node {A} xs.

(** Elementwise application. *)
Fixpoint nd_map {A B} (f : A -> B) (a : nd A) : nd B :=
  match a with
  | Leaf x => Leaf (f x)
  | Node xs => Node (List.map (nd_map f) xs)
  end.

(** Elementwise combination of two arrays of one shape; [None] when the
    shapes differ. *)
Fixpoint nd_zip {A} (f : A -> A -> A) (a b : nd A) : option (nd A) :=
  match a, b with
  | Leaf x, Leaf y => Some (Leaf (f x y))
  | Node xs, Node ys =>
      (fix go (l : list (nd A)) (k : list (nd A)) : option (nd A) :=
         match l, k with
         | [], [] => Some (Node [])
         | x :: l', y :: k' =>
             match nd_zip f x y, go l' k' with
             | Some z, Some (Node r) => Some (Node (z :: r))
             | _, _ => None
             end
         | _, _ => None
         end) xs ys
  | _, _ => None
  end.

(** [a[start:stop]] along axis [k]. *)
Fixpoint slice_axis {A} (k : nat) (start stop : Z) (a : nd A) : nd A :=
  match a with
  | Leaf x => Leaf x
  | Node xs =>
      match k with
      | O => Node (slice start stop xs)
      | S k' => Node (List.map (slice_axis k' start stop) xs)
      end
  end.

(** [a[i]] along axis [k] (the axis disappears); [None] when [i] is out of
    range somewhere. *)
Fixpoint index_axis {A} (k : nat) (i : nat) (a : nd A) : option (nd A) :=
  match a with
  | Leaf x => None
  | Node xs =>
      match k with
      | O => xs !! i
      | S k' =>
          (fix go (l : list (nd A)) : option (nd A) :=
             match l with
             | [] => Some (Node [])
             | x :: l' =>
                 match index_axis k' i x, go l' with
                 | Some z, Some (Node r) => Some (Node (z :: r))
                 | _, _ => None
                 end
             end) xs
      end
  end.

(** The elements of a one-dimensional array. *)
Definition leaf_of {A} (a : nd A) : option A :=
  match a with Leaf x => Some x | Node _ => None end.

Definition to_list1 {A} (a : nd A) : option (list A) :=
  match a with
  | Leaf _ => None
  | Node xs => mapM leaf_of xs
  end.

Definition of_list1 {A} (l : list A) : nd A := Node (List.map Leaf l).

(** [len(a)]: the size of the leading axis. *)
Definition nd_len {A} (a : nd A) : option nat :=
  match a with
  | Leaf _ => None
  | Node xs => Some (length xs)
  end.

(** A numpy array with its dtype: floats (idealised as exact rationals),
    datetime64[ns], or objects holding cftime dates. *)
Inductive ndarray :=
| F64 (a : nd Q)
| M8 (a : nd Z)
| Obj (a : nd cftime).

(** [a * c] for a Python float [c]. *)
Definition mul_scalar (a : ndarray) (c : Q) : result ndarray :=
  match a with
  | F64 x => Ok (F64 (nd_map (fun v => Qmult v c) x))
  | _ => Raise TypeError
  end.

(** [-a]. *)
Definition neg (a : ndarray) : result ndarray :=
  match a with
  | F64 x => Ok (F64 (nd_map Qopp x))
  | _ => Raise TypeError
  end.

(** [a + b] and [a - b] on float arrays of one shape. *)
Definition binop (f : Q -> Q -> Q) (a b : ndarray) : result ndarray :=
  match a, b with
  | F64 x, F64 y =>
      match nd_zip f x y with
      | Some z => Ok (F64 z)
      | None => Raise (ValueError "operands could not be broadcast together")
      end
  | _, _ => Raise TypeError
  end.

Definition arr_slice_axis (k : nat) (start stop : Z) (a : ndarray) : ndarray :=
  match a with
  | F64 x => F64 (slice_axis k start stop x)
  | M8 x => M8 (slice_axis k start stop x)
  | Obj x => Obj (slice_axis k start stop x)
  end.

Definition arr_index_axis (k i : nat) (a : ndarray) : option ndarray :=
  match a with
  | F64 x => F64 <$> index_axis k i x
  | M8 x => M8 <$> index_axis k i x
  | Obj x => Obj <$> index_axis k i x
  end.

Definition arr_len (a : ndarray) : option nat :=
  match a with
  | F64 x => nd_len x
  | M8 x => nd_len x
  | Obj x => nd_len x
  end.

(** The values of a one-dimensional datetime-like array. *)
Definition instants (a : ndarray) : option (list instant) :=
  match a with
  | F64 _ => None
  | M8 x => List.map Dt64 <$> to_list1 x
  | Obj x => List.map Cf <$> to_list1 x
  end.

End Arr.

Import Arr.

(** ** The store, and the monad of computations *)

Definition loc := nat.

(** An [xarray.Variable] object: dimension names, data and attributes. *)
Record var_obj := mkVar {
  dims : list string;
  data : ndarray;
  attrs : gmap string string }.

(** What [to_netcdf] puts in a file: the coordinates and the data variables
    with their contents. *)
Record file := mkFile {
  file_coords : list (string * var_obj);
  file_vars : list (string * var_obj) }.

(** The variable objects allocated so far, and the files written so far
    (latest last). *)
Record world := mkWorld {
  heap : list var_obj;
  disk : list (string * file) }.

Definition M (A : Type) : Type := world -> result A * world.

Definition ret {A} (a : A) : M A := fun w => (Ok a, w).

Definition bind {A B} (c : M A) (k : A -> M B) : M B :=
  fun w => match c w with
           | (Ok a, w') => k a w'
           | (Raise e, w') => (Raise e, w')
           end.

Definition raise {A} (e : exn) : M A := fun w => (Raise e, w).

Notation "'let*' x ':=' c 'in' k" := (bind c (fun x => k))
  (at level 10, x name, c at level 100, k at level 200).

Definition lift {A} (r : result A) : M A := fun w => (r, w).

Definition lift_opt {A} (e : exn) (o : option A) : M A :=
  match o with Some a => ret a | None => raise e end.

(** Reading, allocating and updating variable objects. *)
Definition deref (l : loc) : M var_obj :=
  fun w => match heap w !! l with
           | Some v => (Ok v, w)
           | None => (Raise (OutOfModel "dangling reference"), w)
           end.

Definition alloc (v : var_obj) : M loc :=
  fun w => (Ok (length (heap w)), mkWorld (heap w ++ [v]) (disk w)).

Definition store (l : loc) (v : var_obj) : M unit :=
  fun w => (Ok tt, mkWorld (<[l := v]> (heap w)) (disk w)).

Definition write_file (path : string) (f : file) : M unit :=
  fun w => (Ok tt, mkWorld (heap w) (disk w ++ [(path, f)])).

(** A loop over a list, threading an accumulator. *)
Fixpoint foldM {A B} (f : B -> A -> M B) (acc : B) (l : list A) : M B :=
  match l with
  | [] => ret acc
  | x :: l' => let* acc' := f acc x in foldM f acc' l'
  end.

(** A [for] loop run for its effects. *)
Fixpoint forM_ {A} (f : A -> M unit) (l : list A) : M unit :=
  match l with
  | [] => ret tt
  | x :: l' => let* _ := f x in forM_ f l'
  end.

Fixpoint mapM_M {A B} (f : A -> M B) (l : list A) : M (list B) :=
  match l with
  | [] => ret []
  | x :: l' => let* y := f x in let* r := mapM_M f l' in ret (y :: r)
  end.

(** ** Datasets and the operations of xarray that the module calls *)

(** An [xarray.Dataset]: coordinate variables and data variables, each a
    name bound to a variable object (in insertion order). *)
Record Dataset := mkDs {
  coords : list (string * loc);
  data_vars : list (string * loc) }.

Module Xr.

Fixpoint assoc {B} (n : string) (l : list (string * B)) : option B :=
  match l with
  | [] => None
  | (k, b) :: l' => if bool_decide (k = n) then Some b else assoc n l'
  end.

Definition names {B} (l : list (string * B)) : list string := List.map fst l.

Definition mem (n : string) (l : list string) : bool := bool_decide (n ∈ l).

(** All the variables of a dataset, coordinates included. *)
Definition variables (ds : Dataset) : list (string * loc) :=
  coords ds ++ data_vars ds.

(** [dict[k] = v]: replaces the binding in place or appends it. *)
Fixpoint assoc_set {B} (n : string) (b : B) (l : list (string * B)) : list (string * B) :=
  match l with
  | [] => [(n, b)]
  | (k, x) :: l' => if bool_decide (k = n) then (k, b) :: l' else (k, x) :: assoc_set n b l'
  end.

Definition assoc_del {B} (n : string) (l : list (string * B)) : list (string * B) :=
  List.filter (fun p => negb (bool_decide (p.1 = n))) l.

Definition rename_key {B} (old new : string) (l : list (string * B)) : list (string * B) :=
  List.map (fun p => (if bool_decide (p.1 = old) then new else p.1, p.2)) l.

(** Position of a dimension among the dimensions of a variable. *)
Fixpoint dim_index (d : string) (l : list string) : option nat :=
  match l with
  | [] => None
  | x :: l' => if bool_decide (x = d) then Some O else S <$> dim_index d l'
  end.

(** Size of axis [k], read on the first element of each level ([None] when
    an outer axis is empty). *)
Fixpoint axis_len {A} (k : nat) (a : nd A) : option nat :=
  match a with
  | Leaf _ => None
  | Node xs =>
      match k with
      | O => Some (length xs)
      | S k' => match xs with [] => None | x :: _ => axis_len k' x end
      end
  end.

Definition arr_axis_len (k : nat) (a : ndarray) : option nat :=
  match a with
  | F64 x => axis_len k x
  | M8 x => axis_len k x
  | Obj x => axis_len k x
  end.

(** Size of dimension [d] in a variable, when the variable has it. *)
Definition dim_size (d : string) (v : var_obj) : option nat :=
  match dim_index d (dims v) with
  | Some k => arr_axis_len k (data v)
  | None => None
  end.

(** Fresh copies of the variable objects of a list of bindings. *)
Fixpoint copy_vars (l : list (string * loc)) : M (list (string * loc)) :=
  match l with
  | [] => ret []
  | (n, p) :: l' =>
      let* v := deref p in
      let* q := alloc v in
      let* r := copy_vars l' in
      ret ((n, q) :: r)
  end.

(** [ds.copy(deep=...)]: a new dataset over new variable objects. A shallow
    copy shares the array buffers with the original; no function of the
    module writes into a buffer in place (arrays are always rebound), so the
    sharing cannot be observed and both kinds of copy behave alike. *)
Definition copy (deep : bool) (ds : Dataset) : M Dataset :=
  let* c := copy_vars (coords ds) in
  let* d := copy_vars (data_vars ds) in
  ret (mkDs c d).

(** [ds.name]. *)
Definition getattr (ds : Dataset) (n : string) : M loc :=
  lift_opt (AttributeError n) (assoc n (variables ds)).

(** [ds[name]]: a view of the variable object bound to [name]. *)
Definition getitem (ds : Dataset) (n : string) : M loc :=
  lift_opt (KeyError n) (assoc n (variables ds)).

(** The dimensions used by the variables of a dataset. *)
Definition ds_dims (ds : Dataset) : M (list string) :=
  let* vs := mapM_M (fun p => deref p.2) (variables ds) in
  ret (concat (List.map dims vs)).

(** [ds.rename_vars({old: new})]. *)
Definition rename_vars (ds : Dataset) (old new : string) : M Dataset :=
  if negb (mem old (names (variables ds))) then
    raise (ValueError "cannot rename: not a variable or coordinate in this dataset")
  else if mem new (names (variables ds)) && negb (bool_decide (old = new)) then
    raise (ValueError "the new name conflicts")
  else
    let* ds' := copy false ds in
    ret (mkDs (rename_key old new (coords ds')) (rename_key old new (data_vars ds'))).

Definition rename_dim_in (old new : string) (p : loc) : M unit :=
  let* v := deref p in
  store p (mkVar (List.map (fun d => if bool_decide (d = old) then new else d) (dims v))
                 (data v) (attrs v)).

(** [ds.rename_dims({old: new})]. *)
Definition rename_dims (ds : Dataset) (old new : string) : M Dataset :=
  let* ds_d := ds_dims ds in
  if negb (mem old ds_d) then
    raise (ValueError "cannot rename: not a dimension in this dataset")
  else if mem new ds_d || mem new (names (variables ds)) then
    raise (ValueError "cannot rename: the new name already exists")
  else
    let* ds' := copy false ds in
    let* _ := forM_ (fun p => rename_dim_in old new p.2) (variables ds') in
    ret ds'.

(** [da.isel(dim=i)] on the contents of a variable. *)
Definition da_isel (v : var_obj) (d : string) (i : nat) : result var_obj :=
  match dim_index d (dims v) with
  | None => Raise (ValueError "dimensions do not exist")
  | Some k =>
      match arr_index_axis k i (data v) with
      | None => Raise IndexError
      | Some a => Ok (mkVar (List.filter (fun x => negb (bool_decide (x = d))) (dims v)) a (attrs v))
      end
  end.

(** [da.dt.<field>.values] followed by an iteration over the values: a list
    of integers for a one-dimensional datetime-like array. The fields of an
    array that holds a NaT are floating-point numbers and are not modelled. *)
Definition dt_values (field : instant -> Z) (v : var_obj) : result (list Z) :=
  match instants (data v) with
  | Some ts =>
      if existsb (fun t => match t with Dt64 ns => ns =? NaT | Cf _ => false end) ts
      then Raise (OutOfModel "NaT")
      else Ok (List.map field ts)
  | None => Raise TypeError
  end.

(** Does some variable other than [skip] have dimension [d] with a size
    different from [n]? *)
Definition size_conflict (skip d : string) (n : nat) (l : list (string * var_obj)) : bool :=
  existsb (fun p => negb (bool_decide (p.1 = skip)) &&
                    match dim_size d p.2 with
                    | Some k => negb (Nat.eqb k n)
                    | None => false
                    end) l.

Definition contents (l : list (string * loc)) : M (list (string * var_obj)) :=
  mapM_M (fun p => let* v := deref p.2 in ret (p.1, v)) l.

(** [ds.assign_coords({name: (dim, values, attrs)})]: a shallow copy of the
    dataset in which the coordinate [name] is a new variable. *)
Definition assign_coords (ds : Dataset) (n d : string) (values : ndarray)
    (a : gmap string string) : M Dataset :=
  let* cs := contents (variables ds) in
  match arr_len values with
  | None => raise (ValueError "data must be one-dimensional")
  | Some len =>
      if size_conflict n d len cs then
        raise (ValueError "conflicting sizes for dimension")
      else
        let* ds' := copy false ds in
        let* p := alloc (mkVar [d] values a) in
        ret (mkDs (assoc_set n p (coords ds')) (assoc_del n (data_vars ds')))
  end.

(** Slicing one variable along [d]: a new object when the variable has the
    dimension, the same object otherwise. *)
Definition isel_var (d : string) (start stop : Z) (b : string * loc) : M (string * loc) :=
  let* v := deref b.2 in
  match dim_index d (dims v) with
  | None => ret b
  | Some k =>
      let* q := alloc (mkVar (dims v) (arr_slice_axis k start stop (data v)) (attrs v)) in
      ret (b.1, q)
  end.

(** [ds.isel(d=slice(start, stop))]. *)
Definition isel (ds : Dataset) (d : string) (start stop : Z) : M Dataset :=
  let* ds_d := ds_dims ds in
  if negb (mem d ds_d) then raise (ValueError "dimensions do not exist")
  else
    let* c := mapM_M (isel_var d start stop) (coords ds) in
    let* v := mapM_M (isel_var d start stop) (data_vars ds) in
    ret (mkDs c v).

(** [len(da)]. *)
Definition len (p : loc) : M Z :=
  let* v := deref p in
  match arr_len (data v) with
  | Some n => ret (Z.of_nat n)
  | None => raise TypeError
  end.

(** The first name of a list that the dataset does not have. *)
Fixpoint first_missing (ds : Dataset) (l : list string) : option string :=
  match l with
  | [] => None
  | n :: l' => if mem n (names (variables ds)) then first_missing ds l' else Some n
  end.

(** Removal of repeated names, keeping the first occurrence. *)
Fixpoint dedup (l : list string) : list string :=
  match l with
  | [] => []
  | n :: l' => n :: List.filter (fun x => negb (bool_decide (x = n))) (dedup l')
  end.

Definition pick (l : list string) (bs : list (string * loc)) : list (string * loc) :=
  omap (fun n => (fun p => (n, p)) <$> assoc n bs) l.

Definition subset (l k : list string) : bool := forallb (fun x => mem x k) l.

(** [ds[names]]: the listed variables, plus the coordinates whose dimensions
    are all used by the listed variables. The variable objects are shared
    with [ds]. *)
Definition getitem_list (ds : Dataset) (l : list string) : M Dataset :=
  match first_missing ds l with
  | Some n => raise (KeyError n)
  | None =>
      let sel := dedup l in
      let picked := pick sel (variables ds) in
      let* vs := mapM_M (fun p => deref p.2) picked in
      let needed := concat (List.map dims vs) in
      let* cs := contents (coords ds) in
      let extra := List.filter (fun p => negb (mem p.1 sel) && subset (dims p.2) needed) cs in
      ret (mkDs (pick sel (coords ds) ++ pick (names extra) (coords ds))
                (pick sel (data_vars ds)))
  end.

(** [ds[name] = da]: binds [name] to a new variable object with the contents
    of [da]. *)
Definition setitem (ds : Dataset) (n : string) (v : var_obj) : M Dataset :=
  let* p := alloc v in
  if mem n (names (coords ds)) then ret (mkDs (assoc_set n p (coords ds)) (data_vars ds))
  else ret (mkDs (coords ds) (assoc_set n p (data_vars ds))).

(** [a - b], [a + b] and [-a] on data arrays with the same dimensions; the
    result carries no attributes. Broadcasting over different dimension lists
    is not modelled. *)
Definition da_binop (f : Q -> Q -> Q) (a b : var_obj) : M var_obj :=
  if bool_decide (dims a = dims b) then
    let* d := lift (binop f (data a) (data b)) in
    ret (mkVar (dims a) d ∅)
  else raise (OutOfModel "broadcasting").

Definition da_neg (a : var_obj) : M var_obj :=
  let* d := lift (neg (data a)) in
  ret (mkVar (dims a) d ∅).

(** [ds[name].values = f(ds[name].values)]. *)
Definition set_values (ds : Dataset) (n : string) (f : ndarray -> result ndarray) : M unit :=
  let* p := getitem ds n in
  let* v := deref p in
  let* d := lift (f (data v)) in
  let* q := getitem ds n in
  let* v' := deref q in
  store q (mkVar (dims v') d (attrs v')).

(** [ds[name].attrs[key] = value]. *)
Definition set_attr (ds : Dataset) (n key value : string) : M unit :=
  let* p := getitem ds n in
  let* v := deref p in
  store p (mkVar (dims v) (data v) (<[key := value]> (attrs v))).

(** [ds[name].attrs[key]]. *)
Definition get_attr (ds : Dataset) (n key : string) : M string :=
  let* p := getitem ds n in
  let* v := deref p in
  lift_opt (KeyError key) (attrs v !! key).

(** [ds.to_netcdf(path)]. *)
Definition to_netcdf (ds : Dataset) (path : string) : M unit :=
  let* c := contents (coords ds) in
  let* v := contents (data_vars ds) in
  write_file path (mkFile c v).

End Xr.

Import Xr.

(** ** The module [postprocess.py] *)

Definition atm_always_include : list string :=
  ["LANDFRAC"; "GRIDAREA"; "gw"; "date"; "time_bnds"].
Definition lnd_always_include : list string :=
  ["area"; "landfrac"; "landmask"; "pftmask"; "PCT_LANDUNIT"].
Definition pressure_variables : list string :=
  ["P0"; "hyam"; "hybm"; "PS"; "hyai"; "hybi"; "ilev"].
Definition Ghan_vars : list string :=
  ["SWDIR"; "LWDIR"; "DIR"; "SWCF"; "LWCF"; "NCFT"; "SW_rest"; "LW_rest"].

(** Python results lifted over lists. *)
Fixpoint mapR {A B} (f : A -> result B) (l : list A) : result (list B) :=
  match l with
  | [] => Ok []
  | x :: l' =>
      match f x with
      | Raise e => Raise e
      | Ok y => match mapR f l' with Raise e => Raise e | Ok r => Ok (y :: r) end
      end
  end.

(** [ds_.time_bnds.isel(nbnd=0)]. *)
Definition time_bnds_start (ds_ : Dataset) : M var_obj :=
  let* b := getattr ds_ "time_bnds" in
  let* v := deref b in
  lift (da_isel v "nbnd" 0).

(** [list(a + np.timedelta64(n, 'D'))], as the values of a coordinate: the
    sum is defined on datetime64 arrays only, and only the list of a
    one-dimensional array can be the data of a one-dimensional coordinate. *)
Definition list_plus_days (n : Z) (a : ndarray) : M ndarray :=
  match a with
  | M8 x =>
      match nd_map (add_days n) x with
      | Leaf _ => raise TypeError
      | Node xs =>
          match to_list1 (Node xs) with
          | Some l => ret (M8 (of_list1 l))
          | None => raise (ValueError "dimensions must have the same length as the number of data dimensions")
          end
      end
  | _ => raise TypeError
  end.

Definition fix_cam_time (ds : Dataset) (timetype : string) : M Dataset :=
  (* Make compatible variable names for CAM and CLM *)
  let* ds_ := copy true ds in
  let* ds_ :=
    if mem "time_bounds" (names (data_vars ds_)) then
      let* ds_ := rename_vars ds_ "time_bounds" "time_bnds" in
      rename_dims ds_ "hist_interval" "nbnd"
    else ret ds_ in
  (* monthly data: refer data to the 15th of the month *)
  let* dates :=
    if bool_decide (timetype = "DatetimeNoLeap") then
      let* sm := time_bnds_start ds_ in
      let* months := lift (dt_values dt_month sm) in
      let* sy := time_bnds_start ds_ in
      let* years := lift (dt_values dt_year sy) in
      let* dates := lift (mapR (fun ym => DatetimeNoLeap ym.1 ym.2 15) (zip years months)) in
      ret (Obj (of_list1 dates))
    else if bool_decide (timetype = "datetime64") then
      let* s := time_bnds_start ds_ in
      list_plus_days 14 (data s)
    else
      raise (ValueError "time type not supported. Choose 'DatetimeNoLeap' or 'datetime64'") in
  let* t := getattr ds "time" in
  let* tv := deref t in
  assign_coords ds "time" "time" dates (attrs tv).

(** The catalog: categories in the order of the dictionary literal. *)
Definition variables_by_component (comp : string) (bvoc : bool)
    : result (list (string * list string)) :=
  if bool_decide (comp = "atm") then
    Ok [("BVOC", ["SFisoprene"; "SFmonoterp"]);
        ("SOA", ["N_AER"; "DOD550"; "SOA_A1"; "SOA_NA"; "cb_SOA_A1"; "cb_SOA_NA";
                 "cb_SOA_A1_OCW"; "cb_SOA_NA_OCW"]);
        ("CLOUDPROP", ["ACTNL"; "ACTREL"; "CDNUMC"; "CLDHGH"; "CLDLOW"; "CLDMED"; "CLDTOT";
                       "CLDLIQ"; "CLOUD"; "CLOUDCOVER_CLUBB"; "FCTL"; "NUMLIQ"; "TGCLDLWP"]);
        ("RADIATIVE", ["FSDS"; "FSNS"; "FLNT"; "FSNT"; "FLNT_DRF"; "FLNTCDRF"; "FSNTCDRF";
                       "FSNT_DRF"; "LWCF"; "SWCF"]);
        ("TURBFLUXES", ["LHFLX"; "SHFLX"])]
  else if bool_decide (comp = "lnd") then
    let lnd_vars := ["PCT_NAT_PFT"; "TLAI"] in
    let biogeochem_vars := ["GPP"; "NPP"; "NEE"; "NEP"; "STORVEGN"; "TOTPFTN"; "TOTVEGN";
                            "TOTCOLC"; "TOTECOSYSC"; "TOTPFTC"; "TOTVEGC"; "STORVEGC"] in
    let evap_vars := ["QFLX_EVAP_TOT"; "FCEV"; "FCTR"; "FGEV"; "QSOIL"; "QVEGE"; "QVEGT"] in
    if bvoc then
      Ok [("LAND", (["MEG_isoprene"; "MEG_limonene"; "MEG_myrcene"; "MEG_ocimene_t_b";
                    "MEG_pinene_a"; "MEG_pinene_b"; "MEG_sabinene"] ++ lnd_vars)%list);
          ("BIOGEOCHEM", biogeochem_vars);
          ("ET", evap_vars)]
    else
      Ok [("LAND", lnd_vars);
          ("BIOGEOCHEM", biogeochem_vars);
          ("ET", evap_vars)]
  else Raise (UnboundLocalError "variables").

(** Truth value of the [fix_timestamp] argument ([None] or a string). *)
Definition truthy (o : option string) : bool :=
  match o with
  | Some s => negb (bool_decide (s = EmptyString))
  | None => false
  end.

(** The variable selection of [create_dataset] (the [else] branch, for a
    component already checked to be 'atm' or 'lnd'). *)
Definition select_variables (casename comp : string) (pressure_vars : bool)
    : result (list string) :=
  let bvoc := true in
  let '(variables, bvoc) :=
    if bool_decide (comp = "atm") then
      (if pressure_vars then (atm_always_include ++ pressure_variables)%list
       else atm_always_include, bvoc)
    else
      (lnd_always_include, if 0 <? find casename "OFF" then false else bvoc) in
  match variables_by_component comp bvoc with
  | Raise e => Raise e
  | Ok cat => Ok (variables ++ concat (List.map snd cat))%list
  end.

(** [open_files] stands for [glob.glob], the sort and [xr.open_mfdataset]:
    from the file pattern to the merged dataset (or the error of the I/O
    layer). Printing is not modelled.

    First part of [create_dataset]: the merged dataset, with its time
    coordinate corrected when asked. *)
Definition merged_dataset (open_files : string -> M Dataset)
    (raw_path casename comp history_field : string)
    (fix_timestamp : option string) : M Dataset :=
  (* Set model name by comp *)
  let* model :=
    if bool_decide (comp = "atm") then ret "cam"
    else if bool_decide (comp = "lnd") then ret "clm2"
    else raise (ValueError "component not supported. Choose 'atm' or 'lnd'") in
  (* Import all dataset *)
  let fp := (raw_path ++ casename ++ "/" ++ comp ++ "/hist/" ++ casename ++ "."
             ++ model ++ "." ++ history_field ++ ".*.nc")%string in
  let* ds := open_files fp in
  (* Fix timestamp of model data *)
  if truthy fix_timestamp && bool_decide (history_field = "h0") then
    fix_cam_time ds (default EmptyString fix_timestamp)
  else ret ds.

Definition create_dataset (open_files : string -> M Dataset)
    (raw_path casename comp history_field : string) (full_dset : bool)
    (fix_timestamp : option string) (spinup_months : Z) (pressure_vars : bool)
    : M Dataset :=
  let* ds := merged_dataset open_files raw_path casename comp history_field fix_timestamp in
  (* Remove spinup months of data set *)
  let* t := getattr ds "time" in
  let* n := len t in
  let* ds := isel ds "time" spinup_months n in
  if full_dset then ret ds
  else
    let* variables := lift (select_variables casename comp pressure_vars) in
    getitem_list ds variables.

Definition bindR {A B} (r : result A) (k : A -> result B) : result B :=
  match r with
  | Ok a => k a
  | Raise e => Raise e
  end.

(** One iteration of the loop of [fix_units]. *)
Definition fix_units_step (ds_ : Dataset) (var : string) : M unit :=
  if bool_decide (var = "SFisoprene") || bool_decide (var = "SFmonoterp") then
    let* _ := set_values ds_ var (fun v =>
      bindR (mul_scalar v 1e+6) (fun v => mul_scalar v (inject_Z (60 * 60 * 24 * 365)))) in
    set_attr ds_ var "units" "mg/m$^2$/y"
  else if bool_decide (var = "SOA_A1") || bool_decide (var = "SOA_NA") then
    let* _ := set_values ds_ var (fun v => mul_scalar v 1e+9) in
    set_attr ds_ var "units" "$\mu$g/kg"
  else if bool_decide (var = "cb_SOA_A1") || bool_decide (var = "cb_SOA_NA")
          || bool_decide (var = "cb_SOA_A1_OCW") || bool_decide (var = "cb_SOA_NA_OCW") then
    let* _ := set_values ds_ var (fun v => mul_scalar v 1e+6) in
    set_attr ds_ var "units" "mg/m$^2$"
  else if bool_decide (var = "ACTNL") then
    let* _ := set_values ds_ var (fun v => mul_scalar v 1e+6) in
    set_attr ds_ var "units" "cm$^{-3}$"
  else if bool_decide (var = "CDNUMC") then
    let* _ := set_values ds_ var (fun v => mul_scalar v 1e-10) in
    set_attr ds_ var "units" "1e6 cm$^{-2}$"
  else if bool_decide (var = "CLDHGH") || bool_decide (var = "CLDLOW")
          || bool_decide (var = "CLDMED") || bool_decide (var = "CLDMED") then
    let* _ := set_values ds_ var (fun v => mul_scalar v 1e+3) in
    set_attr ds_ var "units" "g/kg"
  else if bool_decide (var = "CLDLIQ") then
    let* _ := set_values ds_ var (fun v => mul_scalar v 1e+6) in
    set_attr ds_ var "units" "mg/kg"
  else if bool_decide (var = "TGCLDLWP") then
    let* _ := set_values ds_ var (fun v => mul_scalar v 1e+3) in
    set_attr ds_ var "units" "g/m$^2$"
  else if bool_decide (var = "QFLX_EVAP_TOT") then
    let* _ := set_values ds_ var (fun v =>
      bindR (bindR (mul_scalar v 60) (fun v => mul_scalar v 60)) (fun v => mul_scalar v 24)) in
    set_attr ds_ var "units" "mm/day"
  else if bool_decide (var = "FLNT") || bool_decide (var = "FSNT")
          || bool_decide (var = "FLNT_DRF") || bool_decide (var = "FLNTCDRF")
          || bool_decide (var = "FSNT_DRF") || bool_decide (var = "FSNTCDRF")
          || bool_decide (var = "LHFLX") || bool_decide (var = "SHFLX") then
    set_attr ds_ var "units" "W/m$^2$"
  else ret tt.

Definition fix_units (ds : Dataset) : M Dataset :=
  let* ds_ := copy true ds in
  let* _ := forM_ (fix_units_step ds_) (names (data_vars ds_)) in
  ret ds_.

(** [da.rename(new)]: a new data array with another name; the dataset the
    array was taken from is not touched. *)
Definition da_rename (v : var_obj) (new : string) : M (string * var_obj) :=
  ret (new, v).

(** [ds[name]] as a data array value. *)
Definition read (ds : Dataset) (n : string) : M var_obj :=
  let* p := getitem ds n in
  deref p.

(** One iteration of the loop of [fix_names]. *)
Definition fix_names_step (ds_ : Dataset) (var : string) : M unit :=
  if bool_decide (var = "SOA_A1") then
    set_attr ds_ var "long_name"
      "SOA_A1 concentration - SOA condensate on existing particles from SOAGSV (gas)"
  else if bool_decide (var = "SOA_NA") then
    set_attr ds_ var "long_name"
      "SOA_NA concentration - SOA formed by co-nucleation with SO4"
  else if bool_decide (var = "cb_SOA_A1") then
    set_attr ds_ var "long_name"
      "SOA_A1 burden column - SOA condensate on existing particles from SOAGSV (gas)"
  else if bool_decide (var = "cb_SOA_NA") then
    set_attr ds_ var "long_name"
      "SOA_NA burden column - SOA formed by co-nucleation with SO4"
  else if bool_decide (var = "cb_SOA_A1_OCW") then
    set_attr ds_ var "long_name"
      "SOA_A1 burden column in cloud water - SOA condensate on existing particles from SOAGSV (gas)"
  else if bool_decide (var = "cb_SOA_NA_OCW") then
    set_attr ds_ var "long_name"
      "SOA_NA burden column in cloud water - SOA formed by co-nucleation with SO4"
  else if bool_decide (var = "TGCLDLWP") then
    let* v := read ds_ var in
    let* _ := da_rename v "LWP" in
    set_attr ds_ var "CLM5_name" "TGCLDLWP"
  else if bool_decide (var = "QFLX_EVAP_TOT") then
    let* v := read ds_ var in
    let* _ := da_rename v "ET" in
    set_attr ds_ var "CLM5_name" "QFLX_EVAP_TOT"
  else ret tt.

Definition fix_names (ds : Dataset) : M Dataset :=
  let* ds_ := copy true ds in
  let* _ := forM_ (fix_names_step ds_) (names (data_vars ds_)) in
  ret ds_.

(** [ds_[var] = <expression>] followed by the attribute assignments. *)
Definition copy_units (ds_ : Dataset) (var src : string) : M unit :=
  let* u := get_attr ds_ src "units" in
  set_attr ds_ var "units" u.

(** One iteration of the first loop of the decomposition: the eight tests
    follow each other (they are not alternatives). *)
Definition ghan_derive (ds_ : Dataset) (var : string) : M Dataset :=
  let* ds_ :=
    if bool_decide ("SWDIR" = var) then
      let* a := read ds_ "FSNT" in
      let* b := read ds_ "FSNT_DRF" in
      let* r := da_binop Qminus a b in
      let* ds_ := setitem ds_ var r in
      let* _ := copy_units ds_ var "FSNT_DRF" in
      let* _ := set_attr ds_ var "long_name"
        "Shortwave aerosol direct radiative forcing - Ghan's scomposition" in
      ret ds_
    else ret ds_ in
  let* ds_ :=
    if bool_decide ("LWDIR" = var) then
      let* a := read ds_ "FLNT" in
      let* b := read ds_ "FLNT_DRF" in
      let* d := da_binop Qminus a b in
      let* r := da_neg d in
      let* ds_ := setitem ds_ var r in
      let* _ := copy_units ds_ var "FLNT_DRF" in
      let* _ := set_attr ds_ var "long_name"
        "Longwave aerosol direct radiative forcing - Ghan's scomposition" in
      ret ds_
    else ret ds_ in
  let* ds_ :=
    if bool_decide ("DIR" = var) then
      let* a := read ds_ "LWDIR" in
      let* b := read ds_ "SWDIR" in
      let* r := da_binop Qplus a b in
      let* ds_ := setitem ds_ var r in
      let* _ := copy_units ds_ var "LWDIR" in
      let* _ := set_attr ds_ var "long_name"
        "Net aerosol direct radiative forcing - Ghan's scomposition" in
      ret ds_
    else ret ds_ in
  let* ds_ :=
    if bool_decide ("SWCF" = var) then
      let* a := read ds_ "FSNT_DRF" in
      let* b := read ds_ "FSNTCDRF" in
      let* r := da_binop Qminus a b in
      let* ds_ := setitem ds_ var r in
      let* _ := copy_units ds_ var "FSNT_DRF" in
      let* _ := set_attr ds_ var "long_name"
        "Shortwave cloud radiative forcing - Ghan's scomposition" in
      ret ds_
    else ret ds_ in
  let* ds_ :=
    if bool_decide ("LWCF" = var) then
      let* a := read ds_ "FLNT_DRF" in
      let* b := read ds_ "FLNTCDRF" in
      let* d := da_binop Qminus a b in
      let* r := da_neg d in
      let* ds_ := setitem ds_ var r in
      let* _ := copy_units ds_ var "FLNT_DRF" in
      let* _ := set_attr ds_ var "long_name"
        "Longwave cloud radiative forcing - Ghan's scomposition" in
      ret ds_
    else ret ds_ in
  let* ds_ :=
    if bool_decide ("NCFT" = var) then
      let* a := read ds_ "FSNT_DRF" in
      let* b := read ds_ "FSNTCDRF" in
      let* ab := da_binop Qminus a b in
      let* c := read ds_ "FLNT_DRF" in
      let* d := read ds_ "FLNTCDRF" in
      let* cd := da_binop Qminus c d in
      let* r := da_binop Qminus ab cd in
      let* ds_ := setitem ds_ var r in
      let* _ := copy_units ds_ var "FLNT_DRF" in
      let* _ := set_attr ds_ var "long_name"
        "Net cloud radiative forcing - Ghan's scomposition" in
      ret ds_
    else ret ds_ in
  let* ds_ :=
    if bool_decide ("SW_rest" = var) then
      let* r := read ds_ "FSNTCDRF" in
      let* ds_ := setitem ds_ var r in
      let* _ := set_attr ds_ var "long_name"
        "Shortwave surface albedo radiative forcing - Ghan's scomposition" in
      ret ds_
    else ret ds_ in
  if bool_decide ("LW_rest" = var) then
    let* r := read ds_ "FLNTCDRF" in
    let* ds_ := setitem ds_ var r in
    let* _ := set_attr ds_ var "long_name"
      "Clear sky total column longwave flux - Ghan's scomposition" in
    ret ds_
  else ret ds_.

(** One iteration of the second loop: the Ghan names of the six fluxes. *)
Definition ghan_annotate (ds_ : Dataset) (var : string) : M unit :=
  if bool_decide (var = "FSNT") then
    let* _ := set_attr ds_ var "Ghan_name" "SWTOT" in
    set_attr ds_ var "Ghan_long_name" "Shortwave total forcing at TOA"
  else if bool_decide (var = "FLNT") then
    let* _ := set_attr ds_ var "Ghan_name" "LWTOT" in
    set_attr ds_ var "Ghan_long_name" "Longwave total forcing at TOA"
  else if bool_decide (var = "FSNT_DRF") then
    let* _ := set_attr ds_ var "Ghan_name" "SW_clean" in
    set_attr ds_ var "Ghan_long_name"
      "Shortwave without direct aerosol forcing (scattering, absorbing)"
  else if bool_decide (var = "FSNTCDRF") then
    let* _ := set_attr ds_ var "Ghan_name" "SW_clean_clear" in
    set_attr ds_ var "Ghan_long_name" "Shortwave without direct aerosol and cloud forcing"
  else if bool_decide (var = "FLNT_DRF") then
    let* _ := set_attr ds_ var "Ghan_name" "LW_clean" in
    set_attr ds_ var "Ghan_long_name"
      "Longwave without direct aerosol forcing (scattering, absorbing)"
  else if bool_decide (var = "FLNTCDRF") then
    let* _ := set_attr ds_ var "Ghan_name" "LW_clean_clear" in
    set_attr ds_ var "Ghan_long_name" "Longwave without direct aerosol and cloud forcing"
  else ret tt.

(** The body of the [if] of the decomposition: both loops. *)
Definition ghan_body (ds_ : Dataset) : M Dataset :=
  let* ds_ := foldM ghan_derive ds_ Ghan_vars in
  let* _ := forM_ (ghan_annotate ds_) (names (data_vars ds_)) in
  ret ds_.

(** The test of the [if]: is the list of the six names an element of the
    list of the names of the data variables? *)
Definition ghan_guard (ds : Dataset) : bool :=
  contains (List ["FLNT"; "FSNT"; "FLNT_DRF"; "FLNTCDRF"; "FSNTCDRF"; "FSNT_DRF"])
           (List.map Str (names (data_vars ds))).

Definition aerosol_cloud_forcing_scomposition_Ghan (ds : Dataset) : M Dataset :=
  let* ds_ := copy true ds in
  if ghan_guard ds then ghan_body ds_ else ret ds_.

(** One iteration of the loop of [save_postprocessed]: the accumulated
    selection after the category, and the file written for it. *)
Definition save_step (ds : Dataset) (component processed_path casealias date : string)
    (variables : list string) (cat : string) : M (list string) :=
  let* c := lift (variables_by_component component true) in
  let* vs := lift_opt (KeyError cat) (assoc cat c) in
  let variables := (variables ++ vs)%list in
  let* variables :=
    if bool_decide (cat = "RADIATIVE") then
      let* c := lift (variables_by_component component true) in
      let* tf := lift_opt (KeyError "TURBFLUXES") (assoc "TURBFLUXES" c) in
      ret (variables ++ Ghan_vars ++ tf)%list
    else ret variables in
  if bool_decide (cat = "TURBFLUXES") then ret variables (* merge turbfluxes with radiative *)
  else
    let file_out := (casealias ++ "_" ++ cat ++ "_" ++ date ++ ".nc")%string in
    let* sel := getitem_list ds variables in
    let* _ := to_netcdf sel (processed_path ++ file_out)%string in
    ret variables.

(** [ds.time.dt.year.values]. *)
Definition time_years (ds : Dataset) : M (list Z) :=
  let* t := getattr ds "time" in
  let* tv := deref t in
  lift (dt_values dt_year tv).

Definition save_postprocessed (ds : Dataset) (component processed_path casealias : string)
    (pressure_vars : bool) : M unit :=
  let* ys := time_years ds in
  let* y0 := lift_opt IndexError (head ys) in
  let* ys' := time_years ds in
  let* y1 := lift_opt IndexError (last ys') in
  let date := (str y0 ++ str y1)%string in
  let* c := lift (variables_by_component component true) in
  let categories := names c in
  let* variables :=
    if bool_decide (component = "atm") then
      ret (if pressure_vars then (atm_always_include ++ pressure_variables)%list
           else atm_always_include)
    else if bool_decide (component = "lnd") then ret lnd_always_include
    else raise (UnboundLocalError "variables") in
  let* _ := foldM (save_step ds component processed_path casealias date) variables categories in
  ret tt.


(** ** Vocabulary of the statements *)

(** The objects that a list of bindings refers to. *)
Definition holds (w : world) (l : list (string * loc)) (vs : list var_obj) : Prop :=
  Forall2 (fun p v => heap w !! p.2 = Some v) l vs.

(** Every variable of the dataset is a live object of the store. *)
Definition valid (w : world) (ds : Dataset) : Prop :=
  exists vs, holds w (variables ds) vs.

(** The variable object that a name denotes in a dataset. *)
Definition snap (w : world) (ds : Dataset) (n : string) : option var_obj :=
  match assoc n (variables ds) with
  | Some p => heap w !! p
  | None => None
  end.

Definition snapl (w : world) (l : list (string * loc)) (n : string) : option var_obj :=
  match assoc n l with
  | Some p => heap w !! p
  | None => None
  end.

(** The data of a bounds variable: one pair (start, end) per interval. *)
Definition bounds_nd {A} (b : list (A * A)) : nd A :=
  Node (List.map (fun p => Node [Leaf p.1; Leaf p.2]) b).

(** The interval starts held by the data of a bounds variable. *)
Definition bounds_starts (a : ndarray) (starts : list instant) : Prop :=
  (exists b, a = M8 (bounds_nd b) /\ starts = List.map (fun p => Dt64 p.1) b) \/
  (exists b, a = Obj (bounds_nd b) /\ starts = List.map (fun p => Cf p.1) b).

(** A start from which [DatetimeNoLeap] can be built: a datetime64 other
    than NaT, or a cftime date with a month in 1..12. *)
Definition start_ok (t : instant) : Prop :=
  match t with
  | Dt64 ns => ns <> NaT
  | Cf c => 1 <= cf_month c <= 12
  end.

(** The representative time of an interval that starts at [t]. *)
Definition representative (timetype : string) (t : instant) : instant :=
  if bool_decide (timetype = "DatetimeNoLeap") then
    Cf (mkCf (dt_year t) (dt_month t) 15 0 0 0)
  else
    match t with
    | Dt64 ns => Dt64 (add_days 14 ns)
    | Cf c => Cf c
    end.

(** A variable object with one dimension renamed. *)
Definition rename_dim_obj (old new : string) (v : var_obj) : var_obj :=
  mkVar (List.map (fun d => if bool_decide (d = old) then new else d) (dims v))
        (data v) (attrs v).

(** The table that the chain of tests of [fix_units] implements: scale
    factor and new unit per variable. *)
Definition unit_table : list (string * (Q * string)) :=
  [("SFisoprene", (31536000000000, "mg/m$^2$/y")); ("SFmonoterp", (31536000000000, "mg/m$^2$/y"));
   ("SOA_A1", (1e+9, "$\mu$g/kg")); ("SOA_NA", (1e+9, "$\mu$g/kg"));
   ("cb_SOA_A1", (1e+6, "mg/m$^2$")); ("cb_SOA_NA", (1e+6, "mg/m$^2$"));
   ("cb_SOA_A1_OCW", (1e+6, "mg/m$^2$")); ("cb_SOA_NA_OCW", (1e+6, "mg/m$^2$"));
   ("ACTNL", (1e+6, "cm$^{-3}$"));
   ("CDNUMC", (1e-10, "1e6 cm$^{-2}$"));
   ("CLDHGH", (1e+3, "g/kg")); ("CLDLOW", (1e+3, "g/kg")); ("CLDMED", (1e+3, "g/kg"));
   ("CLDLIQ", (1e+6, "mg/kg"));
   ("TGCLDLWP", (1e+3, "g/m$^2$"));
   ("QFLX_EVAP_TOT", (86400, "mm/day"))]%Q.

(** The variables whose unit label alone is rewritten. *)
Definition label_table : list (string * string) :=
  List.map (fun n => (n, "W/m$^2$"))
    ["FLNT"; "FSNT"; "FLNT_DRF"; "FLNTCDRF"; "FSNT_DRF"; "FSNTCDRF"; "LHFLX"; "SHFLX"].

(** What the tables ask of one variable: its values scaled and its unit
    replaced, or its unit alone replaced, or nothing. *)
Definition units_of (n : string) (v : var_obj) : result var_obj :=
  match assoc n unit_table with
  | Some (f, u) =>
      match data v with
      | F64 x => Ok (mkVar (dims v) (F64 (nd_map (fun q => Qmult q f) x))
                           (<["units" := u]> (attrs v)))
      | _ => Raise TypeError
      end
  | None =>
      match assoc n label_table with
      | Some u => Ok (mkVar (dims v) (data v) (<["units" := u]> (attrs v)))
      | None => Ok v
      end
  end.

(** The relation between a variable and its rewriting by [fix_units]. *)
Definition units_rewritten (n : string) (v v' : var_obj) : Prop :=
  dims v' = dims v /\
  match assoc n unit_table with
  | Some (f, u) =>
      (exists x, data v = F64 x /\ data v' = F64 (nd_map (fun q => Qmult q f) x)) /\
      attrs v' = <["units" := u]> (attrs v)
  | None =>
      match assoc n label_table with
      | Some u => data v' = data v /\ attrs v' = <["units" := u]> (attrs v)
      | None => v' = v
      end
  end.

(** The relation between a variable and what two runs of [fix_units] make
    of it: the scale factor is applied twice. *)
Definition units_rewritten_twice (n : string) (v v' : var_obj) : Prop :=
  dims v' = dims v /\
  match assoc n unit_table with
  | Some (f, u) =>
      (exists x, data v = F64 x /\
                 data v' = F64 (nd_map (fun q => Qmult (Qmult q f) f) x)) /\
      attrs v' = <["units" := u]> (attrs v)
  | None =>
      match assoc n label_table with
      | Some u => data v' = data v /\ attrs v' = <["units" := u]> (attrs v)
      | None => v' = v
      end
  end.

(** The annotations of [fix_names]: attribute and value per variable. *)
Definition name_table : list (string * (string * string)) :=
  [("SOA_A1", ("long_name",
      "SOA_A1 concentration - SOA condensate on existing particles from SOAGSV (gas)"));
   ("SOA_NA", ("long_name", "SOA_NA concentration - SOA formed by co-nucleation with SO4"));
   ("cb_SOA_A1", ("long_name",
      "SOA_A1 burden column - SOA condensate on existing particles from SOAGSV (gas)"));
   ("cb_SOA_NA", ("long_name", "SOA_NA burden column - SOA formed by co-nucleation with SO4"));
   ("cb_SOA_A1_OCW", ("long_name",
      "SOA_A1 burden column in cloud water - SOA condensate on existing particles from SOAGSV (gas)"));
   ("cb_SOA_NA_OCW", ("long_name",
      "SOA_NA burden column in cloud water - SOA formed by co-nucleation with SO4"));
   ("TGCLDLWP", ("CLM5_name", "TGCLDLWP"));
   ("QFLX_EVAP_TOT", ("CLM5_name", "QFLX_EVAP_TOT"))].

Definition names_of (n : string) (v : var_obj) : var_obj :=
  match assoc n name_table with
  | Some (k, x) => mkVar (dims v) (data v) (<[k := x]> (attrs v))
  | None => v
  end.

(** A variable sliced along a dimension, when it has that dimension. *)
Definition isel_obj (d : string) (start stop : Z) (v : var_obj) : var_obj :=
  match dim_index d (dims v) with
  | None => v
  | Some k => mkVar (dims v) (arr_slice_axis k start stop (data v)) (attrs v)
  end.

(** The slabs of an array along its leading axis. *)
Definition rows (a : ndarray) : option (list ndarray) :=
  match a with
  | F64 (Node xs) => Some (List.map F64 xs)
  | M8 (Node xs) => Some (List.map M8 xs)
  | Obj (Node xs) => Some (List.map Obj xs)
  | _ => None
  end.

(** The time steps of a variable whose leading dimension is time. *)
Definition time_steps (v : var_obj) : option (list ndarray) :=
  match dims v with
  | d :: _ => if bool_decide (d = "time") then rows (data v) else None
  | [] => None
  end.

(** A computation that never changes the store nor the files. *)
Definition reads {A} (c : M A) : Prop :=
  forall w r w', c w = (r, w') -> w' = w.

(** The biogenic-emission variables of the land catalog. *)
Definition MEG_vars : list string :=
  ["MEG_isoprene"; "MEG_limonene"; "MEG_myrcene"; "MEG_ocimene_t_b";
   "MEG_pinene_a"; "MEG_pinene_b"; "MEG_sabinene"].

(** The always-included variables of a component (with the pressure
    variables for the atmosphere, when asked). *)
Definition base_selection (component : string) (pressure_vars : bool) : list string :=
  if bool_decide (component = "atm") then
    if pressure_vars then (atm_always_include ++ pressure_variables)%list
    else atm_always_include
  else lnd_always_include.

(** What a category adds to the running selection: its variables and, at
    RADIATIVE, the Ghan variables and the turbulent fluxes. *)
Definition category_adds (catalog : list (string * list string))
    (c : string * list string) : list string :=
  (c.2 ++ if bool_decide (c.1 = "RADIATIVE")
          then Ghan_vars ++ default [] (assoc "TURBFLUXES" catalog) else [])%list.

(** The selection accumulated once the first [k] categories are done. *)
Definition cumulative (catalog : list (string * list string)) (base : list string)
    (k : nat) : list string :=
  (base ++ concat (List.map (category_adds catalog) (take k catalog)))%list.

(** The name of the file of a category. *)
Definition file_name (casealias cat : string) (y0 y1 : Z) : string :=
  (casealias ++ "_" ++ cat ++ "_" ++ (str y0 ++ str y1) ++ ".nc")%string.

(** A file that holds the selection [l] of the dataset: its data variables
    are the selected data variables, every selected name is in the file, and
    the contents are those of the dataset. *)
Definition file_holds (w : world) (ds : Dataset) (l : list string) (f : file) : Prop :=
  names (file_vars f) =
    List.filter (fun n => mem n (names (data_vars ds))) (dedup l) /\
  (forall n v, (n, v) ∈ file_vars f -> snapl w (data_vars ds) n = Some v) /\
  (forall n v, (n, v) ∈ file_coords f -> snapl w (coords ds) n = Some v) /\
  (forall n, n ∈ l -> n ∈ names (file_coords f) \/ n ∈ names (file_vars f)).

(** A time value whose calendar fields are defined. *)
Definition not_NaT (t : instant) : Prop :=
  match t with
  | Dt64 ns => ns <> NaT
  | Cf _ => True
  end.

(** The categories for which a file is written, with their position in the
    catalog: all but TURBFLUXES, in catalog order. *)
Definition written (catalog : list (string * list string)) : list (nat * string) :=
  List.filter (fun ic => negb (bool_decide (ic.2 = "TURBFLUXES")))
              (zip (seq 0 (length catalog)) (names catalog)).



Definition upd (s : string -> option var_obj) (n : string) (v : var_obj)
    : string -> option var_obj :=
  fun m => if bool_decide (m = n) then Some v else s m.





(** The store only grew: every object that existed is unchanged. *)
Definition untouched (w w' : world) : Prop :=
  exists new, heap w' = (heap w ++ new)%list.

(** The pattern of the history files of a case: the model is [cam] for the
    atmosphere and [clm2] for the land. *)
Definition file_pattern (raw_path casename comp history_field : string) : string :=
  (raw_path ++ casename ++ "/" ++ comp ++ "/hist/" ++ casename ++ "." ++
   (if bool_decide (comp = "atm") then "cam" else "clm2") ++ "." ++
   history_field ++ ".*.nc")%string.


(** The two halves of the calendar conversions, within one 400-year era:
    from (year of era, month counted from March, day) to the day of the era
    and back. *)
Definition doe_of (yoe mp d : Z) : Z :=
  yoe * 365 + yoe / 4 - yoe / 100 + ((153 * mp + 2) / 5 + d - 1).

Definition of_doe (doe : Z) : Z * Z * Z :=
  let yoe := (doe - doe / 1460 + doe / 36524 - doe / 146096) / 365 in
  let doy := doe - (365 * yoe + yoe / 4 - yoe / 100) in
  let mp := (5 * doy + 2) / 153 in
  (yoe, mp, doy - (153 * mp + 2) / 5 + 1).

(** A datetime64 value that the 64-bit representation can hold. *)
Definition int64 (z : Z) : Prop := - 2 ^ 63 <= z < 2 ^ 63.


(** ** Concrete stores used to exercise the statements *)

Module Ex.

(** A monthly CAM history: two months of 2008, stamped at the end of each
    interval as the model writes them. *)
Definition time : var_obj :=
  mkVar ["time"] (M8 (of_list1 [datetime64_of 2008 2 1; datetime64_of 2008 3 1]))
        {["long_name" := "time"]}.

Definition time_bnds : var_obj :=
  mkVar ["time"; "nbnd"]
        (M8 (bounds_nd [(datetime64_of 2008 1 1, datetime64_of 2008 2 1);
                        (datetime64_of 2008 2 1, datetime64_of 2008 3 1)]))
        {["long_name" := "time interval endpoints"]}.

(** A field over time with the same value at both steps. *)
Definition field (q : Q) : var_obj :=
  mkVar ["time"] (F64 (of_list1 [q; q])) {["units" := "W/m2"]}.

(** The six fluxes of the decomposition, with the values of the example of
    the specification. *)
Definition fluxes : list (string * var_obj) :=
  [("FLNT", field 5); ("FSNT", field 10); ("FLNT_DRF", field 3);
   ("FLNTCDRF", field 2); ("FSNTCDRF", field 4); ("FSNT_DRF", field 7)].

(** A dataset that lacks the clean-sky fluxes. *)
Definition partial : list (string * var_obj) :=
  [("FLNT", field 5); ("FSNT", field 10)].

(** A few aerosol and cloud variables, with one that no table lists. *)
Definition aerosols : list (string * var_obj) :=
  [("SOA_A1", field 2); ("FLNT", field 5); ("TGCLDLWP", field 1); ("T", field 280)].

(** Every variable that the writer selects for the atmosphere (the bounds
    of the time coordinate are in every example dataset). *)
Definition atm_output : list (string * var_obj) :=
  List.map (fun n => (n, field 1))
    ["LANDFRAC"; "GRIDAREA"; "gw"; "date"; "SFisoprene"; "SFmonoterp";
     "N_AER"; "DOD550"; "SOA_A1"; "SOA_NA"; "cb_SOA_A1"; "cb_SOA_NA";
     "cb_SOA_A1_OCW"; "cb_SOA_NA_OCW";
     "ACTNL"; "ACTREL"; "CDNUMC"; "CLDHGH"; "CLDLOW"; "CLDMED"; "CLDTOT";
     "CLDLIQ"; "CLOUD"; "CLOUDCOVER_CLUBB"; "FCTL"; "NUMLIQ"; "TGCLDLWP";
     "FSDS"; "FSNS"; "FLNT"; "FSNT"; "FLNT_DRF"; "FLNTCDRF"; "FSNTCDRF";
     "FSNT_DRF"; "LWCF"; "SWCF"; "LHFLX"; "SHFLX";
     "SWDIR"; "LWDIR"; "DIR"; "NCFT"; "SW_rest"; "LW_rest"].

(** A store holding the time coordinate, the bounds and the given fields,
    and the dataset that names them. *)
Definition world_of (vars : list (string * var_obj)) : world :=
  mkWorld (time :: time_bnds :: List.map snd vars) [].

Definition dataset_of (vars : list (string * var_obj)) : Dataset :=
  mkDs [("time", 0%nat)]
       (("time_bnds", 1%nat) :: zip (List.map fst vars) (seq 2 (length vars))).

(** A directory of history files that merge into the six fluxes. *)
Definition open_files (pattern : string) : M Dataset :=
  ret (dataset_of fluxes).

(** History files that merge into every variable selected for the
    atmosphere, and a directory without any file. *)
Definition open_atm_files (pattern : string) : M Dataset :=
  ret (dataset_of atm_output).

Definition no_files (pattern : string) : M Dataset :=
  raise (OutOfModel "no files to open").

(** A monthly CLM history: the bounds are called [time_bounds] and lie over
    [hist_interval]; the second interval starts in the middle of a month. *)
Definition time_bounds : var_obj :=
  mkVar ["time"; "hist_interval"]
        (M8 (bounds_nd [(datetime64_of 2008 1 1, datetime64_of 2008 2 1);
                        (datetime64_of 2008 2 10, datetime64_of 2008 3 1)]))
        {["long_name" := "history time interval endpoints"]}.

Definition clm_world : world := mkWorld [time; time_bounds; field 1] [].

Definition clm_dataset : Dataset :=
  mkDs [("time", 0%nat)] [("time_bounds", 1%nat); ("TLAI", 2%nat)].

(** A dataset without bounds, one whose time coordinate is empty, and one
    without time coordinate. *)
Definition unbounded_world : world := mkWorld [time; field 5] [].

Definition unbounded_dataset : Dataset := mkDs [("time", 0%nat)] [("FLNT", 1%nat)].

Definition no_steps : var_obj := mkVar ["time"] (M8 (of_list1 [])) ∅.

Definition stepless_world : world := mkWorld [no_steps] [].

Definition stepless_dataset : Dataset := mkDs [("time", 0%nat)] [].



End Ex.
(** * Properties *)

Local Open Scope list_scope.

(** ** Sanity checks of the helpers *)

Example find_examples :
find "IDEAL-OFF" "OFF" = 6 /\ find "OFF-IDEAL" "OFF" = 0 /\
find "IDEAL-ON" "OFF" = -1 /\ find EmptyString "OFF" = -1.
Proof. repeat split; reflexivity. Qed.

Example str_examples : str 2008 = "2008" /\ str 0 = "0" /\ str (-5) = "-5".
Proof. repeat split; reflexivity. Qed.

Example slice_examples :
slice 2 5 [1; 2; 3; 4; 5] = [3; 4; 5] /\
slice 7 5 [1; 2; 3; 4; 5] = [] /\
slice (-2) 5 [1; 2; 3; 4; 5] = [4; 5].
Proof. repeat split; reflexivity. Qed.

Example civil_examples :
days_from_civil 1970 1 1 = 0 /\ days_from_civil 2000 3 1 = 11017 /\
civil_from_days 11016 = (2000, 2, 29) /\
civil_from_days (-1) = (1969, 12, 31) /\
civil_from_days 14975 = (2011, 1, 1).
Proof. repeat split; reflexivity. Qed.

(** ** The monad *)

Lemma bind_ok {A B} (c : M A) (k : A -> M B) w a w1 :
  c w = (Ok a, w1) -> bind c k w = k a w1.
Proof. intros H. unfold bind. by rewrite H. Qed.

Lemma bind_raise {A B} (c : M A) (k : A -> M B) w e w1 :
  c w = (Raise e, w1) -> bind c k w = (Raise e, w1).
Proof. intros H. unfold bind. by rewrite H. Qed.

Lemma deref_ok l v w : heap w !! l = Some v -> deref l w = (Ok v, w).
Proof. intros H. unfold deref. by rewrite H. Qed.

Lemma holds_app_world w l vs new d :
  holds w l vs -> holds (mkWorld (heap w ++ new) d) l vs.
Proof.
  unfold holds. induction 1; constructor; auto.
  simpl. by apply lookup_app_l_Some.
Qed.

(** [copy_vars] appends the copies to the store, in order. *)
Lemma copy_vars_spec l : forall vs w,
  holds w l vs ->
  copy_vars l w =
    (Ok (zip (names l) (seq (length (heap w)) (length l))),
     mkWorld (heap w ++ vs) (disk w)).
Proof.
  induction l as [|[n p] l IH]; intros vs w H; inversion H; subst; simpl.
  - rewrite app_nil_r. by destruct w.
  - simpl in *. erewrite bind_ok; [|by apply deref_ok].
    erewrite bind_ok; [|reflexivity].
    erewrite bind_ok; [|apply IH; eapply holds_app_world; eauto].
    unfold ret. simpl. rewrite length_app. simpl.
    rewrite <- app_assoc. simpl. repeat f_equal. lia.
Qed.

Lemma holds_length w l vs : holds w l vs -> length l = length vs.
Proof. apply Forall2_length. Qed.

Lemma names_zip_seq {B} (l : list (string * B)) a :
  names (zip (names l) (seq a (length l))) = names l.
Proof.
  unfold names. rewrite fst_zip; [done|]. by rewrite length_seq, length_map.
Qed.

(** The bindings made by a copy denote the copied objects. *)
Lemma holds_zip_seq (ns : list string) vs : forall pre post d,
  length ns = length vs ->
  holds (mkWorld (pre ++ vs ++ post) d) (zip ns (seq (length pre) (length ns))) vs.
Proof.
  unfold holds. revert ns.
  induction vs as [|v vs IH]; intros [|n ns] pre post d Hl; simpl in *; try discriminate.
  - constructor.
  - constructor.
    + simpl. by rewrite lookup_app_r, Nat.sub_diag.
    + specialize (IH ns (pre ++ [v]) post d).
      rewrite length_app in IH. simpl in IH.
      rewrite <- app_assoc in IH. simpl in IH.
      replace (S (length pre)) with (length pre + 1)%nat by lia.
      apply IH. lia.
Qed.

Lemma copy_spec deep ds cvs dvs w :
  holds w (coords ds) cvs -> holds w (data_vars ds) dvs ->
  copy deep ds w =
    (Ok (mkDs (zip (names (coords ds)) (seq (length (heap w)) (length (coords ds))))
              (zip (names (data_vars ds))
                   (seq (length (heap w) + length (coords ds)) (length (data_vars ds))))),
     mkWorld (heap w ++ cvs ++ dvs) (disk w)).
Proof.
  intros Hc Hd. unfold copy.
  erewrite bind_ok; [|by apply copy_vars_spec].
  erewrite bind_ok; [|apply copy_vars_spec; eapply holds_app_world; eauto].
  unfold ret. simpl. rewrite length_app, <- app_assoc.
  by rewrite (holds_length _ _ _ Hc).
Qed.

Lemma valid_split w ds :
  valid w ds <-> exists cvs dvs, holds w (coords ds) cvs /\ holds w (data_vars ds) dvs.
Proof.
  unfold valid, variables, holds. split.
  - intros [vs H]. apply Forall2_app_inv_l in H as (cvs & dvs & ? & ? & ?). eauto.
  - intros (cvs & dvs & ? & ?). exists (cvs ++ dvs). by apply Forall2_app.
Qed.

(** ** The forcing decomposition *)

(** The list of the six names is never an element of a list of names: the
    test of the decomposition fails on every dataset. *)
Lemma ghan_guard_false ds : ghan_guard ds = false.
Proof.
  unfold ghan_guard. induction (names (data_vars ds)) as [|n l IH]; [done|].
  simpl. apply IH.
Qed.

Lemma Ghan_is_copy ds w :
  aerosol_cloud_forcing_scomposition_Ghan ds w = copy true ds w.
Proof.
  unfold aerosol_cloud_forcing_scomposition_Ghan, bind.
  rewrite ghan_guard_false. by destruct (copy true ds w) as [[]].
Qed.

(** C3. On a dataset that lacks one of the six prerequisite fluxes, the
    decomposition returns a dataset with the names of its input, bound to
    objects with the values and attributes of the input; no variable is
    added, and nothing that existed in the store is changed. *)
Theorem Ghan_missing_prerequisite_returns_input ds w cvs dvs :
  holds w (coords ds) cvs -> holds w (data_vars ds) dvs ->
  (exists n, n ∈ ["FLNT"; "FSNT"; "FLNT_DRF"; "FLNTCDRF"; "FSNTCDRF"; "FSNT_DRF"]
             /\ n ∉ names (data_vars ds)) ->
  exists ds' w',
    aerosol_cloud_forcing_scomposition_Ghan ds w = (Ok ds', w') /\
    names (coords ds') = names (coords ds) /\
    names (data_vars ds') = names (data_vars ds) /\
    holds w' (coords ds') cvs /\ holds w' (data_vars ds') dvs /\
    untouched w w' /\ disk w' = disk w.
Proof.
  intros Hc Hd _. rewrite Ghan_is_copy. erewrite copy_spec by eauto.
  eexists _, _. split; [reflexivity|]. simpl.
  pose proof (holds_length _ _ _ Hc) as Lc. pose proof (holds_length _ _ _ Hd) as Ld.
  repeat split.
  - apply names_zip_seq.
  - apply names_zip_seq.
  - pose proof (holds_zip_seq (names (coords ds)) cvs (heap w) dvs (disk w)) as H.
    unfold names in *. rewrite length_map in H. apply H. by rewrite Lc.
  - pose proof (holds_zip_seq (names (data_vars ds)) dvs (heap w ++ cvs) [] (disk w)) as H.
    unfold names in *. rewrite length_map, length_app, app_nil_r, <- app_assoc, <- Lc in H.
    apply H. by rewrite Ld.
  - by exists (cvs ++ dvs).
Qed.

Lemma Ghan_missing_prerequisite_returns_input_witness :
  exists ds' w',
    aerosol_cloud_forcing_scomposition_Ghan (Ex.dataset_of Ex.partial) (Ex.world_of Ex.partial)
      = (Ok ds', w') /\
    names (coords ds') = names (coords (Ex.dataset_of Ex.partial)) /\
    names (data_vars ds') = names (data_vars (Ex.dataset_of Ex.partial)) /\
    holds w' (coords ds') [Ex.time] /\
    holds w' (data_vars ds') (Ex.time_bnds :: List.map snd Ex.partial) /\
    untouched (Ex.world_of Ex.partial) w' /\ disk w' = disk (Ex.world_of Ex.partial).
Proof.
  apply (Ghan_missing_prerequisite_returns_input
           (Ex.dataset_of Ex.partial) (Ex.world_of Ex.partial)).
  - repeat constructor.
  - repeat constructor.
  - exists "FSNT_DRF". split; [set_solver|].
    apply (bool_decide_unpack _). vm_compute. exact I.
Defined.

(** ** The calendar *)

Lemma era_roundtrip yoe mp d :
  0 <= yoe < 400 -> 0 <= mp < 12 -> 1 <= d <= 28 ->
  of_doe (doe_of yoe mp d) = (yoe, mp, d) /\ 0 <= doe_of yoe mp d < 146097.
Proof.
  intros Hy Hm Hd.
  assert (Hb : 0 <= doe_of yoe mp d < 146097).
  { unfold doe_of. Z.div_mod_to_equations; lia. }
  split; [|done].
  unfold of_doe. cbv zeta.
  set (doe := doe_of yoe mp d) in *.
  assert (Hyoe : (doe - doe / 1460 + doe / 36524 - doe / 146096) / 365 = yoe).
  { unfold doe, doe_of in *. Z.div_mod_to_equations; lia. }
  rewrite Hyoe.
  assert (Hdoy : doe - (365 * yoe + yoe / 4 - yoe / 100) = (153 * mp + 2) / 5 + d - 1).
  { unfold doe, doe_of. lia. }
  rewrite Hdoy.
  assert (Hmp : (5 * ((153 * mp + 2) / 5 + d - 1) + 2) / 153 = mp).
  { Z.div_mod_to_equations; lia. }
  rewrite Hmp. f_equal. lia.
Qed.

(** The conversions are inverse of each other on the days that every month
    has. *)
Lemma civil_roundtrip y m d :
  1 <= m <= 12 -> 1 <= d <= 28 ->
  civil_from_days (days_from_civil y m d) = (y, m, d).
Proof.
  intros Hm Hd. unfold days_from_civil, civil_from_days.
  set (y' := if m <=? 2 then y - 1 else y).
  set (era := y' / 400).
  set (yoe := y' - era * 400).
  set (mp := if 2 <? m then m - 3 else m + 9).
  assert (Hyoe : 0 <= yoe < 400).
  { unfold yoe, era. pose proof (Z.mod_pos_bound y' 400 ltac:(lia)).
    rewrite Z.mod_eq in H by lia. lia. }
  assert (Hmp : 0 <= mp < 12).
  { unfold mp. destruct (2 <? m) eqn:E; [apply Z.ltb_lt in E|apply Z.ltb_ge in E]; lia. }
  destruct (era_roundtrip yoe mp d Hyoe Hmp Hd) as [Hr Hb].
  change (yoe * 365 + yoe / 4 - yoe / 100 + ((153 * mp + 2) / 5 + d - 1))
    with (doe_of yoe mp d).
  cbv zeta.
  replace ((era * 146097 + doe_of yoe mp d - 719468 + 719468) / 146097) with era.
  2:{ replace (era * 146097 + doe_of yoe mp d - 719468 + 719468)
        with (doe_of yoe mp d + era * 146097) by lia.
      rewrite Z.div_add by lia. rewrite (Z.div_small (doe_of yoe mp d)) by lia. lia. }
  replace (era * 146097 + doe_of yoe mp d - 719468 + 719468 - era * 146097)
    with (doe_of yoe mp d) by lia.
  unfold of_doe in Hr. cbv zeta in Hr. injection Hr as H1 H2 H3.
  rewrite H1 in H2, H3 |- *. rewrite H2 in H3 |- *. rewrite H3.
  unfold mp, yoe, y'.
  destruct (Z.ltb_spec 2 m) as [E1|E1].
  - destruct (Z.ltb_spec (m - 3) 10) as [E2|E2]; [|lia].
    destruct (Z.leb_spec m 2) as [E3|E3]; [lia|].
    destruct (Z.leb_spec (m - 3 + 3) 2) as [E4|E4]; [lia|].
    apply pair_equal_spec; split; [apply pair_equal_spec; split|]; lia.
  - destruct (Z.ltb_spec (m + 9) 10) as [E2|E2]; [lia|].
    destruct (Z.leb_spec m 2) as [E3|E3]; [|lia].
    destruct (Z.leb_spec (m + 9 - 9) 2) as [E4|E4]; [|lia].
    apply pair_equal_spec; split; [apply pair_equal_spec; split|]; lia.
Qed.

(** The month of any day count lies in 1..12. *)
Lemma civil_month_range z : 1 <= (civil_from_days z).1.2 <= 12.
Proof.
  unfold civil_from_days.
  set (era := (z + 719468) / 146097).
  set (doe := z + 719468 - era * 146097).
  assert (Hdoe : 0 <= doe < 146097).
  { unfold doe, era. pose proof (Z.mod_pos_bound (z + 719468) 146097 ltac:(lia)).
    rewrite Z.mod_eq in H by lia. lia. }
  clearbody doe era. cbv zeta. simpl.
  match goal with |- context [?a <? 10] =>
    assert (0 <= a < 12) by (Z.div_mod_to_equations; lia);
    destruct (Z.ltb_spec a 10)
  end; lia.
Qed.

Lemma days_from_civil_add y m d k :
  days_from_civil y m (d + k) = days_from_civil y m d + k.
Proof. unfold days_from_civil. lia. Qed.

Lemma datetime64_fields y m d :
  1 <= m <= 12 -> 1 <= d <= 28 -> dt64_fields (datetime64_of y m d) = (y, m, d).
Proof.
  intros. unfold dt64_fields, datetime64_of.
  rewrite Z.div_mul by (unfold ns_per_day; lia). by apply civil_roundtrip.
Qed.

Lemma datetime64_not_NaT y m d : datetime64_of y m d <> NaT.
Proof.
  unfold datetime64_of, NaT, ns_per_day.
  generalize (days_from_civil y m d). intros x. lia.
Qed.

(** Fourteen days after the first instant of a month is the 15th of that
    month, as long as the value fits 64 bits. *)
Lemma add_days_month_start y m :
  int64 (datetime64_of y m 15) ->
  add_days 14 (datetime64_of y m 1) = datetime64_of y m 15.
Proof.
  intros Hr. unfold add_days.
  destruct (datetime64_of y m 1 =? NaT) eqn:E.
  { apply Z.eqb_eq in E. by apply datetime64_not_NaT in E. }
  unfold int64 in Hr.
  replace (datetime64_of y m 1 + timedelta64_D 14) with (datetime64_of y m 15).
  - unfold wrap64. rewrite Z.mod_small by lia. lia.
  - unfold datetime64_of, timedelta64_D.
    replace 15 with (1 + 14) by lia. rewrite days_from_civil_add. lia.
Qed.

(** ** Views of the store *)

Lemma holds_app w l1 l2 v1 v2 :
  holds w l1 v1 -> holds w l2 v2 -> holds w (l1 ++ l2) (v1 ++ v2).
Proof. apply Forall2_app. Qed.

(** What a name denotes, read on the list of the objects. *)
Lemma snapl_view w l vs n :
  holds w l vs -> snapl w l n = assoc n (zip (names l) vs).
Proof.
  unfold snapl. induction 1 as [|[k p] v l vs Hp H IH]; simpl; [done|].
  destruct (bool_decide (k = n)); [done|apply IH].
Qed.

Lemma snapl_Some w l n v :
  snapl w l n = Some v -> exists p, assoc n l = Some p /\ heap w !! p = Some v.
Proof. unfold snapl. destruct (assoc n l); [eauto|done]. Qed.

Lemma getattr_ok ds n p w : assoc n (variables ds) = Some p -> getattr ds n w = (Ok p, w).
Proof. intros H. unfold getattr. by rewrite H. Qed.

Lemma getitem_ok ds n p w : assoc n (variables ds) = Some p -> getitem ds n w = (Ok p, w).
Proof. intros H. unfold getitem. by rewrite H. Qed.

(** A copy denotes, name by name, what the original denotes. *)
Lemma copy_ok deep ds cvs dvs w :
  holds w (coords ds) cvs -> holds w (data_vars ds) dvs ->
  exists ds_,
    let w1 := mkWorld (heap w ++ cvs ++ dvs) (disk w) in
    copy deep ds w = (Ok ds_, w1) /\
    names (coords ds_) = names (coords ds) /\
    names (data_vars ds_) = names (data_vars ds) /\
    holds w1 (coords ds_) cvs /\ holds w1 (data_vars ds_) dvs.
Proof.
  intros Hc Hd. eexists. split; [by apply copy_spec|]. simpl.
  pose proof (holds_length _ _ _ Hc) as Lc. pose proof (holds_length _ _ _ Hd) as Ld.
  repeat split.
  - apply names_zip_seq.
  - apply names_zip_seq.
  - pose proof (holds_zip_seq (names (coords ds)) cvs (heap w) dvs (disk w)) as H.
    unfold names in *. rewrite length_map in H. apply H. by rewrite Lc.
  - pose proof (holds_zip_seq (names (data_vars ds)) dvs (heap w ++ cvs) [] (disk w)) as H.
    unfold names in *. rewrite length_map, length_app, app_nil_r, <- app_assoc, <- Lc in H.
    apply H. by rewrite Ld.
Qed.

Lemma names_app {B} (l k : list (string * B)) : names (l ++ k) = names l ++ names k.
Proof. apply map_app. Qed.

Lemma snap_same_view w w' ds ds' vs n :
  holds w (variables ds) vs -> holds w' (variables ds') vs ->
  names (variables ds') = names (variables ds) ->
  snap w' ds' n = snap w ds n.
Proof.
  intros H H' E. unfold snap. fold (snapl w' (variables ds') n). fold (snapl w (variables ds) n).
  rewrite (snapl_view _ _ _ _ H), (snapl_view _ _ _ _ H'). by rewrite E.
Qed.

(** ** The time corrector *)

Lemma index_axis_bounds {A} (b : list (A * A)) :
  index_axis 1 0 (bounds_nd b) = Some (of_list1 (List.map fst b)).
Proof.
  unfold bounds_nd, of_list1. simpl.
  induction b as [|[s e] b IH]; simpl; [done|]. by rewrite IH.
Qed.

Lemma to_list1_of_list1 {A} (l : list A) : to_list1 (of_list1 l) = Some l.
Proof.
  unfold to_list1, of_list1. induction l as [|x l IH]; [done|].
  simpl. rewrite IH. done.
Qed.

Lemma instants_M8 l : instants (M8 (of_list1 l)) = Some (List.map Dt64 l).
Proof. unfold instants. by rewrite to_list1_of_list1. Qed.

Lemma instants_Obj l : instants (Obj (of_list1 l)) = Some (List.map Cf l).
Proof. unfold instants. by rewrite to_list1_of_list1. Qed.

Lemma arr_index_bounds_M8 b :
  arr_index_axis 1 0 (M8 (bounds_nd b)) = Some (M8 (of_list1 (List.map fst b))).
Proof. unfold arr_index_axis. by rewrite index_axis_bounds. Qed.

Lemma arr_index_bounds_Obj b :
  arr_index_axis 1 0 (Obj (bounds_nd b)) = Some (Obj (of_list1 (List.map fst b))).
Proof. unfold arr_index_axis. by rewrite index_axis_bounds. Qed.

Lemma time_bnds_start_ok ds_ w tbv starts :
  snap w ds_ "time_bnds" = Some tbv -> dims tbv = ["time"; "nbnd"] ->
  bounds_starts (data tbv) starts ->
  exists s, time_bnds_start ds_ w = (Ok s, w) /\ instants (data s) = Some starts /\
            arr_index_axis 1 0 (data tbv) = Some (data s).
Proof.
  intros Hs Hd Hb. apply snapl_Some in Hs as (p & Hp & Hv).
  unfold time_bnds_start.
  erewrite bind_ok; [|by apply getattr_ok].
  erewrite bind_ok; [|by apply deref_ok].
  unfold lift, da_isel. rewrite Hd. simpl.
  destruct Hb as [(b & Ha & ->)|(b & Ha & ->)]; rewrite Ha.
  - rewrite arr_index_bounds_M8. eexists. split; [reflexivity|]. cbn [data].
    by rewrite instants_M8, map_map.
  - rewrite arr_index_bounds_Obj. eexists. split; [reflexivity|]. cbn [data].
    by rewrite instants_Obj, map_map.
Qed.

Lemma no_NaT starts :
  Forall start_ok starts ->
  existsb (fun t => match t with Dt64 ns => ns =? NaT | Cf _ => false end) starts = false.
Proof.
  induction 1 as [|t l Ht _ IH]; [done|]. simpl. rewrite IH.
  destruct t as [ns|c]; [|done]. simpl in Ht. by apply Z.eqb_neq in Ht as ->.
Qed.

Lemma dt_values_ok field s starts :
  instants (data s) = Some starts -> Forall start_ok starts ->
  dt_values field s = Ok (List.map field starts).
Proof. intros H1 H2. unfold dt_values. by rewrite H1, no_NaT. Qed.

Lemma start_month_range t : start_ok t -> 1 <= dt_month t <= 12.
Proof.
  destruct t as [ns|c]; simpl; [|done]. intros _.
  unfold dt_month, dt_fields, dt64_fields. apply civil_month_range.
Qed.

Lemma DatetimeNoLeap_15 y m : 1 <= m <= 12 -> DatetimeNoLeap y m 15 = Ok (mkCf y m 15 0 0 0).
Proof.
  intros H. unfold DatetimeNoLeap.
  destruct (Z.leb_spec 1 m); [|lia]. destruct (Z.leb_spec m 12); [|lia]. simpl.
  replace (15 <=? noleap_month_length m) with true; [done|].
  symmetry. apply Z.leb_le. unfold noleap_month_length.
  repeat match goal with |- context [?a =? ?b] => destruct (a =? b) end; simpl; lia.
Qed.

Lemma noleap_dates starts :
  Forall start_ok starts ->
  mapR (fun ym => DatetimeNoLeap ym.1 ym.2 15)
       (zip (List.map dt_year starts) (List.map dt_month starts)) =
  Ok (List.map (fun t => mkCf (dt_year t) (dt_month t) 15 0 0 0) starts).
Proof.
  induction 1 as [|t l Ht _ IH]; [done|]. simpl.
  rewrite DatetimeNoLeap_15 by by apply start_month_range. by rewrite IH.
Qed.

Lemma nd_map_of_list1 {A B} (f : A -> B) l : nd_map f (of_list1 l) = of_list1 (List.map f l).
Proof. unfold of_list1. simpl. by rewrite !map_map. Qed.

Lemma list_plus_days_ok n l w :
  list_plus_days n (M8 (of_list1 l)) w = (Ok (M8 (of_list1 (List.map (add_days n) l))), w).
Proof.
  unfold list_plus_days. rewrite nd_map_of_list1.
  change (of_list1 (List.map (add_days n) l)) with (Node (List.map Leaf (List.map (add_days n) l))).
  cbv iota beta.
  change (Node (List.map Leaf (List.map (add_days n) l))) with (of_list1 (List.map (add_days n) l)).
  by rewrite !to_list1_of_list1.
Qed.

Lemma assoc_app {B} n (l k : list (string * B)) :
  assoc n (l ++ k) = match assoc n l with Some b => Some b | None => assoc n k end.
Proof.
  induction l as [|[m b] l IH]; simpl; [done|]. by destruct (bool_decide (m = n)).
Qed.

Lemma assoc_set_eq {B} n (b : B) l : assoc n (assoc_set n b l) = Some b.
Proof.
  induction l as [|[m x] l IH]; simpl.
  - by rewrite bool_decide_eq_true_2.
  - destruct (bool_decide (m = n)) eqn:E; simpl; rewrite E; [done|apply IH].
Qed.

Lemma assoc_set_ne {B} m n (b : B) l : m <> n -> assoc m (assoc_set n b l) = assoc m l.
Proof.
  intros Hne. induction l as [|[k x] l IH]; simpl.
  - by rewrite bool_decide_eq_false_2.
  - destruct (bool_decide (k = n)) eqn:E; simpl.
    + apply bool_decide_eq_true in E as ->. by rewrite bool_decide_eq_false_2.
    + by rewrite IH.
Qed.

Lemma assoc_del_ne {B} m n (l : list (string * B)) :
  m <> n -> assoc m (assoc_del n l) = assoc m l.
Proof.
  intros Hne. unfold assoc_del. induction l as [|[k x] l IH]; simpl; [done|].
  destruct (bool_decide (k = n)) eqn:E; simpl.
  - apply bool_decide_eq_true in E as ->. by rewrite bool_decide_eq_false_2.
  - by rewrite IH.
Qed.

Lemma contents_ok l vs w : holds w l vs -> contents l w = (Ok (zip (names l) vs), w).
Proof.
  unfold contents. induction 1 as [|[n p] v l vs Hp H IH]; [done|]. simpl in *.
  erewrite bind_ok; [|erewrite bind_ok; [|by apply deref_ok]; reflexivity].
  erewrite bind_ok; [|apply IH]. done.
Qed.

Lemma snapl_grow w l n new d v :
  snapl w l n = Some v -> snapl (mkWorld (heap w ++ new) d) l n = Some v.
Proof.
  unfold snapl. destruct (assoc n l); [|done]. simpl. apply lookup_app_l_Some.
Qed.

(** [assign_coords] binds the name to the new variable and leaves what the
    other names denote. *)
Lemma assign_coords_ok ds cvs dvs w n d values a len :
  holds w (coords ds) cvs -> holds w (data_vars ds) dvs ->
  arr_len values = Some len ->
  size_conflict n d len (zip (names (variables ds)) (cvs ++ dvs)) = false ->
  exists ds',
    let w' := mkWorld (heap w ++ cvs ++ dvs ++ [mkVar [d] values a]) (disk w) in
    assign_coords ds n d values a w = (Ok ds', w') /\
    snap w' ds' n = Some (mkVar [d] values a) /\
    (forall m, m <> n -> snap w' ds' m = snap w ds m).
Proof.
  intros Hc Hd Hl Hs. unfold assign_coords.
  erewrite bind_ok; [|apply contents_ok, holds_app; eauto].
  rewrite Hl, Hs.
  destruct (copy_ok false ds cvs dvs w Hc Hd) as (ds_ & Hcp & Nc & Nd & Hc' & Hd').
  simpl in Hcp. erewrite bind_ok; [|apply Hcp].
  erewrite bind_ok; [|reflexivity].
  eexists. split.
  { unfold ret. simpl. rewrite <- !app_assoc. reflexivity. }
  split.
  - unfold snap, variables. simpl. rewrite assoc_app, assoc_set_eq.
    rewrite !app_assoc. rewrite lookup_app_r; rewrite !length_app; [|lia].
    by replace (length (heap w) + length cvs + length dvs -
                (length (heap w) + length cvs + length dvs))%nat with 0%nat by lia.
  - intros m Hm. unfold snap at 1. unfold variables. simpl.
    rewrite assoc_app, assoc_set_ne, assoc_del_ne by done. rewrite <- assoc_app.
    change (snapl (mkWorld (heap w ++ cvs ++ dvs ++ [mkVar [d] values a]) (disk w))
                  (variables ds_) m = snap w ds m).
    apply (snap_same_view _ _ _ (mkDs (coords ds_) (data_vars ds_)) (cvs ++ dvs)).
    + apply holds_app; eauto.
    + pose proof (holds_app_world _ _ _ [mkVar [d] values a] (disk w)
                    (holds_app _ _ _ _ _ Hc' Hd')) as H.
      simpl in H. by rewrite <- !app_assoc in H.
    + unfold variables. simpl. by rewrite !names_app, Nc, Nd.
Qed.

Lemma arr_len_M8 l : arr_len (M8 (of_list1 l)) = Some (length l).
Proof. simpl. by rewrite length_map. Qed.

Lemma arr_len_Obj l : arr_len (Obj (of_list1 l)) = Some (length l).
Proof. simpl. by rewrite length_map. Qed.

(** The corrector on a dataset laid out as CAM writes it (a [time_bnds]
    variable over the dimensions time and nbnd, no [time_bounds]): it returns
    a dataset whose time coordinate holds the representative time of every
    interval and the attributes of the former coordinate; the other names
    denote what they denoted, and no existing object is changed. *)
Lemma fix_cam_time_ok ds w cvs dvs tbv tv starts timetype :
  holds w (coords ds) cvs -> holds w (data_vars ds) dvs ->
  "time_bounds" ∉ names (data_vars ds) ->
  snap w ds "time_bnds" = Some tbv -> dims tbv = ["time"; "nbnd"] ->
  snap w ds "time" = Some tv ->
  size_conflict "time" "time" (length starts)
    (zip (names (variables ds)) (cvs ++ dvs)) = false ->
  (timetype = "DatetimeNoLeap" /\ bounds_starts (data tbv) starts /\
   Forall start_ok starts) \/
  (timetype = "datetime64" /\
   exists b, data tbv = M8 (bounds_nd b) /\ starts = List.map (fun p => Dt64 p.1) b) ->
  exists ds' w' dates,
    fix_cam_time ds timetype w = (Ok ds', w') /\
    snap w' ds' "time" = Some (mkVar ["time"] dates (attrs tv)) /\
    instants dates = Some (List.map (representative timetype) starts) /\
    (forall m, m <> "time" -> snap w' ds' m = snap w ds m) /\
    untouched w w' /\ disk w' = disk w.
Proof.
  intros Hc Hd Hnb Htb Hdims Ht Hsz Hmode. unfold fix_cam_time.
  destruct (copy_ok true ds cvs dvs w Hc Hd) as (ds_ & Hcp & Nc & Nd & Hc' & Hd').
  simpl in Hcp. erewrite bind_ok; [|apply Hcp].
  set (w1 := mkWorld (heap w ++ cvs ++ dvs) (disk w)) in *.
  unfold mem. rewrite Nd, bool_decide_eq_false_2 by done.
  erewrite bind_ok; [|reflexivity].
  assert (Htb1 : snap w1 ds_ "time_bnds" = Some tbv).
  { rewrite <- Htb. apply (snap_same_view _ _ _ _ (cvs ++ dvs)).
    - apply holds_app; eauto.
    - apply holds_app; eauto.
    - unfold variables. by rewrite !names_app, Nc, Nd. }
  assert (Hdates : exists dates,
    (if bool_decide (timetype = "DatetimeNoLeap") then
       let* sm := time_bnds_start ds_ in
       let* months := lift (dt_values dt_month sm) in
       let* sy := time_bnds_start ds_ in
       let* years := lift (dt_values dt_year sy) in
       let* dates := lift (mapR (fun ym => DatetimeNoLeap ym.1 ym.2 15) (zip years months)) in
       ret (Obj (of_list1 dates))
     else if bool_decide (timetype = "datetime64") then
       let* s := time_bnds_start ds_ in
       list_plus_days 14 (data s)
     else
       raise (ValueError "time type not supported. Choose 'DatetimeNoLeap' or 'datetime64'"))
      w1 = (Ok dates, w1) /\
    instants dates = Some (List.map (representative timetype) starts) /\
    arr_len dates = Some (length starts)).
  { destruct Hmode as [(-> & Hb & Hok)|(-> & b & Hb & ->)].
    - rewrite bool_decide_eq_true_2 by done.
      destruct (time_bnds_start_ok _ _ _ _ Htb1 Hdims Hb) as (s & Hs & Hi & _).
      erewrite bind_ok; [|apply Hs].
      erewrite bind_ok; [|unfold lift; by erewrite dt_values_ok].
      erewrite bind_ok; [|apply Hs].
      erewrite bind_ok; [|unfold lift; by erewrite dt_values_ok].
      erewrite bind_ok; [|unfold lift; by rewrite noleap_dates].
      eexists. split; [reflexivity|]. split.
      + rewrite instants_Obj, map_map. f_equal.
      + by rewrite arr_len_Obj, length_map.
    - rewrite bool_decide_eq_false_2 by done. rewrite bool_decide_eq_true_2 by done.
      assert (Hbs : bounds_starts (data tbv) (List.map (fun p => Dt64 p.1) b))
        by (left; eauto).
      destruct (time_bnds_start_ok _ _ _ _ Htb1 Hdims Hbs) as (s & Hs & Hi & Hx).
      erewrite bind_ok; [|apply Hs].
      rewrite Hb, arr_index_bounds_M8 in Hx. injection Hx as <-.
      rewrite list_plus_days_ok. eexists. split; [reflexivity|]. split.
      + rewrite instants_M8, !map_map. f_equal.
      + by rewrite arr_len_M8, !length_map. }
  destruct Hdates as (dates & Hrun & Hinst & Hlen).
  erewrite bind_ok; [|apply Hrun].
  apply snapl_Some in Ht as (p & Hp & Hv).
  erewrite bind_ok; [|by apply getattr_ok].
  erewrite bind_ok; [|apply deref_ok; simpl; by apply lookup_app_l_Some].
  destruct (assign_coords_ok ds cvs dvs w1 "time" "time" dates (attrs tv) (length starts))
    as (ds' & Hac & Hsn & Hoth); auto.
  { by apply holds_app_world. }
  { by apply holds_app_world. }
  eexists ds', _, dates.
  split; [exact Hac|]. split; [apply Hsn|]. split; [done|]. split.
  - intros m Hm. rewrite (Hoth m Hm).
    apply (snap_same_view _ _ _ _ (cvs ++ dvs)).
    + apply holds_app; eauto.
    + apply holds_app; by apply holds_app_world.
    + done.
  - split; [|done]. unfold untouched. simpl. rewrite <- app_assoc. eauto.
Qed.

(** C4. On a dataset laid out as CAM writes it, for every month [M] of every
    year [Y]: an interval that starts at the first instant of that month
    gets a representative time on day 15 of month [M] of year [Y], in the
    mode 'DatetimeNoLeap' (from bounds of either representation) and in the
    mode 'datetime64' (from datetime64 bounds, the 15th being representable
    on 64 bits); the new time coordinate carries the attributes of the
    former one. *)
Theorem fix_cam_time_mid_month ds w cvs dvs tbv tv starts timetype :
  holds w (coords ds) cvs -> holds w (data_vars ds) dvs ->
  "time_bounds" ∉ names (data_vars ds) ->
  snap w ds "time_bnds" = Some tbv -> dims tbv = ["time"; "nbnd"] ->
  snap w ds "time" = Some tv ->
  size_conflict "time" "time" (length starts)
    (zip (names (variables ds)) (cvs ++ dvs)) = false ->
  (timetype = "DatetimeNoLeap" /\ bounds_starts (data tbv) starts /\
   Forall start_ok starts) \/
  (timetype = "datetime64" /\
   exists b, data tbv = M8 (bounds_nd b) /\ starts = List.map (fun p => Dt64 p.1) b) ->
  exists ds' w' tv' ts,
    fix_cam_time ds timetype w = (Ok ds', w') /\
    snap w' ds' "time" = Some tv' /\
    attrs tv' = attrs tv /\
    instants (data tv') = Some ts /\
    forall (i : nat) s Y M,
      starts !! i = Some s -> month_start s Y M -> 1 <= M <= 12 ->
      (timetype = "datetime64" -> int64 (datetime64_of Y M 15)) ->
      exists t, ts !! i = Some t /\ on_day t Y M 15.
Proof.
  intros Hc Hd Hnb Htb Hdims Ht Hsz Hmode.
  destruct (fix_cam_time_ok ds w cvs dvs tbv tv starts timetype)
    as (ds' & w' & dates & Hrun & Hsn & Hi & _); auto.
  eexists ds', w', _, _. split; [exact Hrun|]. split; [exact Hsn|].
  split; [done|]. split; [exact Hi|].
  intros i s Y M Hs Hms HM Hrep.
  exists (representative timetype s). split.
  { by rewrite list_lookup_fmap, Hs. }
  unfold on_day, representative.
  destruct Hmode as [(-> & _ & _)|(-> & b & _ & ->)].
  - rewrite bool_decide_eq_true_2 by done. simpl. unfold cf_fields. simpl.
    destruct Hms as [->| ->].
    + unfold dt_year, dt_month, dt_fields. rewrite datetime64_fields by lia. done.
    + done.
  - rewrite bool_decide_eq_false_2 by done.
    apply list_lookup_fmap_Some in Hs as ([s0 e0] & -> & _). simpl in *.
    destruct Hms as [E|E]; [|done]. injection E as ->.
    rewrite add_days_month_start by auto. simpl. apply datetime64_fields; lia.
Qed.

Lemma fix_cam_time_mid_month_witness :
  exists ds' w' tv' ts,
    fix_cam_time (Ex.dataset_of Ex.fluxes) "datetime64" (Ex.world_of Ex.fluxes) = (Ok ds', w') /\
    snap w' ds' "time" = Some tv' /\
    attrs tv' = attrs Ex.time /\
    instants (data tv') = Some ts /\
    forall (i : nat) s Y M,
      [Dt64 (datetime64_of 2008 1 1); Dt64 (datetime64_of 2008 2 1)] !! i = Some s ->
      month_start s Y M -> 1 <= M <= 12 ->
      ("datetime64" = "datetime64" -> int64 (datetime64_of Y M 15)) ->
      exists t, ts !! i = Some t /\ on_day t Y M 15.
Proof.
  apply (fix_cam_time_mid_month (Ex.dataset_of Ex.fluxes) (Ex.world_of Ex.fluxes)
           [Ex.time] (Ex.time_bnds :: List.map snd Ex.fluxes) Ex.time_bnds Ex.time
           [Dt64 (datetime64_of 2008 1 1); Dt64 (datetime64_of 2008 2 1)] "datetime64").
  - repeat constructor.
  - repeat constructor.
  - vm_compute. intros H. repeat (apply elem_of_cons in H as [H|H]; [discriminate|]).
    by apply elem_of_nil in H.
  - reflexivity.
  - reflexivity.
  - reflexivity.
  - vm_compute. reflexivity.
  - right. split; [reflexivity|]. eexists. split; reflexivity.
Defined.

Lemma bind_assoc {A B C} (c : M A) (k : A -> M B) (k' : B -> M C) w :
  bind (bind c k) k' w = bind c (fun x => bind (k x) k') w.
Proof. unfold bind. by destruct (c w) as [[a|e] w1]. Qed.

(** ** Loops that update variable objects in place *)

Lemma forM_names {A} (f : string -> M unit) (l : list (string * A)) w :
  forM_ f (names l) w = forM_ (fun b => f b.1) l w.
Proof.
  revert w. induction l as [|[n x] l IH]; intros w; [done|]. simpl.
  unfold bind. destruct (f n w) as [[[]|e] w1]; [apply IH|done].
Qed.

(** A loop whose body replaces the object of the current binding by [g] of
    it, run over bindings laid out contiguously in the store. *)
Lemma forM_update (step : string * loc -> M unit) (g : string -> var_obj -> result var_obj)
    (bs : list (string * loc)) (ns : list string) : forall vs vs' pre post d,
  (forall (n : string) (p : loc) v v' w,
     (n, p) ∈ bs -> heap w !! p = Some v -> g n v = Ok v' ->
     step (n, p) w = (Ok tt, mkWorld (<[p := v']> (heap w)) (disk w))) ->
  zip ns (seq (length pre) (length ns)) ⊆ bs ->
  length ns = length vs ->
  mapR (fun nv => g nv.1 nv.2) (zip ns vs) = Ok vs' ->
  forM_ step (zip ns (seq (length pre) (length ns))) (mkWorld (pre ++ vs ++ post) d) =
    (Ok tt, mkWorld (pre ++ vs' ++ post) d).
Proof.
  induction ns as [|n ns IH]; intros [|v vs] vs' pre post d Hstep Hsub Hl Hg;
    simpl in *; try discriminate.
  - by injection Hg as <-.
  - destruct (g n v) as [v1|] eqn:E; [|discriminate].
    destruct (mapR _ (zip ns vs)) as [vs1|] eqn:E2; [|discriminate].
    injection Hg as <-.
    erewrite bind_ok.
    2:{ eapply Hstep; [apply Hsub; by left| |exact E]. simpl.
        by rewrite lookup_app_r, Nat.sub_diag. }
    simpl.
    replace (<[length pre:=v1]> (pre ++ v :: vs ++ post)) with ((pre ++ [v1]) ++ vs ++ post).
    2:{ rewrite insert_app_r_alt, Nat.sub_diag by lia. simpl. by rewrite <- app_assoc. }
    replace (S (length pre)) with (length (pre ++ [v1])) in * by (rewrite length_app; simpl; lia).
    erewrite IH; [|exact Hstep| |lia|exact E2].
    + by rewrite <- app_assoc.
    + intros x Hx. apply Hsub. by right.
Qed.

Lemma zip_seq_app (ns ms : list string) a :
  zip ns (seq a (length ns)) ++ zip ms (seq (a + length ns) (length ms)) =
  zip (ns ++ ms) (seq a (length (ns ++ ms))).
Proof.
  rewrite length_app, seq_app. rewrite zip_with_app; [done|by rewrite length_seq].
Qed.

Lemma mapM_deref l vs w :
  holds w l vs -> mapM_M (fun p : string * loc => deref p.2) l w = (Ok vs, w).
Proof.
  induction 1 as [|[n p] v l vs Hp H IH]; [done|]. simpl in *.
  erewrite bind_ok; [|by apply deref_ok]. erewrite bind_ok; [|apply IH]. done.
Qed.

Lemma ds_dims_ok ds vs w :
  holds w (variables ds) vs -> ds_dims ds w = (Ok (concat (List.map dims vs)), w).
Proof. intros H. unfold ds_dims. erewrite bind_ok; [|by apply mapM_deref]. done. Qed.

Lemma holds_rename_key w old new l vs :
  holds w l vs -> holds w (rename_key old new l) vs.
Proof. unfold holds, rename_key. induction 1; simpl; constructor; auto. Qed.

Lemma mapR_total {A B} (f : A -> B) l : mapR (fun x => Ok (f x)) l = Ok (List.map f l).
Proof. induction l as [|x l IH]; [done|]. simpl. by rewrite IH. Qed.

(** With a time type that is not supported, the corrector raises a
    [ValueError] and only ever writes to the copies it made. *)
Lemma fix_cam_time_invalid ds w cvs dvs timetype :
  holds w (coords ds) cvs -> holds w (data_vars ds) dvs ->
  timetype <> "DatetimeNoLeap" -> timetype <> "datetime64" ->
  exists msg w',
    fix_cam_time ds timetype w = (Raise (ValueError msg), w') /\
    untouched w w' /\ disk w' = disk w /\
    ("time_bounds" ∉ names (data_vars ds) ->
     msg = "time type not supported. Choose 'DatetimeNoLeap' or 'datetime64'").
Proof.
  intros Hc Hd H1 H2. unfold fix_cam_time.
  pose proof (holds_length _ _ _ Hc) as Lc. pose proof (holds_length _ _ _ Hd) as Ld.
  erewrite bind_ok; [|by apply copy_spec].
  set (ds_ := mkDs _ _). set (w1 := mkWorld (heap w ++ cvs ++ dvs) (disk w)).
  assert (Hv1 : holds w1 (variables ds_) (cvs ++ dvs)).
  { destruct (copy_ok true ds cvs dvs w Hc Hd) as (ds0 & Hcp & _ & _ & Hc' & Hd').
    simpl in Hcp. erewrite copy_spec in Hcp by eauto. injection Hcp as <-.
    by apply holds_app. }
  assert (Hend : forall (d : Dataset) w2,
    (let* dates :=
       if bool_decide (timetype = "DatetimeNoLeap") then
         let* sm := time_bnds_start d in
         let* months := lift (dt_values dt_month sm) in
         let* sy := time_bnds_start d in
         let* years := lift (dt_values dt_year sy) in
         let* dates := lift (mapR (fun ym => DatetimeNoLeap ym.1 ym.2 15) (zip years months)) in
         ret (Obj (of_list1 dates))
       else if bool_decide (timetype = "datetime64") then
         let* s := time_bnds_start d in
         list_plus_days 14 (data s)
       else
         raise (ValueError "time type not supported. Choose 'DatetimeNoLeap' or 'datetime64'") in
     let* t := getattr ds "time" in
     let* tv := deref t in
     assign_coords ds "time" "time" dates (attrs tv)) w2 =
    (Raise (ValueError "time type not supported. Choose 'DatetimeNoLeap' or 'datetime64'"), w2)).
  { intros d w2. by rewrite !bool_decide_eq_false_2 by done. }
  destruct (mem "time_bounds" (names (data_vars ds_))) eqn:Em.
  2:{ erewrite bind_ok; [|reflexivity]. rewrite Hend.
      eexists _, _. split; [reflexivity|]. split; [by eexists|split; [done|auto]]. }
  assert (Hin : "time_bounds" ∈ names (data_vars ds)).
  { unfold mem in Em. apply bool_decide_eq_true in Em. subst ds_. simpl in Em.
    by rewrite names_zip_seq in Em. }
  assert (Hmsg : forall msg : string, "time_bounds" ∉ names (data_vars ds) ->
            msg = "time type not supported. Choose 'DatetimeNoLeap' or 'datetime64'")
    by (intros; done).
  unfold rename_vars.
  replace (mem "time_bounds" (names (variables ds_))) with true.
  2:{ symmetry. unfold mem in *. apply bool_decide_eq_true. apply bool_decide_eq_true in Em.
      unfold variables. rewrite names_app. apply elem_of_app. by right. }
  simpl negb. cbv iota.
  destruct (mem "time_bnds" (names (variables ds_)) && _) eqn:E2.
  { eexists _, _. split; [reflexivity|]. split; [by eexists|split; [done|auto]]. }
  apply Forall2_app_inv_l in Hv1 as (c1 & d1 & Hc1 & Hd1 & E1).
  assert (Lc1 : length c1 = length cvs).
  { apply holds_length in Hc1. subst ds_. simpl in Hc1.
    rewrite length_zip, length_seq in Hc1. unfold names in Hc1. rewrite length_map in Hc1. lia. }
  apply app_inj_1 in E1 as [E1a E1b]; [|done]. subst c1 d1.
  fold (holds w1 (coords ds_) cvs) in Hc1. fold (holds w1 (data_vars ds_) dvs) in Hd1.
  rewrite !bind_assoc.
  erewrite bind_ok; [|by apply copy_spec].
  erewrite bind_ok; [|reflexivity].
  set (ds3 := mkDs _ _). set (w2 := mkWorld (heap w1 ++ cvs ++ dvs) (disk w1)).
  assert (Hv3 : holds w2 (variables ds3) (cvs ++ dvs)).
  { destruct (copy_ok false ds_ cvs dvs w1 Hc1 Hd1) as (ds0 & Hcp & _ & _ & Hc' & Hd').
    simpl in Hcp. erewrite copy_spec in Hcp by eauto. injection Hcp as <-.
    subst ds3. unfold variables. simpl. apply holds_app; by apply holds_rename_key. }
  unfold rename_dims. rewrite !bind_assoc. erewrite bind_ok; [|by apply ds_dims_ok].
  destruct (negb (mem "hist_interval" _)).
  { eexists _, _. split; [reflexivity|]. split; [|split; [done|auto]].
    exists ((cvs ++ dvs) ++ cvs ++ dvs). simpl. by rewrite <- !app_assoc. }
  destruct (mem "nbnd" _ || mem "nbnd" _).
  { eexists _, _. split; [reflexivity|]. split; [|split; [done|auto]].
    exists ((cvs ++ dvs) ++ cvs ++ dvs). simpl. by rewrite <- !app_assoc. }
  apply Forall2_app_inv_l in Hv3 as (c3 & d3 & Hc3 & Hd3 & E3).
  assert (Lc3 : length c3 = length cvs).
  { apply holds_length in Hc3. subst ds3. simpl in Hc3. unfold rename_key in Hc3.
    rewrite length_map, length_zip, length_seq in Hc3. unfold names in Hc3.
    rewrite length_map in Hc3. subst ds_. simpl in Hc3.
    rewrite length_zip, length_seq, length_map in Hc3. lia. }
  apply app_inj_1 in E3 as [E3a E3b]; [|done]. subst c3 d3.
  rewrite !bind_assoc.
  erewrite bind_ok; [|by apply copy_spec].
  set (ds4 := mkDs _ _). set (w3 := mkWorld _ _).
  rewrite !bind_assoc.
  erewrite (bind_ok (forM_ _ _)).
  2:{ unfold variables. subst ds4. cbn [coords data_vars].
      replace (length (coords ds3)) with (length (names (coords ds3)))
        by (unfold names; by rewrite length_map).
      replace (length (data_vars ds3)) with (length (names (data_vars ds3)))
        by (unfold names; by rewrite length_map).
      rewrite zip_seq_app.
      subst w3. cbn [heap disk].
      replace (heap w2 ++ cvs ++ dvs) with (heap w2 ++ (cvs ++ dvs) ++ [])
        by (by rewrite app_nil_r).
      eapply (forM_update (fun p => rename_dim_in "hist_interval" "nbnd" p.2)
               (fun _ v => Ok (rename_dim_obj "hist_interval" "nbnd" v))).
      - intros n p v v' w0 _ Hp Hg. injection Hg as <-. unfold rename_dim_in. simpl.
        erewrite bind_ok; [|by apply deref_ok]. reflexivity.
      - reflexivity.
      - unfold names. rewrite !length_app, !length_map.
        apply holds_length in Hc3, Hd3. lia.
      - apply (mapR_total (fun nv : string * var_obj =>
                 rename_dim_obj "hist_interval" "nbnd" nv.2)). }
  erewrite bind_ok; [|reflexivity].
  rewrite Hend. eexists _, _. split; [reflexivity|]. split; [|split; [done|auto]].
  cbn [heap]. eexists. subst w2 w1. cbn [heap]. rewrite <- !app_assoc. reflexivity.
Qed.

Lemma holds_untouched w w' l vs : untouched w w' -> holds w l vs -> holds w' l vs.
Proof.
  intros [new E] H. unfold holds in *. induction H; constructor; auto.
  rewrite E. by apply lookup_app_l_Some.
Qed.

Lemma snap_untouched w w' ds n :
  valid w ds -> untouched w w' -> snap w' ds n = snap w ds n.
Proof.
  intros [vs H] U. apply (snap_same_view _ _ _ _ vs); [done| |done].
  by apply (holds_untouched w).
Qed.

(** C8. With a time type other than 'DatetimeNoLeap' and 'datetime64' the
    corrector raises a [ValueError] and returns no dataset; every object
    of the store is as it was, so each name of the input dataset (the time
    coordinate among them) denotes what it denoted, and no file is written.
    When the dataset has no [time_bounds] variable the error is the one
    about the time type. *)
Theorem fix_cam_time_unsupported_timetype ds w cvs dvs timetype :
  holds w (coords ds) cvs -> holds w (data_vars ds) dvs ->
  timetype <> "DatetimeNoLeap" -> timetype <> "datetime64" ->
  exists msg w',
    fix_cam_time ds timetype w = (Raise (ValueError msg), w') /\
    untouched w w' /\
    (forall n, snap w' ds n = snap w ds n) /\
    disk w' = disk w /\
    ("time_bounds" ∉ names (data_vars ds) ->
     msg = "time type not supported. Choose 'DatetimeNoLeap' or 'datetime64'").
Proof.
  intros Hc Hd H1 H2.
  destruct (fix_cam_time_invalid ds w cvs dvs timetype Hc Hd H1 H2)
    as (msg & w' & Hrun & Hu & Hdisk & Hmsg).
  exists msg, w'. repeat split; auto.
  intros n. apply snap_untouched; [|done]. apply valid_split. eauto.
Qed.

Lemma fix_cam_time_unsupported_timetype_witness :
  exists msg w',
    fix_cam_time (Ex.dataset_of Ex.fluxes) "gregorian" (Ex.world_of Ex.fluxes) =
      (Raise (ValueError msg), w') /\
    untouched (Ex.world_of Ex.fluxes) w' /\
    (forall n, snap w' (Ex.dataset_of Ex.fluxes) n =
               snap (Ex.world_of Ex.fluxes) (Ex.dataset_of Ex.fluxes) n) /\
    disk w' = disk (Ex.world_of Ex.fluxes) /\
    ("time_bounds" ∉ names (data_vars (Ex.dataset_of Ex.fluxes)) ->
     msg = "time type not supported. Choose 'DatetimeNoLeap' or 'datetime64'").
Proof.
  apply (fix_cam_time_unsupported_timetype (Ex.dataset_of Ex.fluxes) (Ex.world_of Ex.fluxes)
           [Ex.time] (Ex.time_bnds :: List.map snd Ex.fluxes) "gregorian").
  - repeat constructor.
  - repeat constructor.
  - discriminate.
  - discriminate.
Defined.

(** ** Arrays: induction and elementwise maps *)

Lemma nd_ind' {A} (P : nd A -> Prop) :
  (forall a, P (Leaf a)) ->
  (forall xs, Forall P xs -> P (Node xs)) ->
  forall a, P a.
Proof.
  intros HL HN. fix IH 1. intros [a|xs]; [apply HL|]. apply HN.
  induction xs as [|x xs IHxs]; constructor; [apply IH|apply IHxs].
Qed.

Lemma nd_map_map {A B C} (f : A -> B) (g : B -> C) (a : nd A) :
  nd_map g (nd_map f a) = nd_map (fun x => g (f x)) a.
Proof.
  induction a as [x|xs IH] using nd_ind'; [done|]. simpl. f_equal.
  rewrite map_map. apply map_ext_Forall, IH.
Qed.

Lemma nd_map_ext {A B} (f g : A -> B) (a : nd A) :
  (forall x, f x = g x) -> nd_map f a = nd_map g a.
Proof.
  intros E. induction a as [x|xs IH] using nd_ind'; simpl; [by rewrite E|].
  f_equal. apply map_ext_Forall, IH.
Qed.

(** Multiplication of rationals as the code performs it, fraction by
    fraction: associative up to equality of the fractions themselves. *)
Lemma Qmult_assoc_eq (q a b : Q) : Qmult (Qmult q a) b = Qmult q (Qmult a b).
Proof.
  destruct q, a, b. unfold Qmult. simpl. f_equal; [lia|apply eq_sym, Pos.mul_assoc].
Qed.

(** ** The unit rewriter *)

Lemma set_values_ok ds n f p v d w :
  assoc n (variables ds) = Some p -> heap w !! p = Some v -> f (data v) = Ok d ->
  set_values ds n f w =
    (Ok tt, mkWorld (<[p := mkVar (dims v) d (attrs v)]> (heap w)) (disk w)).
Proof.
  intros Hp Hv Hf. unfold set_values.
  erewrite bind_ok; [|by apply getitem_ok].
  erewrite bind_ok; [|by apply deref_ok].
  erewrite bind_ok; [|unfold lift; by rewrite Hf].
  erewrite bind_ok; [|by apply getitem_ok].
  erewrite bind_ok; [|by apply deref_ok]. done.
Qed.

Lemma set_attr_ok ds n k x p v w :
  assoc n (variables ds) = Some p -> heap w !! p = Some v ->
  set_attr ds n k x w =
    (Ok tt, mkWorld (<[p := mkVar (dims v) (data v) (<[k := x]> (attrs v))]> (heap w)) (disk w)).
Proof.
  intros Hp Hv. unfold set_attr.
  erewrite bind_ok; [|by apply getitem_ok].
  erewrite bind_ok; [|by apply deref_ok]. done.
Qed.

(** Scaling the values and then replacing the unit. *)
Lemma scale_step ds n c f u p v x w :
  assoc n (variables ds) = Some p -> heap w !! p = Some v -> data v = F64 x ->
  c (F64 x) = Ok (F64 (nd_map (fun q => Qmult q f) x)) ->
  (let* _ := set_values ds n c in set_attr ds n "units" u) w =
    (Ok tt, mkWorld (<[p := mkVar (dims v) (F64 (nd_map (fun q => Qmult q f) x))
                                  (<["units" := u]> (attrs v))]> (heap w)) (disk w)).
Proof.
  intros Hp Hv Hx Hc.
  erewrite bind_ok; [|eapply set_values_ok; eauto; by rewrite Hx].
  erewrite set_attr_ok; [|done|].
  2:{ simpl. apply list_lookup_insert_eq. by eapply lookup_lt_Some. }
  simpl. by rewrite list_insert_insert_eq.
Qed.

Lemma mul_scalar_F64 x c : mul_scalar (F64 x) c = Ok (F64 (nd_map (fun q => Qmult q c) x)).
Proof. done. Qed.

Lemma mul_scalar2 x a b :
  bindR (mul_scalar (F64 x) a) (fun v => mul_scalar v b) =
  Ok (F64 (nd_map (fun q => Qmult q (Qmult a b)) x)).
Proof.
  simpl. rewrite nd_map_map. do 2 f_equal. apply nd_map_ext. intros q. apply Qmult_assoc_eq.
Qed.

Lemma mul_scalar3 x a b c :
  bindR (bindR (mul_scalar (F64 x) a) (fun v => mul_scalar v b)) (fun v => mul_scalar v c) =
  Ok (F64 (nd_map (fun q => Qmult q (Qmult (Qmult a b) c)) x)).
Proof.
  simpl. rewrite !nd_map_map. do 2 f_equal. apply nd_map_ext. intros q.
  by rewrite !Qmult_assoc_eq.
Qed.

Lemma insert_same_world w p v :
  heap w !! p = Some v -> mkWorld (<[p := v]> (heap w)) (disk w) = w.
Proof. intros H. rewrite list_insert_id by done. by destruct w. Qed.

Ltac name_cases n :=
  repeat match goal with
  | |- context [bool_decide (n = ?s)] =>
      destruct (decide (n = s)) as [->|?];
      [|rewrite (bool_decide_eq_false_2 (n = s)) by done;
        try rewrite (bool_decide_eq_false_2 (s = n)) by done]
  end.

(** Evaluation of the tests on names that are known. *)
Ltac eval_tests :=
  repeat match goal with
  | |- context [bool_decide (?a = ?b)] =>
      let r := eval vm_compute in (bool_decide (a = b)) in
      change (bool_decide (a = b)) with r
  end;
  cbn [orb andb negb].

Ltac eval_assoc H :=
  repeat match type of H with
  | context [@assoc ?B ?n ?t] =>
      let r := eval vm_compute in (@assoc B n t) in
      change (@assoc B n t) with r in H
  end.

Ltac split_names H :=
  repeat (apply elem_of_cons in H as [->|H]); [..|by apply elem_of_nil in H].

Ltac other_name Hn :=
  repeat match type of Hn with
  | _ ∉ _ :: _ => apply not_elem_of_cons in Hn as [? Hn]
  end.

Lemma fix_units_step_spec ds_ n p v v' w :
  assoc n (variables ds_) = Some p -> heap w !! p = Some v -> units_of n v = Ok v' ->
  fix_units_step ds_ n w = (Ok tt, mkWorld (<[p := v']> (heap w)) (disk w)).
Proof.
  intros Hp Hv Hu.
  destruct (decide (n ∈ names unit_table ++ names label_table)) as [Hn|Hn].
  - unfold fix_units_step.
    vm_compute in Hn. split_names Hn; eval_tests; unfold units_of in Hu; eval_assoc Hu;
      first [ injection Hu as <-; by eapply set_attr_ok
            | destruct (data v) as [x| |] eqn:Ed; try discriminate; injection Hu as <-;
              eapply scale_step; eauto;
              first [apply mul_scalar_F64 | apply mul_scalar2 | apply mul_scalar3] ].
  - unfold fix_units_step. unfold names, unit_table, label_table in Hn.
    cbn [List.map app fst] in Hn. other_name Hn.
    rewrite !bool_decide_eq_false_2 by done. cbn [orb].
    unfold units_of, unit_table, label_table in Hu. cbn [assoc List.map] in Hu.
    rewrite !bool_decide_eq_false_2 in Hu by done. injection Hu as <-.
    unfold ret. by rewrite insert_same_world.
Qed.

Lemma assoc_NoDup {B} (l : list (string * B)) n b :
  NoDup (names l) -> (n, b) ∈ l -> assoc n l = Some b.
Proof.
  induction l as [|[k x] l IH]; intros Hnd Hin; [by apply elem_of_nil in Hin|].
  simpl in *. apply NoDup_cons in Hnd as [Hk Hnd].
  apply elem_of_cons in Hin as [E|Hin].
  - injection E as -> ->. by rewrite bool_decide_eq_true_2.
  - rewrite bool_decide_eq_false_2; [by apply IH|].
    intros ->. apply Hk. unfold names. apply list_elem_of_fmap. by exists (n, b).
Qed.

Lemma units_of_rewritten n v v' : units_of n v = Ok v' -> units_rewritten n v v'.
Proof.
  unfold units_of, units_rewritten. destruct (assoc n unit_table) as [[f u]|].
  - destruct (data v) as [x| |] eqn:E; try discriminate. intros [= <-]. simpl. eauto.
  - destruct (assoc n label_table) as [u|]; intros [= <-]; simpl; auto.
Qed.

Lemma units_of_numeric n v :
  (is_Some (assoc n unit_table) -> exists x, data v = F64 x) -> exists v', units_of n v = Ok v'.
Proof.
  intros H. unfold units_of. destruct (assoc n unit_table) as [[f u]|].
  - destruct H as [x ->]; eauto.
  - destruct (assoc n label_table); eauto.
Qed.

Lemma mapR_Forall2 {A B} (f : A -> result B) l :
  (forall x, x ∈ l -> exists y, f x = Ok y) ->
  exists ys, mapR f l = Ok ys /\ Forall2 (fun x y => f x = Ok y) l ys.
Proof.
  induction l as [|x l IH]; intros H.
  - exists []. split; [done|constructor].
  - destruct (H x) as [y Hy]; [by left|].
    destruct IH as (ys & E & F); [intros; apply H; by right|].
    exists (y :: ys). simpl. rewrite Hy, E. split; [done|by constructor].
Qed.

(** C6. [fix_units] returns a dataset with the names of its input, bound to
    new objects: the coordinates are copied unchanged; a data variable of
    the scale table has its values multiplied elementwise by the factor of
    its entry and its [units] attribute replaced by the string of the entry;
    a data variable of the label table has its [units] attribute replaced
    and nothing else; any other data variable is copied unchanged. No object
    of the input is modified. (The names of a dataset are distinct, and the
    variables to rescale hold floating-point numbers.) *)
Theorem fix_units_rewrites_by_table ds w cvs dvs :
  holds w (coords ds) cvs -> holds w (data_vars ds) dvs ->
  NoDup (names (variables ds)) ->
  (forall n v, (n, v) ∈ zip (names (data_vars ds)) dvs ->
               is_Some (assoc n unit_table) -> exists x, data v = F64 x) ->
  exists ds' w' dvs',
    fix_units ds w = (Ok ds', w') /\
    names (coords ds') = names (coords ds) /\
    names (data_vars ds') = names (data_vars ds) /\
    holds w' (coords ds') cvs /\ holds w' (data_vars ds') dvs' /\
    Forall2 (fun nv v' => units_rewritten nv.1 nv.2 v')
            (zip (names (data_vars ds)) dvs) dvs' /\
    untouched w w' /\ disk w' = disk w.
Proof.
  intros Hc Hd Hnd Hnum.
  pose proof (holds_length _ _ _ Hc) as Lc. pose proof (holds_length _ _ _ Hd) as Ld.
  destruct (mapR_Forall2 (fun nv : string * var_obj => units_of nv.1 nv.2)
              (zip (names (data_vars ds)) dvs)) as (dvs' & Hm & Hf).
  { intros [n v] Hin. apply units_of_numeric. by apply Hnum. }
  assert (Ld' : length dvs' = length dvs).
  { apply Forall2_length in Hf. rewrite length_zip in Hf. unfold names in Hf.
    rewrite length_map in Hf. lia. }
  unfold fix_units.
  erewrite bind_ok; [|by apply copy_spec].
  set (ds_ := mkDs _ _).
  assert (Hnd_ : NoDup (names (variables ds_))).
  { unfold variables, ds_ in *. simpl. rewrite names_app, !names_zip_seq.
    by rewrite names_app in Hnd. }
  erewrite bind_ok.
  2:{ rewrite forM_names. unfold ds_ at 2. cbn [data_vars].
      replace (length (heap w) + length (coords ds))%nat with (length (heap w ++ cvs))
        by (rewrite length_app; lia).
      replace (length (data_vars ds)) with (length (names (data_vars ds)))
        by (unfold names; by rewrite length_map).
      cbn [heap disk]. rewrite app_assoc.
      replace dvs with (dvs ++ []) at 1 by apply app_nil_r.
      eapply (forM_update (fun b => fix_units_step ds_ b.1) units_of (variables ds_)).
      - intros n p v v' w0 Hin Hp Hu. cbn [fst].
        apply fix_units_step_spec with (v := v); [|done|done].
        by apply assoc_NoDup.
      - intros x Hx. unfold variables, ds_. cbn [coords data_vars].
        apply elem_of_app. right.
        replace (length (heap w) + length (coords ds))%nat with (length (heap w ++ cvs))
          by (rewrite length_app; lia).
        replace (length (data_vars ds)) with (length (names (data_vars ds)))
          by (unfold names; by rewrite length_map).
        done.
      - unfold names. rewrite length_map. done.
      - exact Hm. }
  eexists ds_, _, dvs'. split; [reflexivity|]. cbn [heap disk].
  split; [apply names_zip_seq|]. split; [apply names_zip_seq|].
  split; [|split; [|split; [|split; [|done]]]].
  - pose proof (holds_zip_seq (names (coords ds)) cvs (heap w) (dvs' ++ []) (disk w)) as H.
    unfold names in *. rewrite length_map in H. rewrite <- app_assoc. apply H. by rewrite Lc.
  - pose proof (holds_zip_seq (names (data_vars ds)) dvs' (heap w ++ cvs) [] (disk w)) as H.
    unfold names in *. rewrite length_map, length_app, <- Lc in H.
    apply H. by rewrite Ld'.
  - exact (Forall2_impl _ _ _ _ Hf (fun nv v' => units_of_rewritten nv.1 nv.2 v')).
  - exists (cvs ++ dvs' ++ []). by rewrite <- app_assoc.
Qed.

Lemma fix_units_rewrites_by_table_witness :
  exists ds' w' dvs',
    fix_units (Ex.dataset_of Ex.aerosols) (Ex.world_of Ex.aerosols) = (Ok ds', w') /\
    names (coords ds') = names (coords (Ex.dataset_of Ex.aerosols)) /\
    names (data_vars ds') = names (data_vars (Ex.dataset_of Ex.aerosols)) /\
    holds w' (coords ds') [Ex.time] /\ holds w' (data_vars ds') dvs' /\
    Forall2 (fun nv v' => units_rewritten nv.1 nv.2 v')
            (zip (names (data_vars (Ex.dataset_of Ex.aerosols)))
                 (Ex.time_bnds :: List.map snd Ex.aerosols)) dvs' /\
    untouched (Ex.world_of Ex.aerosols) w' /\ disk w' = disk (Ex.world_of Ex.aerosols).
Proof.
  apply (fix_units_rewrites_by_table (Ex.dataset_of Ex.aerosols) (Ex.world_of Ex.aerosols)).
  - repeat constructor.
  - repeat constructor.
  - apply (bool_decide_unpack _). vm_compute. exact I.
  - intros n v H Hs. simpl in H.
    repeat (apply elem_of_cons in H as [H|H];
            [injection H as -> ->;
             first [eexists; reflexivity | destruct Hs as [x Hx]; discriminate]|]).
    by apply elem_of_nil in H.
Defined.

(** ** The name rewriter *)

Lemma read_ok ds n p v w :
  assoc n (variables ds) = Some p -> heap w !! p = Some v -> read ds n w = (Ok v, w).
Proof.
  intros Hp Hv. unfold read. erewrite bind_ok; [|by apply getitem_ok]. by apply deref_ok.
Qed.

Lemma fix_names_step_spec ds_ n p v w :
  assoc n (variables ds_) = Some p -> heap w !! p = Some v ->
  fix_names_step ds_ n w = (Ok tt, mkWorld (<[p := names_of n v]> (heap w)) (disk w)).
Proof.
  intros Hp Hv.
  destruct (decide (n ∈ names name_table)) as [Hn|Hn].
  - unfold fix_names_step, names_of.
    vm_compute in Hn. split_names Hn; eval_tests;
      repeat match goal with
      | |- context [@assoc ?B ?n ?t] =>
          let r := eval vm_compute in (@assoc B n t) in change (@assoc B n t) with r
      end;
      first [ by eapply set_attr_ok
            | erewrite bind_ok; [|by eapply read_ok];
              erewrite bind_ok; [|reflexivity];
              by eapply set_attr_ok ].
  - unfold fix_names_step. unfold names, name_table in Hn.
    cbn [List.map fst] in Hn. other_name Hn.
    rewrite !bool_decide_eq_false_2 by done.
    unfold names_of, name_table. cbn [assoc].
    rewrite !bool_decide_eq_false_2 by done.
    unfold ret. by rewrite insert_same_world.
Qed.

Lemma names_of_frame n v :
  dims (names_of n v) = dims v /\ data (names_of n v) = data v /\
  (forall k, k <> "long_name" -> k <> "CLM5_name" ->
             attrs (names_of n v) !! k = attrs v !! k) /\
  (n ∉ names name_table -> names_of n v = v).
Proof.
  unfold names_of. destruct (assoc n name_table) as [[k x]|] eqn:E.
  - repeat split; simpl; auto.
    + intros k' H1 H2. apply lookup_insert_ne.
      assert (k = "long_name" \/ k = "CLM5_name") as [-> | ->]; [|done|done].
      revert E. unfold name_table. cbn [assoc].
      repeat (case_bool_decide; [intros [= <- _]; auto|]). done.
    + intros Hn. exfalso. apply Hn. clear Hn.
      revert E. unfold name_table, names. cbn [assoc List.map fst].
      repeat (case_bool_decide; [intros _; subst n; set_solver|]). done.
  - repeat split; auto.
Qed.

(** C10. [fix_names] returns a dataset with exactly the names of its input
    (no variable is renamed: [LWP] and [ET] do not appear unless they were
    there), bound to new objects; the coordinates are copied unchanged and
    each data variable is copied with, at most, its [long_name] or
    [CLM5_name] attribute set as the table says: dimensions, values and all
    other attributes are those of the input, and a variable that the table
    does not list is unchanged. No object of the input is modified. *)
Theorem fix_names_keeps_names ds w cvs dvs :
  holds w (coords ds) cvs -> holds w (data_vars ds) dvs ->
  NoDup (names (variables ds)) ->
  exists ds' w' dvs',
    fix_names ds w = (Ok ds', w') /\
    names (coords ds') = names (coords ds) /\
    names (data_vars ds') = names (data_vars ds) /\
    holds w' (coords ds') cvs /\ holds w' (data_vars ds') dvs' /\
    Forall2 (fun nv v' =>
               v' = names_of nv.1 nv.2 /\
               dims v' = dims nv.2 /\ data v' = data nv.2 /\
               (forall k, k <> "long_name" -> k <> "CLM5_name" ->
                          attrs v' !! k = attrs nv.2 !! k) /\
               (nv.1 ∉ names name_table -> v' = nv.2))
            (zip (names (data_vars ds)) dvs) dvs' /\
    untouched w w' /\ disk w' = disk w.
Proof.
  intros Hc Hd Hnd.
  pose proof (holds_length _ _ _ Hc) as Lc. pose proof (holds_length _ _ _ Hd) as Ld.
  set (dvs' := List.map (fun nv : string * var_obj => names_of nv.1 nv.2)
                        (zip (names (data_vars ds)) dvs)).
  assert (Ld' : length dvs' = length dvs).
  { unfold dvs'. rewrite length_map, length_zip. unfold names. rewrite length_map. lia. }
  unfold fix_names.
  erewrite bind_ok; [|by apply copy_spec].
  set (ds_ := mkDs _ _).
  assert (Hnd_ : NoDup (names (variables ds_))).
  { unfold variables, ds_ in *. simpl. rewrite names_app, !names_zip_seq.
    by rewrite names_app in Hnd. }
  erewrite bind_ok.
  2:{ rewrite forM_names. unfold ds_ at 2. cbn [data_vars].
      replace (length (heap w) + length (coords ds))%nat with (length (heap w ++ cvs))
        by (rewrite length_app; lia).
      replace (length (data_vars ds)) with (length (names (data_vars ds)))
        by (unfold names; by rewrite length_map).
      cbn [heap disk]. rewrite app_assoc.
      replace dvs with (dvs ++ []) at 1 by apply app_nil_r.
      eapply (forM_update (fun b => fix_names_step ds_ b.1)
                (fun n v => Ok (names_of n v)) (variables ds_)).
      - intros n p v v' w0 Hin Hp [= <-]. cbn [fst].
        apply fix_names_step_spec; [|done]. by apply assoc_NoDup.
      - intros x Hx. unfold variables, ds_. cbn [coords data_vars].
        apply elem_of_app. right.
        replace (length (heap w) + length (coords ds))%nat with (length (heap w ++ cvs))
          by (rewrite length_app; lia).
        replace (length (data_vars ds)) with (length (names (data_vars ds)))
          by (unfold names; by rewrite length_map).
        done.
      - unfold names. rewrite length_map. done.
      - apply (mapR_total (fun nv : string * var_obj => names_of nv.1 nv.2)). }
  fold dvs'.
  eexists ds_, _, dvs'. split; [reflexivity|]. cbn [heap disk].
  split; [apply names_zip_seq|]. split; [apply names_zip_seq|].
  split; [|split; [|split; [|split; [|done]]]].
  - pose proof (holds_zip_seq (names (coords ds)) cvs (heap w) (dvs' ++ []) (disk w)) as H.
    unfold names in *. rewrite length_map in H. rewrite <- app_assoc. apply H. by rewrite Lc.
  - pose proof (holds_zip_seq (names (data_vars ds)) dvs' (heap w ++ cvs) [] (disk w)) as H.
    unfold names in *. rewrite length_map, length_app, <- Lc in H.
    apply H. by rewrite Ld'.
  - unfold dvs'. apply Forall2_fmap_r, Forall_Forall2_diag, Forall_forall.
    intros [n v] _. simpl. split; [done|]. apply names_of_frame.
  - exists (cvs ++ dvs' ++ []). by rewrite <- app_assoc.
Qed.

Lemma fix_names_keeps_names_witness :
  exists ds' w' dvs',
    fix_names (Ex.dataset_of Ex.aerosols) (Ex.world_of Ex.aerosols) = (Ok ds', w') /\
    names (coords ds') = names (coords (Ex.dataset_of Ex.aerosols)) /\
    names (data_vars ds') = names (data_vars (Ex.dataset_of Ex.aerosols)) /\
    holds w' (coords ds') [Ex.time] /\ holds w' (data_vars ds') dvs' /\
    Forall2 (fun nv v' =>
               v' = names_of nv.1 nv.2 /\
               dims v' = dims nv.2 /\ data v' = data nv.2 /\
               (forall k, k <> "long_name" -> k <> "CLM5_name" ->
                          attrs v' !! k = attrs nv.2 !! k) /\
               (nv.1 ∉ names name_table -> v' = nv.2))
            (zip (names (data_vars (Ex.dataset_of Ex.aerosols)))
                 (Ex.time_bnds :: List.map snd Ex.aerosols)) dvs' /\
    untouched (Ex.world_of Ex.aerosols) w' /\ disk w' = disk (Ex.world_of Ex.aerosols).
Proof.
  apply (fix_names_keeps_names (Ex.dataset_of Ex.aerosols) (Ex.world_of Ex.aerosols)).
  - repeat constructor.
  - repeat constructor.
  - apply (bool_decide_unpack _). vm_compute. exact I.
Defined.

(** ** Trimming the spin-up *)


Lemma untouched_refl w : untouched w w.
Proof. exists []. by rewrite app_nil_r. Qed.

Lemma untouched_trans w1 w2 w3 : untouched w1 w2 -> untouched w2 w3 -> untouched w1 w3.
Proof. intros [a Ea] [b Eb]. exists (a ++ b). by rewrite Eb, Ea, app_assoc. Qed.

(** Slicing the variables of a list of bindings. *)
Lemma isel_vars_spec d a b l : forall vs w,
  holds w l vs ->
  exists l' w',
    mapM_M (isel_var d a b) l w = (Ok l', w') /\
    names l' = names l /\
    holds w' l' (List.map (isel_obj d a b) vs) /\
    untouched w w' /\ disk w' = disk w.
Proof.
  induction l as [|[n p] l IH]; intros vs w H; inversion H as [|? v ? vs' Hp Hl]; subst.
  - exists [], w. repeat split; [constructor|apply untouched_refl].
  - simpl in Hp. simpl. unfold isel_var at 1. cbn [snd fst].
    rewrite !bind_assoc. erewrite bind_ok; [|by apply deref_ok].
    unfold isel_obj at 1.
    destruct (dim_index d (dims v)) as [k|] eqn:Ek.
    + rewrite !bind_assoc. erewrite bind_ok; [|reflexivity].
      erewrite bind_ok; [|reflexivity].
      set (w1 := mkWorld _ _).
      destruct (IH vs' w1) as (l' & w' & Hrun & Hn & Hh & Hu & Hdk).
      { by apply holds_app_world. }
      erewrite bind_ok; [|exact Hrun].
      eexists _, w'. split; [reflexivity|]. split; [simpl; by rewrite Hn|].
      split; [|split; [|done]].
      * constructor; [|done]. simpl.
        destruct Hu as [new ->]. apply lookup_app_l_Some. unfold w1. simpl.
        by rewrite lookup_app_r, Nat.sub_diag.
      * eapply untouched_trans; [|exact Hu]. by eexists.
    + erewrite bind_ok; [|reflexivity].
      destruct (IH vs' w Hl) as (l' & w' & Hrun & Hn & Hh & Hu & Hdk).
      erewrite bind_ok; [|exact Hrun].
      eexists _, w'. split; [reflexivity|]. split; [simpl; by rewrite Hn|].
      split; [|done].
      constructor; [|done]. simpl. destruct Hu as [new ->]. by apply lookup_app_l_Some.
Qed.

Lemma isel_spec ds d a b cvs dvs w :
  holds w (coords ds) cvs -> holds w (data_vars ds) dvs ->
  d ∈ concat (List.map dims (cvs ++ dvs)) ->
  exists ds' w',
    isel ds d a b w = (Ok ds', w') /\
    names (coords ds') = names (coords ds) /\
    names (data_vars ds') = names (data_vars ds) /\
    holds w' (coords ds') (List.map (isel_obj d a b) cvs) /\
    holds w' (data_vars ds') (List.map (isel_obj d a b) dvs) /\
    untouched w w' /\ disk w' = disk w.
Proof.
  intros Hc Hd Hin. unfold isel.
  erewrite bind_ok; [|apply ds_dims_ok, holds_app; eauto].
  unfold mem. rewrite bool_decide_eq_true_2 by done. cbn [negb].
  destruct (isel_vars_spec d a b _ _ _ Hc) as (c' & w1 & Hr1 & Hn1 & Hh1 & Hu1 & Hd1).
  erewrite bind_ok; [|exact Hr1].
  destruct (isel_vars_spec d a b (data_vars ds) dvs w1) as (v' & w2 & Hr2 & Hn2 & Hh2 & Hu2 & Hd2).
  { by apply (holds_untouched w). }
  erewrite bind_ok; [|exact Hr2].
  exists (mkDs c' v'), w2. split; [reflexivity|]. simpl. repeat split; auto.
  - by apply (holds_untouched w1).
  - by eapply untouched_trans.
  - congruence.
Qed.

Lemma reads_ret {A} (a : A) : reads (ret a).
Proof. intros w r w' [= _ <-]. done. Qed.


Lemma reads_deref p : reads (deref p).
Proof. intros w r w'. unfold deref. destruct (heap w !! p); intros [= _ <-]; done. Qed.

Lemma reads_bind {A B} (c : M A) (k : A -> M B) :
  reads c -> (forall a, reads (k a)) -> reads (bind c k).
Proof.
  intros Hc Hk w r w'. unfold bind. destruct (c w) as [[a|e] w1] eqn:E.
  - apply Hc in E as ->. apply Hk.
  - apply Hc in E as ->. intros [= _ <-]. done.
Qed.

Lemma reads_mapM {A B} (f : A -> M B) l : (forall x, reads (f x)) -> reads (mapM_M f l).
Proof.
  intros Hf. induction l as [|x l IH]; simpl; [apply reads_ret|].
  apply reads_bind; [apply Hf|]. intros y. apply reads_bind; [apply IH|].
  intros ys. apply reads_ret.
Qed.

Lemma mapM_deref_world l w r w' :
  mapM_M (fun p : string * loc => deref p.2) l w = (r, w') -> w' = w.
Proof. apply reads_mapM. intros x. apply reads_deref. Qed.

Lemma contents_world l w r w' : contents l w = (r, w') -> w' = w.
Proof.
  apply reads_mapM. intros x. apply reads_bind; [apply reads_deref|].
  intros v. apply reads_ret.
Qed.

Lemma assoc_Some_elem {B} n (b : B) l : assoc n l = Some b -> (n, b) ∈ l.
Proof.
  induction l as [|[k x] l IH]; simpl; [done|].
  case_bool_decide as E.
  - intros [= ->]. subst. by left.
  - intros H. right. by apply IH.
Qed.

Lemma pick_elem l bs n q : (n, q) ∈ pick l bs -> (n, q) ∈ bs.
Proof.
  unfold pick. intros H. apply list_elem_of_omap in H as (m & _ & H).
  destruct (assoc m bs) as [p|] eqn:E; [|done]. injection H as <- <-.
  by apply assoc_Some_elem.
Qed.

(** A selection shares the variable objects of the dataset and leaves the
    store as it is. *)
Lemma getitem_list_inv ds l w ds' w' :
  getitem_list ds l w = (Ok ds', w') ->
  w' = w /\ forall n q, (n, q) ∈ variables ds' -> (n, q) ∈ variables ds.
Proof.
  unfold getitem_list. destruct (first_missing ds l); [done|].
  unfold bind at 1.
  destruct (mapM_M _ (pick (dedup l) (variables ds)) w) as [[vs|] w1] eqn:E1; [|done].
  apply mapM_deref_world in E1 as ->.
  unfold bind at 1. destruct (contents (coords ds) w) as [[cs|] w2] eqn:E2; [|done].
  apply contents_world in E2 as ->.
  unfold ret. intros [= <- <-]. split; [done|].
  intros n q. unfold variables. cbn [coords data_vars].
  rewrite !elem_of_app. intros [[H|H]|H]; apply pick_elem in H; auto.
Qed.

Lemma assoc_zip_map (f : var_obj -> var_obj) ns : forall vs n,
  assoc n (zip ns (List.map f vs)) = f <$> assoc n (zip ns vs).
Proof.
  induction ns as [|k ns IH]; intros [|v vs] n; simpl; try done.
  case_bool_decide; [done|apply IH].
Qed.

Lemma len_ok p v N w :
  heap w !! p = Some v -> arr_len (data v) = Some N -> len p w = (Ok (Z.of_nat N), w).
Proof.
  intros Hv Hl. unfold len. erewrite bind_ok; [|by apply deref_ok]. by rewrite Hl.
Qed.




Lemma elem_of_concat {A} (x : A) (l : list (list A)) :
  x ∈ concat l <-> exists k, k ∈ l /\ x ∈ k.
Proof.
  rewrite list_elem_of_In, in_concat. split; intros (k & H1 & H2); exists k;
    by rewrite ?list_elem_of_In in *.
Qed.


Lemma snap_elem w ds n v vs :
  holds w (variables ds) vs -> snap w ds n = Some v -> v ∈ vs.
Proof.
  intros H. unfold snap. fold (snapl w (variables ds) n). rewrite (snapl_view _ _ vs) by done.
  intros E. apply assoc_Some_elem in E. by apply elem_of_zip_r in E.
Qed.



(** ** Selections and files *)

Lemma holds_disk w d l vs : holds (mkWorld (heap w) d) l vs <-> holds w l vs.
Proof. done. Qed.

Lemma holds_sub w l l0 vs :
  (forall b, b ∈ l -> b ∈ l0) -> holds w l0 vs -> exists vs', holds w l vs'.
Proof.
  intros Hsub H0. induction l as [|b l IH].
  - exists []. constructor.
  - destruct IH as [vs' IH]; [intros; apply Hsub; by right|].
    assert (Hb : b ∈ l0) by (apply Hsub; by left).
    apply list_elem_of_lookup in Hb as [i Hi].
    destruct (Forall2_lookup_l _ _ _ _ _ H0 Hi) as (v & _ & Hv).
    exists (v :: vs'). by constructor.
Qed.

Lemma holds_zip_elem w l vs n v :
  holds w l vs -> (n, v) ∈ zip (names l) vs ->
  exists q, (n, q) ∈ l /\ heap w !! q = Some v.
Proof.
  induction 1 as [|[k p] x l vs Hp H IH]; simpl; intros Hin.
  - by apply elem_of_nil in Hin.
  - apply elem_of_cons in Hin as [[= -> ->]|Hin].
    + exists p. split; [by left|done].
    + destruct (IH Hin) as (q & Hq & Hv). exists q. split; [by right|done].
Qed.

Lemma assoc_is_Some {B} n (l : list (string * B)) : is_Some (assoc n l) <-> n ∈ names l.
Proof.
  induction l as [|[k b] l IH]; simpl.
  - split; [by intros [? ?]|by intros ?%elem_of_nil].
  - case_bool_decide as E.
    + subst. split; [intros _; by left|eauto].
    + rewrite IH. split; [intros; by right|].
      intros [?|?]%elem_of_cons; [congruence|done].
Qed.

Lemma pick_assoc l bs n q : (n, q) ∈ pick l bs -> assoc n bs = Some q /\ n ∈ l.
Proof.
  unfold pick. intros H. apply list_elem_of_omap in H as (m & Hm & H).
  destruct (assoc m bs) as [p|] eqn:E; [|done]. by injection H as <- <-.
Qed.

Lemma pick_cons n l bs :
  pick (n :: l) bs =
  match assoc n bs with Some p => (n, p) :: pick l bs | None => pick l bs end.
Proof. unfold pick. simpl. by destruct (assoc n bs). Qed.

Lemma names_pick l bs :
  names (pick l bs) = List.filter (fun n => mem n (names bs)) l.
Proof.
  induction l as [|n l IH]; [done|]. rewrite pick_cons. cbn [List.filter]. unfold mem at 1.
  destruct (assoc n bs) as [p|] eqn:E.
  - rewrite bool_decide_eq_true_2 by (apply assoc_is_Some; eauto).
    unfold names in *. simpl. by rewrite IH.
  - rewrite bool_decide_eq_false_2; [done|].
    intros H. apply assoc_is_Some in H as [? H]. congruence.
Qed.

Lemma elem_of_filter_bool {A} (f : A -> bool) l x :
  x ∈ List.filter f l <-> x ∈ l /\ f x = true.
Proof. rewrite !list_elem_of_In. apply filter_In. Qed.

Lemma elem_of_dedup l n : n ∈ dedup l <-> n ∈ l.
Proof.
  induction l as [|k l IH]; [done|]. simpl.
  rewrite !elem_of_cons, elem_of_filter_bool, IH. split.
  - intros [?|[? _]]; auto.
  - intros [?|?]; [by left|]. destruct (decide (n = k)); [by left|].
    right. split; [done|]. by rewrite bool_decide_eq_false_2.
Qed.

Lemma first_missing_None ds l :
  (forall n, n ∈ l -> n ∈ names (variables ds)) -> first_missing ds l = None.
Proof.
  induction l as [|n l IH]; intros H; [done|]. simpl. unfold mem.
  rewrite bool_decide_eq_true_2 by (apply H; by left).
  apply IH. intros; apply H; by right.
Qed.

Lemma first_missing_Some ds l k :
  first_missing ds l = Some k -> k ∈ l /\ k ∉ names (variables ds).
Proof.
  induction l as [|n l IH]; [done|]. simpl. unfold mem. case_bool_decide as E.
  - intros H. destruct (IH H). split; [by right|done].
  - intros [= <-]. split; [by left|done].
Qed.

Lemma first_missing_absent ds l n :
  n ∈ l -> n ∉ names (variables ds) -> exists k, first_missing ds l = Some k.
Proof.
  intros Hin Hn. destruct (first_missing ds l) as [k|] eqn:E; [eauto|].
  exfalso. induction l as [|m l IH]; [by apply elem_of_nil in Hin|].
  simpl in E. unfold mem in E. case_bool_decide as Em; [|done].
  apply elem_of_cons in Hin as [->|Hin]; [done|]. by apply IH.
Qed.

Lemma mapM_deref_ok l vs w :
  holds w l vs -> mapM_M (fun p : string * loc => deref p.2) l w = (Ok vs, w).
Proof. apply mapM_deref. Qed.

(** A selection of names that the dataset has. *)
Lemma getitem_list_ok ds l vs w :
  holds w (variables ds) vs ->
  (forall n, n ∈ l -> n ∈ names (variables ds)) ->
  exists ds' ex,
    getitem_list ds l w = (Ok ds', w) /\
    data_vars ds' = pick (dedup l) (data_vars ds) /\
    coords ds' = pick (dedup l) (coords ds) ++ pick ex (coords ds).
Proof.
  intros Hv Hl. unfold getitem_list. rewrite first_missing_None by done.
  destruct (holds_sub w (pick (dedup l) (variables ds)) (variables ds) vs) as [ps Hps];
    [intros [n q]; apply pick_elem|done|].
  erewrite bind_ok; [|by apply mapM_deref_ok].
  destruct (holds_sub w (coords ds) (variables ds) vs) as [cs Hcs];
    [intros b Hb; apply elem_of_app; by left|done|].
  erewrite bind_ok; [|by apply contents_ok].
  eexists _, _. split; [reflexivity|]. done.
Qed.

Lemma to_netcdf_ok ds path cs vs w :
  holds w (coords ds) cs -> holds w (data_vars ds) vs ->
  to_netcdf ds path w =
    (Ok tt, mkWorld (heap w)
              (disk w ++ [(path, mkFile (zip (names (coords ds)) cs)
                                        (zip (names (data_vars ds)) vs))])).
Proof.
  intros Hc Hd. unfold to_netcdf.
  erewrite bind_ok; [|by apply contents_ok].
  erewrite bind_ok; [|by apply contents_ok]. done.
Qed.

(** Selecting names that the dataset has and writing the selection. *)
Lemma select_and_write ds l path vs w :
  holds w (variables ds) vs ->
  (forall n, n ∈ l -> n ∈ names (variables ds)) ->
  exists f,
    (let* sel := getitem_list ds l in to_netcdf sel path) w =
      (Ok tt, mkWorld (heap w) (disk w ++ [(path, f)])) /\
    file_holds w ds l f.
Proof.
  intros Hv Hl.
  destruct (getitem_list_ok ds l vs w Hv Hl) as (ds' & ex & Hg & Hdv & Hco).
  destruct (holds_sub w (coords ds') (variables ds) vs) as [cs Hcs]; [|done|].
  { rewrite Hco. intros [n q] [H|H]%elem_of_app; apply pick_elem in H;
      apply elem_of_app; by left. }
  destruct (holds_sub w (data_vars ds') (variables ds) vs) as [dvs Hdvs]; [|done|].
  { rewrite Hdv. intros [n q] H. apply pick_elem in H. apply elem_of_app; by right. }
  eexists. split.
  { erewrite bind_ok; [|exact Hg]. by apply to_netcdf_ok. }
  unfold file_holds. cbn [file_vars file_coords].
  assert (Ln : forall (l0 : list (string * loc)) xs, holds w l0 xs ->
             names (zip (names l0) xs) = names l0).
  { intros l0 xs H. unfold names. rewrite fst_zip; [done|].
    rewrite length_map. apply holds_length in H. lia. }
  rewrite !Ln by done. split; [|split; [|split]].
  - by rewrite Hdv, names_pick.
  - intros n v Hin. destruct (holds_zip_elem _ _ _ _ _ Hdvs Hin) as (q & Hq & Hh).
    rewrite Hdv in Hq. apply pick_assoc in Hq as [Hq _]. unfold snapl. by rewrite Hq.
  - intros n v Hin. destruct (holds_zip_elem _ _ _ _ _ Hcs Hin) as (q & Hq & Hh).
    rewrite Hco in Hq. unfold snapl.
    apply elem_of_app in Hq as [Hq|Hq]; apply pick_assoc in Hq as [Hq _]; by rewrite Hq.
  - intros n Hn. pose proof (Hl n Hn) as Hp. unfold variables in Hp.
    rewrite names_app in Hp. apply elem_of_dedup in Hn.
    destruct (decide (n ∈ names (coords ds))) as [Hc|Hc].
    + left. rewrite Hco, names_app, names_pick. apply elem_of_app. left.
      apply elem_of_filter_bool. split; [done|]. unfold mem. by apply bool_decide_eq_true.
    + right. apply elem_of_app in Hp as [?|Hp]; [done|].
      rewrite Hdv, names_pick. apply elem_of_filter_bool. split; [done|].
      unfold mem. by apply bool_decide_eq_true.
Qed.

(** ** The writer *)

Lemma no_NaT' ts :
  Forall not_NaT ts ->
  existsb (fun t => match t with Dt64 ns => ns =? NaT | Cf _ => false end) ts = false.
Proof.
  induction 1 as [|t l Ht _ IH]; [done|]. simpl. rewrite IH.
  destruct t as [ns|c]; [|done]. simpl in Ht. by apply Z.eqb_neq in Ht as ->.
Qed.

Lemma time_years_ok ds w tv ts :
  snap w ds "time" = Some tv -> instants (data tv) = Some ts -> Forall not_NaT ts ->
  time_years ds w = (Ok (List.map dt_year ts), w).
Proof.
  intros Hs Hi Hn. apply snapl_Some in Hs as (p & Hp & Hv). unfold time_years.
  erewrite bind_ok; [|by apply getattr_ok].
  erewrite bind_ok; [|by apply deref_ok].
  unfold lift, dt_values. by rewrite Hi, no_NaT'.
Qed.

Lemma save_step_write ds comp path alias date vars cat catalog cvars w vs :
  variables_by_component comp true = Ok catalog ->
  assoc cat catalog = Some cvars -> cat <> "TURBFLUXES" ->
  (cat = "RADIATIVE" -> is_Some (assoc "TURBFLUXES" catalog)) ->
  holds w (variables ds) vs ->
  (forall n, n ∈ (vars ++ cvars) ++
                 (if bool_decide (cat = "RADIATIVE")
                  then Ghan_vars ++ default [] (assoc "TURBFLUXES" catalog) else []) ->
             n ∈ names (variables ds)) ->
  exists f,
    save_step ds comp path alias date vars cat w =
      (Ok ((vars ++ cvars) ++
           (if bool_decide (cat = "RADIATIVE")
            then Ghan_vars ++ default [] (assoc "TURBFLUXES" catalog) else [])),
       mkWorld (heap w)
               (disk w ++ [((path ++ alias ++ "_" ++ cat ++ "_" ++ date ++ ".nc")%string, f)])) /\
    file_holds w ds ((vars ++ cvars) ++
           (if bool_decide (cat = "RADIATIVE")
            then Ghan_vars ++ default [] (assoc "TURBFLUXES" catalog) else [])) f.
Proof.
  intros Hcat Hc Hnt Htf Hv Hpres. unfold save_step.
  erewrite bind_ok; [|unfold lift; by rewrite Hcat].
  erewrite bind_ok; [|unfold lift_opt; by rewrite Hc].
  rewrite (bool_decide_eq_false_2 (cat = "TURBFLUXES")) by done.
  destruct (bool_decide (cat = "RADIATIVE")) eqn:Er.
  - apply bool_decide_eq_true in Er. destruct (Htf Er) as [tf Htf'].
    rewrite Htf' in *. cbn [default] in *.
    rewrite !bind_assoc.
    erewrite bind_ok; [|unfold lift; by rewrite Hcat].
    rewrite !bind_assoc.
    erewrite bind_ok; [|unfold lift_opt; by rewrite Htf'].
    erewrite bind_ok; [|reflexivity].
    destruct (select_and_write ds ((vars ++ cvars) ++ Ghan_vars ++ tf)
                (path ++ alias ++ "_" ++ cat ++ "_" ++ date ++ ".nc")%string vs w Hv Hpres)
      as (f & Hrun & Hf).
    exists f. split; [|done].
    rewrite <- bind_assoc. erewrite bind_ok; [|exact Hrun]. done.
  - erewrite bind_ok; [|reflexivity]. rewrite app_nil_r in *.
    destruct (select_and_write ds (vars ++ cvars)
                (path ++ alias ++ "_" ++ cat ++ "_" ++ date ++ ".nc")%string vs w Hv Hpres)
      as (f & Hrun & Hf).
    exists f. split; [|done].
    rewrite <- bind_assoc. erewrite bind_ok; [|exact Hrun]. done.
Qed.

Lemma save_step_skip ds comp path alias date vars catalog cvars w :
  variables_by_component comp true = Ok catalog ->
  assoc "TURBFLUXES" catalog = Some cvars ->
  save_step ds comp path alias date vars "TURBFLUXES" w = (Ok (vars ++ cvars), w).
Proof.
  intros Hcat Hc. unfold save_step.
  erewrite bind_ok; [|unfold lift; by rewrite Hcat].
  erewrite bind_ok; [|unfold lift_opt; by rewrite Hc].
  rewrite (bool_decide_eq_false_2 ("TURBFLUXES" = "RADIATIVE")) by done.
  erewrite bind_ok; [|reflexivity]. by rewrite bool_decide_eq_true_2.
Qed.

Lemma cumulative_S catalog base k cat cvars :
  catalog !! k = Some (cat, cvars) ->
  cumulative catalog base (S k) =
    (cumulative catalog base k ++ cvars) ++
    (if bool_decide (cat = "RADIATIVE")
     then Ghan_vars ++ default [] (assoc "TURBFLUXES" catalog) else []).
Proof.
  intros H. unfold cumulative. erewrite take_S_r by done.
  rewrite map_app, concat_app. simpl. unfold category_adds at 2. simpl.
  by rewrite app_nil_r, <- !app_assoc.
Qed.

Lemma cumulative_mono catalog base k k' n :
  (k <= k')%nat -> n ∈ cumulative catalog base k -> n ∈ cumulative catalog base k'.
Proof.
  intros Hk. unfold cumulative. rewrite !elem_of_app. intros [?|H]; [by left|right].
  rewrite elem_of_concat in *. destruct H as (l & Hl & Hn). exists l. split; [|done].
  apply list_elem_of_fmap in Hl as (c & -> & Hc). apply list_elem_of_fmap. exists c.
  split; [done|]. replace k' with (k + (k' - k))%nat by lia.
  rewrite <- take_take_drop. apply elem_of_app. by left.
Qed.

Lemma file_holds_heap w w' ds l f :
  heap w' = heap w -> file_holds w ds l f -> file_holds w' ds l f.
Proof. unfold file_holds, snapl. by intros ->. Qed.

(** The loop of the writer, from the [k]-th category on. *)
Lemma save_loop ds comp path alias date catalog base vs :
  variables_by_component comp true = Ok catalog ->
  NoDup (names catalog) ->
  ("RADIATIVE" ∈ names catalog -> is_Some (assoc "TURBFLUXES" catalog)) ->
  forall rest k w,
    drop k catalog = rest ->
    holds w (variables ds) vs ->
    (forall n, n ∈ cumulative catalog base (length catalog) -> n ∈ names (variables ds)) ->
    exists w' files,
      foldM (save_step ds comp path alias date) (cumulative catalog base k) (names rest) w =
        (Ok (cumulative catalog base (length catalog)), w') /\
      heap w' = heap w /\ disk w' = disk w ++ files /\
      Forall2 (fun (ic : nat * string) (pf : string * file) =>
                 pf.1 = (path ++ alias ++ "_" ++ ic.2 ++ "_" ++ date ++ ".nc")%string /\
                 file_holds w ds (cumulative catalog base (S ic.1)) pf.2)
              (List.filter (fun ic => negb (bool_decide (ic.2 = "TURBFLUXES")))
                           (zip (seq k (length rest)) (names rest)))
              files.
Proof.
  intros Hcat Hnd Htf rest. induction rest as [|[cat cvars] rest IH]; intros k w Hdrop Hv Hpres.
  - exists w, []. simpl. rewrite app_nil_r.
    assert (length catalog <= k)%nat.
    { apply (f_equal length) in Hdrop. rewrite length_drop in Hdrop. simpl in Hdrop. lia. }
    split; [|split; [done|split; [done|constructor]]].
    unfold ret, cumulative. by rewrite !take_ge by lia.
  - assert (Hk : catalog !! k = Some (cat, cvars)).
    { rewrite <- (Nat.add_0_r k), <- lookup_drop, Hdrop. done. }
    assert (Hrest : drop (S k) catalog = rest).
    { replace (S k) with (k + 1)%nat by lia. rewrite <- drop_drop, Hdrop. done. }
    assert (Ha : assoc cat catalog = Some cvars).
    { apply assoc_NoDup; [done|]. by eapply list_elem_of_lookup_2. }
    assert (Hlt : (S k <= length catalog)%nat) by (apply lookup_lt_Some in Hk; lia).
    cbn [names List.map fst foldM]. fold (names rest).
    destruct (decide (cat = "TURBFLUXES")) as [->|Hnt].
    + erewrite bind_ok; [|by eapply save_step_skip].
      destruct (IH (S k) w Hrest Hv Hpres) as (w' & files & Hrun & Hh & Hd & Hf).
      exists w', files. split; [|split; [done|split; [done|]]].
      * rewrite <- Hrun. f_equal. erewrite cumulative_S by done.
        rewrite bool_decide_eq_false_2 by done. by rewrite app_nil_r.
      * cbn [length seq zip zip_with List.filter snd].
        rewrite bool_decide_eq_true_2 by done. cbn [negb]. exact Hf.
    + destruct (save_step_write ds comp path alias date (cumulative catalog base k)
                  cat catalog cvars w vs) as (f & Hrun1 & Hf1); auto.
      { intros ->. apply Htf. apply list_elem_of_fmap. exists ("RADIATIVE", cvars).
        split; [done|]. by eapply list_elem_of_lookup_2. }
      { intros n Hn. apply Hpres. apply (cumulative_mono _ _ (S k)); [done|].
        by erewrite cumulative_S. }
      pose proof (cumulative_S catalog base k cat cvars Hk) as Ec.
      rewrite <- Ec in Hrun1, Hf1.
      erewrite bind_ok; [|exact Hrun1].
      set (w1 := mkWorld _ _).
      destruct (IH (S k) w1 Hrest Hv Hpres) as (w' & files & Hrun & Hh & Hd & Hf).
      exists w', (((path ++ alias ++ "_" ++ cat ++ "_" ++ date ++ ".nc")%string, f) :: files).
      split; [exact Hrun|]. split; [done|]. split.
      { rewrite Hd. unfold w1. simpl. by rewrite <- app_assoc. }
      cbn [length seq zip zip_with List.filter snd].
      rewrite bool_decide_eq_false_2 by done. cbn [negb].
      constructor; [done|].
      eapply Forall2_impl; [exact Hf|]. intros ic pf [? ?]. split; [done|].
      by apply (file_holds_heap w1).
Qed.

Lemma catalog_facts comp catalog :
  variables_by_component comp true = Ok catalog ->
  NoDup (names catalog) /\
  ("RADIATIVE" ∈ names catalog -> is_Some (assoc "TURBFLUXES" catalog)).
Proof.
  unfold variables_by_component. repeat case_bool_decide; intros [= <-].
  - split; [by apply (bool_decide_unpack _)|]. intros _. by eexists.
  - split; [by apply (bool_decide_unpack _)|].
    intros Hr. exfalso. revert Hr. by apply (bool_decide_unpack _).
Qed.

Lemma head_map {A B} (f : A -> B) l : head (List.map f l) = f <$> head l.
Proof. by destruct l. Qed.

Lemma last_map {A B} (f : A -> B) l : last (List.map f l) = f <$> last l.
Proof.
  induction l as [|x l IH]; [done|]. destruct l as [|y l]; [done|].
  change (last (List.map f (x :: y :: l))) with (last (List.map f (y :: l))).
  by rewrite IH.
Qed.

(** The beginning of the writer: the years of the file names, the catalog
    and the always-included variables. *)
Lemma save_postprocessed_unfold ds comp path alias pv w tv ts t0 t1 catalog :
  variables_by_component comp true = Ok catalog ->
  snap w ds "time" = Some tv -> instants (data tv) = Some ts -> Forall not_NaT ts ->
  head ts = Some t0 -> last ts = Some t1 ->
  save_postprocessed ds comp path alias pv w =
    (let* _ := foldM (save_step ds comp path alias (str (dt_year t0) ++ str (dt_year t1))%string)
                     (base_selection comp pv) (names catalog) in
     ret tt) w.
Proof.
  intros Hcat Ht Hi Hn H0 H1. unfold save_postprocessed.
  erewrite bind_ok; [|by eapply time_years_ok].
  erewrite bind_ok; [|unfold lift_opt; by rewrite head_map, H0].
  erewrite bind_ok; [|by eapply time_years_ok].
  erewrite bind_ok; [|unfold lift_opt; by rewrite last_map, H1].
  erewrite bind_ok; [|unfold lift; by rewrite Hcat].
  unfold base_selection.
  revert Hcat. unfold variables_by_component. repeat case_bool_decide; intros [= <-].
  - by erewrite bind_ok; [|reflexivity].
  - by erewrite bind_ok; [|reflexivity].
Qed.

(** C5, amended. For a component of the catalog and a dataset that has
    every variable of the accumulated selections (and a time coordinate
    whose first and last years are defined), [save_postprocessed] goes
    through the categories in catalog order and writes exactly one file for
    each category but TURBFLUXES, named
    <path><alias>_<category>_<first year><last year>.nc; the file of a
    category holds the always-included variables (with the pressure
    variables of the atmosphere when asked) and the variables of that
    category and of every earlier one, the Ghan variables and the turbulent
    fluxes being added at RADIATIVE; nothing is written for TURBFLUXES. *)
Theorem save_postprocessed_writes_cumulative ds comp path alias pv w vs tv ts t0 t1 catalog :
  holds w (variables ds) vs ->
  variables_by_component comp true = Ok catalog ->
  snap w ds "time" = Some tv -> instants (data tv) = Some ts -> Forall not_NaT ts ->
  head ts = Some t0 -> last ts = Some t1 ->
  (forall n, n ∈ cumulative catalog (base_selection comp pv) (length catalog) ->
             n ∈ names (variables ds)) ->
  exists w' files,
    save_postprocessed ds comp path alias pv w = (Ok tt, w') /\
    heap w' = heap w /\ disk w' = disk w ++ files /\
    Forall2 (fun (ic : nat * string) (pf : string * file) =>
               pf.1 = (path ++ file_name alias ic.2 (dt_year t0) (dt_year t1))%string /\
               file_holds w ds (cumulative catalog (base_selection comp pv) (S ic.1)) pf.2)
            (written catalog) files.
Proof.
  intros Hv Hcat Ht Hi Hn H0 H1 Hpres.
  erewrite save_postprocessed_unfold by eauto.
  destruct (catalog_facts _ _ Hcat) as [Hnd Htf].
  destruct (save_loop ds comp path alias (str (dt_year t0) ++ str (dt_year t1))%string
              catalog (base_selection comp pv) vs Hcat Hnd Htf catalog 0%nat w)
    as (w' & files & Hrun & Hh & Hd & Hf); auto.
  exists w', files. split; [|split; [done|split; [done|exact Hf]]].
  change (cumulative catalog (base_selection comp pv) 0) with
    (base_selection comp pv ++ []) in Hrun. rewrite app_nil_r in Hrun.
  by erewrite bind_ok; [|exact Hrun].
Qed.

Lemma save_postprocessed_writes_cumulative_witness :
  let ds := Ex.dataset_of Ex.atm_output in
  let w := Ex.world_of Ex.atm_output in
  exists catalog,
    variables_by_component "atm" true = Ok catalog /\
    exists w' files,
      save_postprocessed ds "atm" "out/" "CASE" false w = (Ok tt, w') /\
      heap w' = heap w /\ disk w' = disk w ++ files /\
      Forall2 (fun (ic : nat * string) (pf : string * file) =>
                 pf.1 = ("out/" ++ file_name "CASE" ic.2 2008 2008)%string /\
                 file_holds w ds (cumulative catalog (base_selection "atm" false) (S ic.1)) pf.2)
              (written catalog) files.
Proof.
  eexists. split; [reflexivity|].
  apply (save_postprocessed_writes_cumulative
           (Ex.dataset_of Ex.atm_output) "atm" "out/" "CASE" false (Ex.world_of Ex.atm_output)
           (heap (Ex.world_of Ex.atm_output)) Ex.time
           [Dt64 (datetime64_of 2008 2 1); Dt64 (datetime64_of 2008 3 1)]
           (Dt64 (datetime64_of 2008 2 1)) (Dt64 (datetime64_of 2008 3 1))).
  - repeat constructor.
  - reflexivity.
  - reflexivity.
  - reflexivity.
  - repeat constructor; by vm_compute.
  - reflexivity.
  - reflexivity.
  - apply Forall_forall. apply (bool_decide_unpack _). vm_compute. exact I.
Defined.

Lemma first_missing_None_inv ds l :
  first_missing ds l = None -> forall n, n ∈ l -> n ∈ names (variables ds).
Proof.
  intros H n Hn. destruct (decide (n ∈ names (variables ds))) as [|Hno]; [done|].
  destruct (first_missing_absent ds l n Hn Hno) as [k Hk]. congruence.
Qed.

Lemma save_step_raise ds comp path alias date vars cat catalog cvars w k :
  variables_by_component comp true = Ok catalog ->
  assoc cat catalog = Some cvars -> cat <> "TURBFLUXES" ->
  (cat = "RADIATIVE" -> is_Some (assoc "TURBFLUXES" catalog)) ->
  first_missing ds ((vars ++ cvars) ++
                    (if bool_decide (cat = "RADIATIVE")
                     then Ghan_vars ++ default [] (assoc "TURBFLUXES" catalog) else [])) = Some k ->
  save_step ds comp path alias date vars cat w = (Raise (KeyError k), w).
Proof.
  intros Hcat Hc Hnt Htf Hm. unfold save_step.
  erewrite bind_ok; [|unfold lift; by rewrite Hcat].
  erewrite bind_ok; [|unfold lift_opt; by rewrite Hc].
  rewrite (bool_decide_eq_false_2 (cat = "TURBFLUXES")) by done.
  destruct (bool_decide (cat = "RADIATIVE")) eqn:Er.
  - apply bool_decide_eq_true in Er. destruct (Htf Er) as [tf Htf'].
    rewrite Htf' in *. cbn [default from_option id] in *.
    rewrite !bind_assoc.
    erewrite bind_ok; [|unfold lift; by rewrite Hcat].
    rewrite !bind_assoc.
    erewrite bind_ok; [|unfold lift_opt; by rewrite Htf'].
    erewrite bind_ok; [|reflexivity].
    erewrite bind_raise; [done|]. unfold getitem_list. by rewrite Hm.
  - erewrite bind_ok; [|reflexivity]. rewrite app_nil_r in Hm.
    erewrite bind_raise; [done|]. unfold getitem_list. by rewrite Hm.
Qed.

(** The loop of the writer when a variable of the selection of the
    category of index [K] is missing: it stops with a [KeyError] at that
    category or before, having written files for earlier categories only. *)
Lemma save_loop_fail ds comp path alias date catalog base vs K catK cvK g :
  variables_by_component comp true = Ok catalog ->
  NoDup (names catalog) ->
  ("RADIATIVE" ∈ names catalog -> is_Some (assoc "TURBFLUXES" catalog)) ->
  catalog !! K = Some (catK, cvK) -> catK <> "TURBFLUXES" ->
  g ∈ cumulative catalog base (S K) -> g ∉ names (variables ds) ->
  forall rest k w,
    drop k catalog = rest -> (k <= K)%nat ->
    holds w (variables ds) vs ->
    exists key w' files,
      foldM (save_step ds comp path alias date) (cumulative catalog base k) (names rest) w =
        (Raise (KeyError key), w') /\
      (key ∉ names (variables ds)) /\
      heap w' = heap w /\ disk w' = disk w ++ files /\
      (names files `prefix_of`
         List.map (fun ic : nat * string =>
                     (path ++ alias ++ "_" ++ ic.2 ++ "_" ++ date ++ ".nc")%string)
           (List.filter (fun ic => negb (bool_decide (ic.2 = "TURBFLUXES")))
                        (zip (seq k (K - k)) (names rest)))).
Proof.
  intros Hcat Hnd Htf HK HnK Hg Hgn rest.
  induction rest as [|[cat cvars] rest IH]; intros k w Hdrop Hle Hv.
  - exfalso. apply lookup_lt_Some in HK.
    apply (f_equal length) in Hdrop. rewrite length_drop in Hdrop. simpl in Hdrop. lia.
  - assert (Hk : catalog !! k = Some (cat, cvars)).
    { rewrite <- (Nat.add_0_r k), <- lookup_drop, Hdrop. done. }
    assert (Hrest : drop (S k) catalog = rest).
    { replace (S k) with (k + 1)%nat by lia. rewrite <- drop_drop, Hdrop. done. }
    assert (Ha : assoc cat catalog = Some cvars).
    { apply assoc_NoDup; [done|]. by eapply list_elem_of_lookup_2. }
    assert (Hr : cat = "RADIATIVE" -> is_Some (assoc "TURBFLUXES" catalog)).
    { intros ->. apply Htf. apply list_elem_of_fmap. exists ("RADIATIVE", cvars).
      split; [done|]. by eapply list_elem_of_lookup_2. }
    pose proof (cumulative_S catalog base k cat cvars Hk) as Ec.
    cbn [names List.map fst foldM]. fold (names rest).
    destruct (decide (k = K)) as [->|Hne].
    + rewrite HK in Hk. injection Hk as <- <-.
      destruct (first_missing_absent ds _ g Hg Hgn) as [key Hkey].
      pose proof (first_missing_Some _ _ _ Hkey) as [_ Hkn].
      rewrite Ec in Hkey.
      exists key, w, []. split.
      { erewrite bind_raise; [done|]. by eapply save_step_raise. }
      split; [done|]. split; [done|]. split; [by rewrite app_nil_r|].
      apply prefix_nil.
    + replace (K - k)%nat with (S (K - S k)) by lia.
      cbn [seq zip zip_with List.filter snd List.map].
      destruct (decide (cat = "TURBFLUXES")) as [->|Hnt].
      * erewrite bind_ok; [|by eapply save_step_skip].
        rewrite bool_decide_eq_true_2 by done. cbn [negb].
        destruct (IH (S k) w Hrest ltac:(lia) Hv) as (key & w' & files & Hrun & Hkn & Hh & Hd & Hp).
        exists key, w', files. split; [|done].
        rewrite <- Hrun. f_equal. rewrite Ec.
        rewrite bool_decide_eq_false_2 by done. by rewrite app_nil_r.
      * rewrite bool_decide_eq_false_2 by done. cbn [negb List.map snd].
        destruct (first_missing ds (cumulative catalog base (S k))) as [key|] eqn:Em.
        -- pose proof (first_missing_Some _ _ _ Em) as [_ Hkn]. rewrite Ec in Em.
           exists key, w, []. split.
           { erewrite bind_raise; [done|]. by eapply save_step_raise. }
           split; [done|]. split; [done|]. split; [by rewrite app_nil_r|].
           apply prefix_nil.
        -- pose proof (first_missing_None_inv _ _ Em) as Hpres. rewrite Ec in Hpres.
           destruct (save_step_write ds comp path alias date (cumulative catalog base k)
                       cat catalog cvars w vs) as (f & Hrun1 & Hf1); auto.
           rewrite <- Ec in Hrun1.
           erewrite bind_ok; [|exact Hrun1]. set (w1 := mkWorld _ _).
           destruct (IH (S k) w1 Hrest ltac:(lia) Hv)
             as (key & w' & files & Hrun & Hkn & Hh & Hd & Hp).
           exists key, w',
             (((path ++ alias ++ "_" ++ cat ++ "_" ++ date ++ ".nc")%string, f) :: files).
           split; [exact Hrun|]. split; [done|]. split; [done|]. split.
           { rewrite Hd. unfold w1. simpl. by rewrite <- app_assoc. }
           cbn [names List.map fst]. by apply prefix_cons.
Qed.

(** C9. For the atmosphere the selection of the RADIATIVE category holds
    the eight Ghan variables; so on a dataset that lacks one of them (its
    time coordinate being in order) the writer stops with a [KeyError] on a
    name that the dataset does not have, and the only files it may have
    written are those of the categories before RADIATIVE: the missing
    variables are not skipped and no RADIATIVE file is written. *)
Theorem save_postprocessed_atm_needs_Ghan_vars ds path alias pv w vs tv ts t0 t1 g :
  holds w (variables ds) vs ->
  snap w ds "time" = Some tv -> instants (data tv) = Some ts -> Forall not_NaT ts ->
  head ts = Some t0 -> last ts = Some t1 ->
  g ∈ Ghan_vars -> g ∉ names (variables ds) ->
  (exists catalog rad,
     variables_by_component "atm" true = Ok catalog /\
     catalog !! 3%nat = Some ("RADIATIVE", rad) /\
     forall n, n ∈ Ghan_vars -> n ∈ cumulative catalog (base_selection "atm" pv) 4) /\
  exists key w' files,
    save_postprocessed ds "atm" path alias pv w = (Raise (KeyError key), w') /\
    (key ∉ names (variables ds)) /\
    heap w' = heap w /\ disk w' = disk w ++ files /\
    (names files `prefix_of`
       [(path ++ file_name alias "BVOC" (dt_year t0) (dt_year t1))%string;
        (path ++ file_name alias "SOA" (dt_year t0) (dt_year t1))%string;
        (path ++ file_name alias "CLOUDPROP" (dt_year t0) (dt_year t1))%string]).
Proof.
  intros Hv Ht Hi Hn H0 H1 Hg Hgn.
  destruct (variables_by_component "atm" true) as [catalog|] eqn:Hcat; [|done].
  pose proof Hcat as Hcat'. vm_compute in Hcat'. injection Hcat' as Ecat.
  assert (Hin : forall n, n ∈ Ghan_vars ->
                  n ∈ cumulative catalog (base_selection "atm" pv) 4).
  { intros n Hin. subst catalog. unfold cumulative. apply elem_of_app. right.
    cbn [take List.map concat]. rewrite !elem_of_app. do 3 right. left.
    unfold category_adds. cbn [fst snd]. rewrite bool_decide_eq_true_2 by done.
    rewrite !elem_of_app. right. by left. }
  split.
  { eexists catalog, _. split; [done|]. split; [by subst catalog|done]. }
  erewrite save_postprocessed_unfold by eauto.
  destruct (catalog_facts _ _ Hcat) as [Hnd Htf].
  assert (HK : catalog !! 3%nat =
               Some ("RADIATIVE", ["FSDS"; "FSNS"; "FLNT"; "FSNT"; "FLNT_DRF"; "FLNTCDRF";
                                   "FSNTCDRF"; "FSNT_DRF"; "LWCF"; "SWCF"]))
    by (by subst catalog).
  assert (HnK : "RADIATIVE" <> "TURBFLUXES") by done.
  destruct (save_loop_fail ds "atm" path alias
              (str (dt_year t0) ++ str (dt_year t1))%string catalog
              (base_selection "atm" pv) vs 3 _ _ g Hcat Hnd Htf HK HnK (Hin g Hg) Hgn
              catalog 0%nat w eq_refl ltac:(lia) Hv)
    as (key & w' & files & Hrun & Hkn & Hh & Hd & Hp).
  exists key, w', files.
  change (cumulative catalog (base_selection "atm" pv) 0) with
    (base_selection "atm" pv ++ []) in Hrun. rewrite app_nil_r in Hrun.
  split; [by erewrite bind_raise; [|exact Hrun]|].
  split; [done|]. split; [done|]. split; [done|].
  subst catalog. exact Hp.
Qed.

Lemma save_postprocessed_atm_needs_Ghan_vars_witness :
  let ds := Ex.dataset_of Ex.fluxes in
  let w := Ex.world_of Ex.fluxes in
  (exists catalog rad,
     variables_by_component "atm" true = Ok catalog /\
     catalog !! 3%nat = Some ("RADIATIVE", rad) /\
     forall n, n ∈ Ghan_vars -> n ∈ cumulative catalog (base_selection "atm" false) 4) /\
  exists key w' files,
    save_postprocessed ds "atm" "out/" "CASE" false w = (Raise (KeyError key), w') /\
    (key ∉ names (variables ds)) /\
    heap w' = heap w /\ disk w' = disk w ++ files /\
    (names files `prefix_of`
       [("out/" ++ file_name "CASE" "BVOC" 2008 2008)%string;
        ("out/" ++ file_name "CASE" "SOA" 2008 2008)%string;
        ("out/" ++ file_name "CASE" "CLOUDPROP" 2008 2008)%string]).
Proof.
  apply (save_postprocessed_atm_needs_Ghan_vars
           (Ex.dataset_of Ex.fluxes) "out/" "CASE" false (Ex.world_of Ex.fluxes)
           (heap (Ex.world_of Ex.fluxes)) Ex.time
           [Dt64 (datetime64_of 2008 2 1); Dt64 (datetime64_of 2008 3 1)]
           (Dt64 (datetime64_of 2008 2 1)) (Dt64 (datetime64_of 2008 3 1)) "SWDIR").
  - repeat constructor.
  - reflexivity.
  - reflexivity.
  - repeat constructor; by vm_compute.
  - reflexivity.
  - reflexivity.
  - apply (bool_decide_unpack _). vm_compute. exact I.
  - apply (bool_decide_unpack _). vm_compute. exact I.
Defined.

(** On a dataset that has none of the catalog variables the writer stops at
    once and writes no file at all. *)
Lemma save_postprocessed_writes_nothing :
  let r := save_postprocessed (Ex.dataset_of Ex.fluxes) "atm" "out/" "CASE" true
                              (Ex.world_of Ex.fluxes) in
  r.1 = Raise (KeyError "LANDFRAC") /\ disk r.2 = [].
Proof. vm_compute. done. Qed.

(** ** The variable selection of the land component *)

Lemma prefix_app sub s : String.prefix sub s = true -> exists b, s = (sub ++ b)%string.
Proof.
  revert s. induction sub as [|c sub IH]; intros s H.
  - by exists s.
  - destruct s as [|d s]; [done|]. simpl in H.
    destruct (Ascii.ascii_dec c d) as [->|]; [|done].
    destruct (IH s H) as [b ->]. by exists b.
Qed.

Lemma prefix_of_app sub b : String.prefix sub (sub ++ b) = true.
Proof.
  induction sub as [|c sub IH]; simpl; [by destruct b|].
  by destruct (Ascii.ascii_dec c c).
Qed.

(** [find] returns [-1] exactly on the strings that do not contain the
    searched string. *)
Lemma find_from_cons sub c s i :
  find_from sub (String c s) i =
  if String.prefix sub (String c s) then i else find_from sub s (i + 1).
Proof. done. Qed.

Lemma find_from_found sub s i :
  find_from sub s i <> -1 -> exists a b, s = (a ++ sub ++ b)%string.
Proof.
  revert i. induction s as [|c s IH]; intros i.
  - simpl. destruct sub; [intros _; by exists EmptyString, EmptyString|intros H; by destruct H].
  - rewrite find_from_cons. destruct (String.prefix sub (String c s)) eqn:E.
    + intros _. apply prefix_app in E as [b E]. by exists EmptyString, b.
    + intros H. destruct (IH _ H) as (a & b & ->). by exists (String c a), b.
Qed.

Lemma find_absent s sub :
  (forall a b, s <> (a ++ sub ++ b)%string) -> find s sub = -1.
Proof.
  intros H. unfold find. destruct (decide (find_from sub s 0 = -1)) as [|Hn]; [done|].
  destruct (find_from_found _ _ _ Hn) as (a & b & E). by destruct (H a b).
Qed.

Lemma find_at_start sub b : find (sub ++ b) sub = 0.
Proof.
  unfold find. pose proof (prefix_of_app sub b) as H.
  destruct (sub ++ b)%string; [|by rewrite find_from_cons, H].
  change (find_from sub EmptyString 0) with (if String.prefix sub EmptyString then 0 else -1).
  by rewrite H.
Qed.

(** The selection for the land component: the biogenic-emission variables
    are left out exactly when [find] returns a positive index. *)
Lemma select_variables_lnd casename pv :
  exists rest,
    select_variables casename "lnd" pv =
      Ok (lnd_always_include ++
          (if 0 <? find casename "OFF" then [] else MEG_vars) ++ rest) /\
    forall n, n ∈ MEG_vars -> n ∉ lnd_always_include ++ rest.
Proof.
  unfold select_variables. rewrite bool_decide_eq_false_2 by done.
  destruct (0 <? find casename "OFF"); eexists; (split; [reflexivity|]);
    intros n Hn; vm_compute in Hn; split_names Hn; by apply (bool_decide_unpack _).
Qed.

(** A case identifier without "OFF": the biogenic variables are selected. *)
Lemma select_variables_without_OFF casename pv :
  (forall a b, casename <> (a ++ "OFF" ++ b)%string) ->
  exists l, select_variables casename "lnd" pv = Ok l /\ forall n, n ∈ MEG_vars -> n ∈ l.
Proof.
  intros H. destruct (select_variables_lnd casename pv) as (rest & -> & _).
  rewrite find_absent by done. eexists. split; [reflexivity|].
  intros n Hn. rewrite !elem_of_app. right. by left.
Qed.

(** A case identifier with "OFF" after its first character: the biogenic
    variables are not selected. *)
Lemma select_variables_with_OFF_inside casename pv :
  0 < find casename "OFF" ->
  exists l, select_variables casename "lnd" pv = Ok l /\ forall n, n ∈ MEG_vars -> n ∉ l.
Proof.
  intros H. destruct (select_variables_lnd casename pv) as (rest & -> & Hr).
  apply Z.ltb_lt in H as ->. eexists. split; [reflexivity|]. exact Hr.
Qed.

(** C2 (the failing case). A case identifier that starts with "OFF"
    contains "OFF", and yet the selection for the land component holds the
    biogenic-emission variables: [find] returns 0 there, and the test of the
    code asks for a positive index. *)
Theorem select_variables_OFF_at_start casename pv :
  exists l,
    find ("OFF" ++ casename) "OFF" = 0 /\
    select_variables ("OFF" ++ casename) "lnd" pv = Ok l /\
    forall n, n ∈ MEG_vars -> n ∈ l.
Proof.
  destruct (select_variables_lnd ("OFF" ++ casename) pv) as (rest & -> & _).
  rewrite find_at_start. eexists. split; [done|]. split; [reflexivity|].
  intros n Hn. rewrite !elem_of_app. right. by left.
Qed.

(** ** Datasets as functions from names to contents *)

Lemma assoc_snd_lt {B} n (l : list (string * B)) b : assoc n l = Some b -> b ∈ List.map snd l.
Proof.
  intros H. apply assoc_Some_elem in H. apply list_elem_of_fmap. by exists (n, b).
Qed.







Lemma assoc_set_elem {B} n (b : B) l x :
  x ∈ assoc_set n b l -> x = (n, b) \/ x ∈ l.
Proof.
  induction l as [|[m y] l IH]; simpl.
  - intros [->|?%elem_of_nil]%elem_of_cons; [by left|done].
  - case_bool_decide as E.
    + subst. intros [->|?]%elem_of_cons; [by left|right; by right].
    + intros [->|?]%elem_of_cons; [right; by left|].
      destruct IH as [|]; [done|by left|right; by right].
Qed.




Lemma bind_ret_l {A B} (a : A) (k : A -> M B) w : bind (ret a) k w = k a w.
Proof. done. Qed.

(** ** Arithmetic on arrays with one value everywhere *)




(** ** The loops of the decomposition *)



Ltac look := unfold upd; eval_tests; first [eassumption | reflexivity].









(** ** The second loop: the annotations *)










(** ** The decomposition on the six fluxes *)





(** * Further properties *)

(** ** The time corrector: both layouts, any interval start *)

Lemma holds_elem w l vs m q :
  holds w l vs -> (m, q) ∈ l ->
  exists v, heap w !! q = Some v /\ (m, v) ∈ zip (names l) vs.
Proof.
  induction 1 as [|[k p] x l vs Hp H IH]; intros Hin.
  - by apply elem_of_nil in Hin.
  - apply elem_of_cons in Hin as [[= -> ->]|Hin].
    + exists x. split; [done|by left].
    + destruct (IH Hin) as (v & Hv & Hz). exists v. split; [done|by right].
Qed.

Lemma zip_variables ds w cvs dvs m v :
  holds w (coords ds) cvs -> holds w (data_vars ds) dvs ->
  (m, v) ∈ zip (names (coords ds)) cvs \/ (m, v) ∈ zip (names (data_vars ds)) dvs ->
  (m, v) ∈ zip (names (variables ds)) (cvs ++ dvs).
Proof.
  intros Hc Hd H. unfold variables. rewrite names_app.
  rewrite zip_with_app by (unfold names; rewrite length_map; by eapply holds_length).
  apply elem_of_app. exact H.
Qed.

Lemma size_conflict_false skip d n l :
  size_conflict skip d n l = false <->
  forall m v, (m, v) ∈ l -> m <> skip ->
    match dim_size d v with Some k => k = n | None => True end.
Proof.
  unfold size_conflict. induction l as [|[k x] l IH]; simpl.
  - split; [intros _ m v H; inversion H|done].
  - rewrite orb_false_iff, IH. split.
    + intros [H1 H2] m v [[= -> ->]|Hin]%elem_of_cons Hm; [|by apply (H2 m v)].
      rewrite bool_decide_eq_false_2 in H1 by done. simpl in H1.
      destruct (dim_size d x); [|done]. apply negb_false_iff in H1.
      by apply Nat.eqb_eq in H1.
    + intros H. split; [|intros m v Hin Hm; apply (H m v); [by right|done]].
      case_bool_decide as E; [done|]. simpl.
      specialize (H k x ltac:(by left) E). destruct (dim_size d x); [|done].
      apply negb_false_iff. by apply Nat.eqb_eq.
Qed.

(** [assign_coords], with the objects of the dataset it returns: apart from
    the coordinate assigned, they are copies of objects of the input, under
    the names they had. *)
Lemma assign_coords_full ds cvs dvs w n d values a len :
  holds w (coords ds) cvs -> holds w (data_vars ds) dvs ->
  arr_len values = Some len ->
  size_conflict n d len (zip (names (variables ds)) (cvs ++ dvs)) = false ->
  exists ds' cvs' dvs',
    let w' := mkWorld (heap w ++ cvs ++ dvs ++ [mkVar [d] values a]) (disk w) in
    assign_coords ds n d values a w = (Ok ds', w') /\
    snap w' ds' n = Some (mkVar [d] values a) /\
    (forall m, m <> n -> snap w' ds' m = snap w ds m) /\
    holds w' (coords ds') cvs' /\ holds w' (data_vars ds') dvs' /\
    (forall m, m ∈ names (data_vars ds') -> m ∈ names (data_vars ds)) /\
    (forall m v, (m, v) ∈ zip (names (variables ds')) (cvs' ++ dvs') -> m <> n ->
                 (m, v) ∈ zip (names (variables ds)) (cvs ++ dvs)).
Proof.
  intros Hc Hd Hl Hs.
  destruct (assign_coords_ok ds cvs dvs w n d values a len Hc Hd Hl Hs)
    as (ds' & Hrun & Hsn & Hoth).
  cbv zeta in *. set (new := mkVar [d] values a) in *.
  set (w' := mkWorld (heap w ++ cvs ++ dvs ++ [new]) (disk w)) in *.
  destruct (copy_ok false ds cvs dvs w Hc Hd) as (ds_ & Hcp & Nc & Nd & Hc' & Hd').
  cbv zeta in Hcp, Hc', Hd'.
  assert (Hst : ds' = mkDs (assoc_set n (length (heap w ++ cvs ++ dvs)) (coords ds_))
                           (assoc_del n (data_vars ds_))).
  { revert Hrun. unfold assign_coords.
    erewrite bind_ok; [|apply contents_ok, holds_app; eauto].
    rewrite Hl, Hs. erewrite bind_ok; [|apply Hcp].
    erewrite bind_ok; [|reflexivity]. unfold ret. by intros [= <-]. }
  assert (Hc2 : holds w' (coords ds_) cvs).
  { pose proof (holds_app_world _ _ _ [new] (disk w) Hc') as H. simpl in H.
    by rewrite <- !app_assoc in H. }
  assert (Hd2 : holds w' (data_vars ds_) dvs).
  { pose proof (holds_app_world _ _ _ [new] (disk w) Hd') as H. simpl in H.
    by rewrite <- !app_assoc in H. }
  assert (Hnew : heap w' !! length (heap w ++ cvs ++ dvs) = Some new).
  { unfold w'. cbn [heap].
    replace (heap w ++ cvs ++ dvs ++ [new]) with ((heap w ++ cvs ++ dvs) ++ [new])
      by (by rewrite <- !app_assoc).
    by rewrite lookup_app_r, Nat.sub_diag. }
  set (p := length (heap w ++ cvs ++ dvs)) in *.
  assert (Hall : holds w' (variables ds_ ++ [(n, p)]) ((cvs ++ dvs) ++ [new])).
  { apply holds_app; [by apply holds_app|]. by repeat constructor. }
  destruct (holds_sub w' (coords ds') (variables ds_ ++ [(n, p)]) ((cvs ++ dvs) ++ [new]))
    as [cvs' Hcs']; [|exact Hall|].
  { rewrite Hst. cbn [coords]. intros x [->|Hx]%assoc_set_elem.
    - apply elem_of_app. right. by left.
    - apply elem_of_app. left. apply elem_of_app. by left. }
  destruct (holds_sub w' (data_vars ds') (variables ds_ ++ [(n, p)]) ((cvs ++ dvs) ++ [new]))
    as [dvs' Hds']; [|exact Hall|].
  { rewrite Hst. cbn [data_vars]. intros x Hx. apply elem_of_filter_bool in Hx as [Hx _].
    apply elem_of_app. left. apply elem_of_app. by right. }
  exists ds', cvs', dvs'. split; [done|]. split; [done|]. split; [done|].
  split; [done|]. split; [done|]. split.
  - intros m. rewrite Hst. cbn [data_vars]. rewrite <- Nd. unfold names.
    intros Hm. apply list_elem_of_fmap in Hm as ([m' q] & -> & Hx).
    apply elem_of_filter_bool in Hx as [Hx _]. apply list_elem_of_fmap. by exists (m', q).
  - intros m v Hin Hm.
    destruct (holds_zip_elem w' (variables ds') (cvs' ++ dvs') m v) as (q & Hq & Hv);
      [by apply holds_app|done|].
    assert (Hq' : (m, q) ∈ coords ds_ \/ (m, q) ∈ data_vars ds_).
    { revert Hq. rewrite Hst. unfold variables. cbn [coords data_vars].
      intros [Hq|Hq]%elem_of_app.
      - apply assoc_set_elem in Hq as [[= -> _]|Hq]; [done|by left].
      - apply elem_of_filter_bool in Hq as [Hq _]. by right. }
    apply (zip_variables ds w cvs dvs); [done|done|].
    destruct Hq' as [Hq'|Hq'].
    + left. destruct (holds_elem _ _ _ _ _ Hc2 Hq') as (v' & Hv' & Hz).
      rewrite Hv in Hv'. injection Hv' as <-. by rewrite <- Nc.
    + right. destruct (holds_elem _ _ _ _ _ Hd2 Hq') as (v' & Hv' & Hz).
      rewrite Hv in Hv'. injection Hv' as <-. by rewrite <- Nd.
Qed.

(** The second half of [fix_cam_time]: the dates read on the bounds of
    [ds_], put on the time coordinate of [ds]. *)
Lemma fix_cam_time_from ds ds_ w1 cvs dvs tbv tv starts timetype :
  holds w1 (coords ds) cvs -> holds w1 (data_vars ds) dvs ->
  snap w1 ds_ "time_bnds" = Some tbv -> dims tbv = ["time"; "nbnd"] ->
  snap w1 ds "time" = Some tv ->
  size_conflict "time" "time" (length starts)
    (zip (names (variables ds)) (cvs ++ dvs)) = false ->
  (timetype = "DatetimeNoLeap" /\ bounds_starts (data tbv) starts /\
   Forall start_ok starts) \/
  (timetype = "datetime64" /\
   exists b, data tbv = M8 (bounds_nd b) /\ starts = List.map (fun p => Dt64 p.1) b) ->
  exists ds' w' dates cvs' dvs',
    (let* dates :=
       if bool_decide (timetype = "DatetimeNoLeap") then
         let* sm := time_bnds_start ds_ in
         let* months := lift (dt_values dt_month sm) in
         let* sy := time_bnds_start ds_ in
         let* years := lift (dt_values dt_year sy) in
         let* dates := lift (mapR (fun ym => DatetimeNoLeap ym.1 ym.2 15) (zip years months)) in
         ret (Obj (of_list1 dates))
       else if bool_decide (timetype = "datetime64") then
         let* s := time_bnds_start ds_ in
         list_plus_days 14 (data s)
       else
         raise (ValueError "time type not supported. Choose 'DatetimeNoLeap' or 'datetime64'") in
     let* t := getattr ds "time" in
     let* tv := deref t in
     assign_coords ds "time" "time" dates (attrs tv)) w1 = (Ok ds', w') /\
    snap w' ds' "time" = Some (mkVar ["time"] dates (attrs tv)) /\
    instants dates = Some (List.map (representative timetype) starts) /\
    (forall m, m <> "time" -> snap w' ds' m = snap w1 ds m) /\
    untouched w1 w' /\ disk w' = disk w1 /\
    holds w' (coords ds') cvs' /\ holds w' (data_vars ds') dvs' /\
    (forall m, m ∈ names (data_vars ds') -> m ∈ names (data_vars ds)) /\
    (forall m v, (m, v) ∈ zip (names (variables ds')) (cvs' ++ dvs') -> m <> "time" ->
                 (m, v) ∈ zip (names (variables ds)) (cvs ++ dvs)).
Proof.
  intros Hc Hd Htb1 Hdims Ht Hsz Hmode.
  assert (Hdates : exists dates,
    (if bool_decide (timetype = "DatetimeNoLeap") then
       let* sm := time_bnds_start ds_ in
       let* months := lift (dt_values dt_month sm) in
       let* sy := time_bnds_start ds_ in
       let* years := lift (dt_values dt_year sy) in
       let* dates := lift (mapR (fun ym => DatetimeNoLeap ym.1 ym.2 15) (zip years months)) in
       ret (Obj (of_list1 dates))
     else if bool_decide (timetype = "datetime64") then
       let* s := time_bnds_start ds_ in
       list_plus_days 14 (data s)
     else
       raise (ValueError "time type not supported. Choose 'DatetimeNoLeap' or 'datetime64'"))
      w1 = (Ok dates, w1) /\
    instants dates = Some (List.map (representative timetype) starts) /\
    arr_len dates = Some (length starts)).
  { destruct Hmode as [(-> & Hb & Hok)|(-> & b & Hb & ->)].
    - rewrite bool_decide_eq_true_2 by done.
      destruct (time_bnds_start_ok _ _ _ _ Htb1 Hdims Hb) as (s & Hs & Hi & _).
      erewrite bind_ok; [|apply Hs].
      erewrite bind_ok; [|unfold lift; by erewrite dt_values_ok].
      erewrite bind_ok; [|apply Hs].
      erewrite bind_ok; [|unfold lift; by erewrite dt_values_ok].
      erewrite bind_ok; [|unfold lift; by rewrite noleap_dates].
      eexists. split; [reflexivity|]. split.
      + rewrite instants_Obj, map_map. f_equal.
      + by rewrite arr_len_Obj, length_map.
    - rewrite bool_decide_eq_false_2 by done. rewrite bool_decide_eq_true_2 by done.
      assert (Hbs : bounds_starts (data tbv) (List.map (fun p => Dt64 p.1) b))
        by (left; eauto).
      destruct (time_bnds_start_ok _ _ _ _ Htb1 Hdims Hbs) as (s & Hs & Hi & Hx).
      erewrite bind_ok; [|apply Hs].
      rewrite Hb, arr_index_bounds_M8 in Hx. injection Hx as <-.
      rewrite list_plus_days_ok. eexists. split; [reflexivity|]. split.
      + rewrite instants_M8, !map_map. f_equal.
      + by rewrite arr_len_M8, !length_map. }
  destruct Hdates as (dates & Hrun & Hinst & Hlen).
  erewrite bind_ok; [|apply Hrun].
  pose proof Ht as Ht'. apply snapl_Some in Ht' as (p & Hp & Hv).
  erewrite bind_ok; [|by apply getattr_ok].
  erewrite bind_ok; [|by apply deref_ok].
  destruct (assign_coords_full ds cvs dvs w1 "time" "time" dates (attrs tv) (length starts))
    as (ds' & cvs' & dvs' & Hac & Hsn & Hoth & Hc' & Hd' & Hsub & Hzip); auto.
  eexists ds', _, dates, cvs', dvs'.
  split; [exact Hac|]. split; [apply Hsn|]. split; [done|]. split; [exact Hoth|].
  split; [unfold untouched; simpl; eauto|]. split; [done|]. done.
Qed.

(** X1. Without any bounds variable the corrector cannot read the interval
    starts: it stops with an [AttributeError] on [time_bnds], having touched
    nothing of its input. *)
Theorem fix_cam_time_without_bounds ds w cvs dvs timetype :
  holds w (coords ds) cvs -> holds w (data_vars ds) dvs ->
  "time_bounds" ∉ names (data_vars ds) -> "time_bnds" ∉ names (variables ds) ->
  timetype = "DatetimeNoLeap" \/ timetype = "datetime64" ->
  exists w',
    fix_cam_time ds timetype w = (Raise (AttributeError "time_bnds"), w') /\
    untouched w w' /\ disk w' = disk w.
Proof.
  intros Hc Hd Hnb Hnt Hmode. unfold fix_cam_time.
  destruct (copy_ok true ds cvs dvs w Hc Hd) as (ds_ & Hcp & Nc & Nd & Hc' & Hd').
  simpl in Hcp. erewrite bind_ok; [|apply Hcp].
  set (w1 := mkWorld (heap w ++ cvs ++ dvs) (disk w)) in *.
  unfold mem. rewrite Nd, bool_decide_eq_false_2 by done.
  erewrite bind_ok; [|reflexivity].
  assert (Hno : assoc "time_bnds" (variables ds_) = None).
  { destruct (assoc "time_bnds" (variables ds_)) as [q|] eqn:E; [|done].
    exfalso. apply Hnt. assert (Hin : "time_bnds" ∈ names (variables ds_)).
    { apply assoc_is_Some. by eexists. }
    revert Hin. unfold variables. by rewrite !names_app, Nc, Nd. }
  assert (Hs : time_bnds_start ds_ w1 = (Raise (AttributeError "time_bnds"), w1)).
  { unfold time_bnds_start, getattr. by rewrite Hno. }
  exists w1. split; [|split; [by eexists|done]].
  destruct Hmode as [-> | ->].
  - rewrite bool_decide_eq_true_2 by done.
    erewrite bind_raise; [done|]. by erewrite bind_raise; [|exact Hs].
  - rewrite bool_decide_eq_false_2 by done. rewrite bool_decide_eq_true_2 by done.
    erewrite bind_raise; [done|]. by erewrite bind_raise; [|exact Hs].
Qed.

Lemma fix_cam_time_without_bounds_witness :
  exists w',
    fix_cam_time Ex.unbounded_dataset "datetime64" Ex.unbounded_world =
      (Raise (AttributeError "time_bnds"), w') /\
    untouched Ex.unbounded_world w' /\ disk w' = disk Ex.unbounded_world.
Proof.
  apply (fix_cam_time_without_bounds Ex.unbounded_dataset Ex.unbounded_world
           [Ex.time] [Ex.field 5] "datetime64").
  - repeat constructor.
  - repeat constructor.
  - apply (bool_decide_unpack _). vm_compute. exact I.
  - apply (bool_decide_unpack _). vm_compute. exact I.
  - by right.
Defined.

Lemma assoc_rename_key {B} old new (l : list (string * B)) :
  new ∉ names l -> assoc new (rename_key old new l) = assoc old l.
Proof.
  induction l as [|[k b] l IH]; [done|]. cbn [names List.map fst].
  intros [Hk Hl]%not_elem_of_cons. unfold rename_key. cbn [List.map fst snd assoc].
  fold (rename_key old new l). destruct (decide (k = old)) as [->|E].
  - rewrite (bool_decide_eq_true_2 (old = old)) by done.
    by rewrite (bool_decide_eq_true_2 (new = new)) by done.
  - rewrite (bool_decide_eq_false_2 (k = old)) by done.
    rewrite (bool_decide_eq_false_2 (k = new)) by congruence. by apply IH.
Qed.

Lemma names_rename_key {B} old new (l : list (string * B)) :
  names (rename_key old new l) =
  List.map (fun n => if bool_decide (n = old) then new else n) (names l).
Proof. unfold names, rename_key. rewrite !map_map. done. Qed.

Lemma elem_of_renamed old new x (l : list string) :
  x ∈ List.map (fun n => if bool_decide (n = old) then new else n) l -> x = new \/ x ∈ l.
Proof.
  intros H. apply list_elem_of_fmap in H as (n & -> & Hn).
  case_bool_decide; [by left|by right].
Qed.

Lemma zip_rename_key {B} old new (ns : list string) (vs : list B) :
  zip (List.map (fun n => if bool_decide (n = old) then new else n) ns) vs =
  rename_key old new (zip ns vs).
Proof.
  revert vs. induction ns as [|n ns IH]; intros [|v vs]; [done..|].
  cbn. f_equal. apply IH.
Qed.

(** The renaming of the CLM bounds: after [rename_vars] and [rename_dims]
    the name [time_bnds] denotes the former [time_bounds], over [nbnd]; the
    dataset given is not touched. *)
Lemma clm_renamed ds_ w1 cvs dvs tbv :
  holds w1 (coords ds_) cvs -> holds w1 (data_vars ds_) dvs ->
  "time_bounds" ∈ names (data_vars ds_) -> "time_bnds" ∉ names (variables ds_) ->
  snap w1 ds_ "time_bounds" = Some tbv ->
  "hist_interval" ∈ concat (List.map dims (cvs ++ dvs)) ->
  "nbnd" ∉ concat (List.map dims (cvs ++ dvs)) -> "nbnd" ∉ names (variables ds_) ->
  exists ds4 w4,
    (let* d := rename_vars ds_ "time_bounds" "time_bnds" in
     rename_dims d "hist_interval" "nbnd") w1 = (Ok ds4, w4) /\
    snap w4 ds4 "time_bnds" = Some (rename_dim_obj "hist_interval" "nbnd" tbv) /\
    untouched w1 w4 /\ disk w4 = disk w1.
Proof.
  intros Hc1 Hd1 Hin Hnew Htb Hhi Hnd Hnn.
  pose proof (holds_length _ _ _ Hc1) as Lc. pose proof (holds_length _ _ _ Hd1) as Ld.
  assert (Hv1 : holds w1 (variables ds_) (cvs ++ dvs)) by (by apply holds_app).
  match goal with
  | |- exists ds4 w4, ?c w1 = _ /\ _ => destruct (c w1) as [r0 w0] eqn:Erun; revert Erun
  end.
  unfold rename_vars.
  replace (mem "time_bounds" (names (variables ds_))) with true.
  2:{ symmetry. unfold mem. apply bool_decide_eq_true.
      unfold variables. rewrite names_app. apply elem_of_app. by right. }
  replace (mem "time_bnds" (names (variables ds_))) with false.
  2:{ symmetry. unfold mem. by apply bool_decide_eq_false. }
  cbn [negb andb].
  erewrite bind_ok; [|erewrite bind_ok; [|by apply copy_spec]; reflexivity].
  set (ds3 := mkDs _ _). set (w2 := mkWorld (heap w1 ++ cvs ++ dvs) (disk w1)).
  assert (Hc3 : holds w2 (coords ds3) cvs /\ holds w2 (data_vars ds3) dvs).
  { destruct (copy_ok false ds_ cvs dvs w1 Hc1 Hd1) as (ds0 & Hcp & _ & _ & Hc' & Hd').
    simpl in Hcp. erewrite copy_spec in Hcp by eauto. injection Hcp as <-.
    subst ds3. simpl. split; by apply holds_rename_key. }
  destruct Hc3 as [Hc3 Hd3].
  assert (Hv3 : holds w2 (variables ds3) (cvs ++ dvs)) by (by apply holds_app).
  assert (N3 : names (variables ds3) =
               List.map (fun n => if bool_decide (n = "time_bounds") then "time_bnds" else n)
                        (names (variables ds_))).
  { subst ds3. unfold variables. cbn [coords data_vars].
    rewrite !names_app, !names_rename_key, !names_zip_seq, map_app. done. }
  unfold rename_dims. rewrite ?bind_assoc. erewrite bind_ok; [|by apply ds_dims_ok].
  replace (mem "hist_interval" (concat (List.map dims (cvs ++ dvs)))) with true.
  2:{ symmetry. unfold mem. by apply bool_decide_eq_true. }
  replace (mem "nbnd" (concat (List.map dims (cvs ++ dvs)))) with false.
  2:{ symmetry. unfold mem. by apply bool_decide_eq_false. }
  replace (mem "nbnd" (names (variables ds3))) with false.
  2:{ symmetry. unfold mem. apply bool_decide_eq_false. rewrite N3.
      intros [?|?]%elem_of_renamed; [discriminate|done]. }
  cbn [negb orb]. rewrite ?bind_assoc.
  erewrite bind_ok; [|by apply copy_spec].
  set (ds4 := mkDs _ _). set (w3 := mkWorld _ _).
  assert (L3 : length (names (variables ds3)) = length (cvs ++ dvs)).
  { unfold names. rewrite length_map. by apply holds_length in Hv3. }
  assert (V4 : variables ds4 =
               zip (names (variables ds3))
                   (seq (length (heap w2)) (length (names (variables ds3))))).
  { unfold variables. subst ds4. cbn [coords data_vars].
    replace (length (coords ds3)) with (length (names (coords ds3)))
      by (unfold names; by rewrite length_map).
    replace (length (data_vars ds3)) with (length (names (data_vars ds3)))
      by (unfold names; by rewrite length_map).
    rewrite zip_seq_app. by rewrite names_app. }
  set (f := rename_dim_obj "hist_interval" "nbnd").
  assert (Hloop : forM_ (fun p : string * loc => rename_dim_in "hist_interval" "nbnd" p.2)
                    (variables ds4) w3 =
                  (Ok tt, mkWorld (heap w2 ++ List.map f (cvs ++ dvs) ++ []) (disk w1))).
  { rewrite V4. subst w3. cbn [heap disk].
    replace (heap w2 ++ cvs ++ dvs) with (heap w2 ++ (cvs ++ dvs) ++ [])
      by (by rewrite app_nil_r).
    eapply (forM_update (fun p => rename_dim_in "hist_interval" "nbnd" p.2)
             (fun _ v => Ok (f v))).
    - intros n p v v' wx _ Hp Hg. injection Hg as <-. unfold rename_dim_in. simpl.
      erewrite bind_ok; [|by apply deref_ok]. reflexivity.
    - reflexivity.
    - exact L3.
    - rewrite (mapR_total (fun nv : string * var_obj => f nv.2)). f_equal.
      rewrite <- (map_map snd f). f_equal.
      change (List.map snd) with (fmap (M := list) (@snd string var_obj)).
      apply snd_zip. lia. }
  erewrite bind_ok; [|exact Hloop]. rewrite app_nil_r.
  set (w4 := mkWorld _ _). unfold ret. intros [= <- <-].
  exists ds4, w4. split; [reflexivity|]. split; [|split; [|done]].
  - assert (H4 : holds w4 (variables ds4) (List.map f (cvs ++ dvs))).
    { rewrite V4. subst w4.
      replace (heap w2 ++ List.map f (cvs ++ dvs))
        with (heap w2 ++ List.map f (cvs ++ dvs) ++ []) by (by rewrite app_nil_r).
      apply holds_zip_seq. by rewrite length_map. }
    unfold snap. fold (snapl w4 (variables ds4) "time_bnds").
    rewrite (snapl_view _ _ _ _ H4), assoc_zip_map.
    replace (names (variables ds4)) with (names (variables ds3)).
    2:{ rewrite V4. symmetry. unfold names at 1.
        change (List.map fst) with (fmap (M := list) (@fst string loc)).
        apply fst_zip. by rewrite length_seq. }
    rewrite N3, zip_rename_key, assoc_rename_key.
    + unfold snap in Htb. fold (snapl w1 (variables ds_) "time_bounds") in Htb.
      rewrite (snapl_view _ _ _ _ Hv1) in Htb. by rewrite Htb.
    + unfold names at 1.
      change (List.map fst) with (fmap (M := list) (@fst string var_obj)).
      rewrite fst_zip; [done|].
      unfold names. rewrite length_map. apply holds_length in Hv1. lia.
  - subst w4 w2. cbn [heap]. eexists. rewrite <- !app_assoc. reflexivity.
Qed.

(** X2. The CLM layout. The bounds are called [time_bounds] and lie over
    [hist_interval]; the corrector reads the interval starts on a renamed
    copy and puts the new time coordinate on the dataset it was given: the
    result has the representative times, and every other variable,
    [time_bounds] included, under the name and over the dimensions it had
    (no [time_bnds] appears). The input is not touched. *)
Theorem fix_cam_time_clm_layout ds w cvs dvs tbv tv starts timetype :
  holds w (coords ds) cvs -> holds w (data_vars ds) dvs ->
  "time_bounds" ∈ names (data_vars ds) -> "time_bnds" ∉ names (variables ds) ->
  snap w ds "time_bounds" = Some tbv -> dims tbv = ["time"; "hist_interval"] ->
  "nbnd" ∉ concat (List.map dims (cvs ++ dvs)) -> "nbnd" ∉ names (variables ds) ->
  snap w ds "time" = Some tv ->
  size_conflict "time" "time" (length starts)
    (zip (names (variables ds)) (cvs ++ dvs)) = false ->
  (timetype = "DatetimeNoLeap" /\ bounds_starts (data tbv) starts /\
   Forall start_ok starts) \/
  (timetype = "datetime64" /\
   exists b, data tbv = M8 (bounds_nd b) /\ starts = List.map (fun p => Dt64 p.1) b) ->
  exists ds' w' dates,
    fix_cam_time ds timetype w = (Ok ds', w') /\
    snap w' ds' "time" = Some (mkVar ["time"] dates (attrs tv)) /\
    instants dates = Some (List.map (representative timetype) starts) /\
    (forall m, m <> "time" -> snap w' ds' m = snap w ds m) /\
    snap w' ds' "time_bounds" = Some tbv /\ snap w' ds' "time_bnds" = None /\
    untouched w w' /\ disk w' = disk w.
Proof.
  intros Hc Hd Hin Hnew Htb Hdims Hnd Hnn Ht Hsz Hmode. unfold fix_cam_time.
  assert (Hv : holds w (variables ds) (cvs ++ dvs)) by (by apply holds_app).
  destruct (copy_ok true ds cvs dvs w Hc Hd) as (ds_ & Hcp & Nc & Nd & Hc' & Hd').
  simpl in Hcp. erewrite bind_ok; [|apply Hcp].
  set (w1 := mkWorld (heap w ++ cvs ++ dvs) (disk w)) in *.
  assert (Nv : names (variables ds_) = names (variables ds)).
  { unfold variables. by rewrite !names_app, Nc, Nd. }
  assert (Hu1 : untouched w w1) by (by eexists).
  unfold mem. rewrite Nd, bool_decide_eq_true_2 by done.
  destruct (clm_renamed ds_ w1 cvs dvs tbv Hc' Hd') as (ds4 & w4 & Hren & Htb4 & Hu4 & Hd4).
  { by rewrite Nd. }
  { by rewrite Nv. }
  { rewrite <- Htb. apply (snap_same_view _ _ _ _ (cvs ++ dvs)); [done| |done].
    by apply holds_app. }
  { apply elem_of_concat. exists (dims tbv). apply and_comm. split; [rewrite Hdims; right; by left|].
    apply list_elem_of_fmap. exists tbv. split; [done|]. by eapply snap_elem. }
  { done. }
  { by rewrite Nv. }
  erewrite bind_ok; [|exact Hren].
  assert (Hu : untouched w w4) by (by eapply untouched_trans).
  destruct (fix_cam_time_from ds ds4 w4 cvs dvs
              (rename_dim_obj "hist_interval" "nbnd" tbv) tv starts timetype)
    as (ds' & w' & dates & cvs' & dvs' & Hrun & Hsn & Hinst & Hoth & Hu' & Hdk & _).
  { by eapply holds_untouched. }
  { by eapply holds_untouched. }
  { done. }
  { unfold rename_dim_obj. cbn [dims]. by rewrite Hdims. }
  { rewrite (snap_untouched w w4); [done|by eexists|done]. }
  { done. }
  { done. }
  assert (Hfr : forall m, m <> "time" -> snap w' ds' m = snap w ds m).
  { intros m Hm. rewrite (Hoth m Hm). apply snap_untouched; [by eexists|done]. }
  exists ds', w', dates. split; [exact Hrun|]. split; [done|]. split; [done|].
  split; [exact Hfr|]. split; [by rewrite Hfr|]. split.
  { rewrite Hfr by done. unfold snap.
    destruct (assoc "time_bnds" (variables ds)) as [q|] eqn:E; [|done].
    exfalso. apply Hnew. apply assoc_is_Some. by eexists. }
  split; [by eapply untouched_trans|]. by rewrite Hdk, Hd4.
Qed.

Lemma fix_cam_time_clm_layout_witness :
  exists ds' w' dates,
    fix_cam_time Ex.clm_dataset "DatetimeNoLeap" Ex.clm_world = (Ok ds', w') /\
    snap w' ds' "time" = Some (mkVar ["time"] dates (attrs Ex.time)) /\
    instants dates =
      Some (List.map (representative "DatetimeNoLeap")
              [Dt64 (datetime64_of 2008 1 1); Dt64 (datetime64_of 2008 2 10)]) /\
    (forall m, m <> "time" -> snap w' ds' m = snap Ex.clm_world Ex.clm_dataset m) /\
    snap w' ds' "time_bounds" = Some Ex.time_bounds /\ snap w' ds' "time_bnds" = None /\
    untouched Ex.clm_world w' /\ disk w' = disk Ex.clm_world.
Proof.
  apply (fix_cam_time_clm_layout Ex.clm_dataset Ex.clm_world
           [Ex.time] [Ex.time_bounds; Ex.field 1] Ex.time_bounds Ex.time
           [Dt64 (datetime64_of 2008 1 1); Dt64 (datetime64_of 2008 2 10)] "DatetimeNoLeap").
  - repeat constructor.
  - repeat constructor.
  - apply (bool_decide_unpack _). vm_compute. exact I.
  - apply (bool_decide_unpack _). vm_compute. exact I.
  - reflexivity.
  - reflexivity.
  - apply (bool_decide_unpack _). vm_compute. exact I.
  - apply (bool_decide_unpack _). vm_compute. exact I.
  - reflexivity.
  - vm_compute. reflexivity.
  - left. split; [reflexivity|]. split.
    + left. eexists. split; reflexivity.
    + repeat constructor; by vm_compute.
Defined.

(** X3. In the mode 'DatetimeNoLeap' the representative time of an interval is
    midnight of day 15 of the month in which the interval starts, whatever
    the day and the time of day of the start (also when the interval starts
    after the 15th), from bounds of either representation. *)
Theorem fix_cam_time_noleap_snaps_to_15th ds w cvs dvs tbv tv starts :
  holds w (coords ds) cvs -> holds w (data_vars ds) dvs ->
  "time_bounds" ∉ names (data_vars ds) ->
  snap w ds "time_bnds" = Some tbv -> dims tbv = ["time"; "nbnd"] ->
  snap w ds "time" = Some tv ->
  size_conflict "time" "time" (length starts)
    (zip (names (variables ds)) (cvs ++ dvs)) = false ->
  bounds_starts (data tbv) starts -> Forall start_ok starts ->
  exists ds' w' tv' ts,
    fix_cam_time ds "DatetimeNoLeap" w = (Ok ds', w') /\
    snap w' ds' "time" = Some tv' /\ dims tv' = ["time"] /\
    instants (data tv') = Some ts /\ length ts = length starts /\
    forall (i : nat) s, starts !! i = Some s ->
      ts !! i = Some (Cf (mkCf (dt_year s) (dt_month s) 15 0 0 0)).
Proof.
  intros Hc Hd Hnb Htb Hdims Ht Hsz Hb Hok.
  destruct (fix_cam_time_ok ds w cvs dvs tbv tv starts "DatetimeNoLeap")
    as (ds' & w' & dates & Hrun & Hsn & Hi & _); auto.
  exists ds', w', (mkVar ["time"] dates (attrs tv)),
         (List.map (representative "DatetimeNoLeap") starts).
  split; [done|]. split; [done|]. split; [done|]. split; [done|].
  split; [by rewrite length_map|].
  intros i s Hs. change (List.map ?f ?l) with (f <$> l). rewrite list_lookup_fmap, Hs.
  reflexivity.
Qed.

Lemma fix_cam_time_noleap_snaps_to_15th_witness :
  exists ds' w' tv' ts,
    fix_cam_time (Ex.dataset_of Ex.fluxes) "DatetimeNoLeap" (Ex.world_of Ex.fluxes)
      = (Ok ds', w') /\
    snap w' ds' "time" = Some tv' /\ dims tv' = ["time"] /\
    instants (data tv') = Some ts /\
    length ts = length [Dt64 (datetime64_of 2008 1 1); Dt64 (datetime64_of 2008 2 1)] /\
    forall (i : nat) s,
      [Dt64 (datetime64_of 2008 1 1); Dt64 (datetime64_of 2008 2 1)] !! i = Some s ->
      ts !! i = Some (Cf (mkCf (dt_year s) (dt_month s) 15 0 0 0)).
Proof.
  apply (fix_cam_time_noleap_snaps_to_15th (Ex.dataset_of Ex.fluxes) (Ex.world_of Ex.fluxes)
           [Ex.time] (Ex.time_bnds :: List.map snd Ex.fluxes) Ex.time_bnds Ex.time).
  - repeat constructor.
  - repeat constructor.
  - apply (bool_decide_unpack _). vm_compute. exact I.
  - reflexivity.
  - reflexivity.
  - reflexivity.
  - vm_compute. reflexivity.
  - left. eexists. split; reflexivity.
  - repeat constructor; by vm_compute.
Defined.

(** X4. In the mode 'datetime64' the representative time of an interval is
    its start plus fourteen days, on 64 bits: the time of day of the start
    is kept, a start that is not a time stays so, and an interval that
    starts at midnight of day [D] of a month (with [D + 14] no later than
    the 28th) gets day [D + 14] of that month. *)
Theorem fix_cam_time_datetime64_adds_14_days ds w cvs dvs tbv tv b :
  holds w (coords ds) cvs -> holds w (data_vars ds) dvs ->
  "time_bounds" ∉ names (data_vars ds) ->
  snap w ds "time_bnds" = Some tbv -> dims tbv = ["time"; "nbnd"] ->
  snap w ds "time" = Some tv ->
  size_conflict "time" "time" (length b)
    (zip (names (variables ds)) (cvs ++ dvs)) = false ->
  data tbv = M8 (bounds_nd b) ->
  exists ds' w' tv' ts,
    fix_cam_time ds "datetime64" w = (Ok ds', w') /\
    snap w' ds' "time" = Some tv' /\ dims tv' = ["time"] /\
    instants (data tv') = Some ts /\ length ts = length b /\
    forall (i : nat) s e, b !! i = Some (s, e) ->
      exists t, ts !! i = Some (Dt64 t) /\
        (s = NaT -> t = NaT) /\
        (s <> NaT -> int64 (s + 14 * ns_per_day) -> t = s + 14 * ns_per_day) /\
        (forall Y M D, s = datetime64_of Y M D -> 1 <= M <= 12 -> 1 <= D <= 14 ->
           int64 (datetime64_of Y M (D + 14)) -> on_day (Dt64 t) Y M (D + 14)).
Proof.
  intros Hc Hd Hnb Htb Hdims Ht Hsz Hb.
  destruct (fix_cam_time_ok ds w cvs dvs tbv tv (List.map (fun p => Dt64 p.1) b) "datetime64")
    as (ds' & w' & dates & Hrun & Hsn & Hi & _); auto.
  { by rewrite length_map. }
  { right. split; [done|]. by exists b. }
  exists ds', w', (mkVar ["time"] dates (attrs tv)),
         (List.map (representative "datetime64") (List.map (fun p => Dt64 p.1) b)).
  split; [done|]. split; [done|]. split; [done|]. split; [done|].
  split; [by rewrite !length_map|].
  intros i s e Hs. exists (add_days 14 s). split.
  { change (List.map ?f ?l) with (f <$> l). by rewrite !list_lookup_fmap, Hs. }
  assert (Hadd : s <> NaT -> int64 (s + 14 * ns_per_day) ->
                 add_days 14 s = s + 14 * ns_per_day).
  { intros Hn Hr. unfold add_days, timedelta64_D.
    destruct (Z.eqb_spec s NaT); [done|]. unfold int64 in Hr.
    unfold wrap64. rewrite Z.mod_small by lia. lia. }
  split; [|split; [exact Hadd|]].
  - intros ->. unfold add_days. by rewrite Z.eqb_refl.
  - intros Y M D -> HM HD Hr.
    assert (E : datetime64_of Y M D + 14 * ns_per_day = datetime64_of Y M (D + 14)).
    { unfold datetime64_of. rewrite days_from_civil_add. lia. }
    rewrite Hadd; [|apply datetime64_not_NaT|by rewrite E].
    rewrite E. unfold on_day. cbn [dt_fields]. apply datetime64_fields; lia.
Qed.

Lemma fix_cam_time_datetime64_adds_14_days_witness :
  exists ds' w' tv' ts,
    fix_cam_time (Ex.dataset_of Ex.fluxes) "datetime64" (Ex.world_of Ex.fluxes)
      = (Ok ds', w') /\
    snap w' ds' "time" = Some tv' /\ dims tv' = ["time"] /\
    instants (data tv') = Some ts /\
    length ts = length [(datetime64_of 2008 1 1, datetime64_of 2008 2 1);
                        (datetime64_of 2008 2 1, datetime64_of 2008 3 1)] /\
    forall (i : nat) s e,
      [(datetime64_of 2008 1 1, datetime64_of 2008 2 1);
       (datetime64_of 2008 2 1, datetime64_of 2008 3 1)] !! i = Some (s, e) ->
      exists t, ts !! i = Some (Dt64 t) /\
        (s = NaT -> t = NaT) /\
        (s <> NaT -> int64 (s + 14 * ns_per_day) -> t = s + 14 * ns_per_day) /\
        (forall Y M D, s = datetime64_of Y M D -> 1 <= M <= 12 -> 1 <= D <= 14 ->
           int64 (datetime64_of Y M (D + 14)) -> on_day (Dt64 t) Y M (D + 14)).
Proof.
  apply (fix_cam_time_datetime64_adds_14_days (Ex.dataset_of Ex.fluxes) (Ex.world_of Ex.fluxes)
           [Ex.time] (Ex.time_bnds :: List.map snd Ex.fluxes) Ex.time_bnds Ex.time).
  - repeat constructor.
  - repeat constructor.
  - apply (bool_decide_unpack _). vm_compute. exact I.
  - reflexivity.
  - reflexivity.
  - reflexivity.
  - vm_compute. reflexivity.
  - reflexivity.
Defined.

(** X5. The corrector changes the time coordinate and nothing else: in the
    dataset it returns, every other name denotes a variable with the
    dimensions, the values and the attributes it had, and the objects of the
    input are untouched. *)
Theorem fix_cam_time_changes_time_only ds w cvs dvs tbv tv starts timetype :
  holds w (coords ds) cvs -> holds w (data_vars ds) dvs ->
  "time_bounds" ∉ names (data_vars ds) ->
  snap w ds "time_bnds" = Some tbv -> dims tbv = ["time"; "nbnd"] ->
  snap w ds "time" = Some tv ->
  size_conflict "time" "time" (length starts)
    (zip (names (variables ds)) (cvs ++ dvs)) = false ->
  (timetype = "DatetimeNoLeap" /\ bounds_starts (data tbv) starts /\
   Forall start_ok starts) \/
  (timetype = "datetime64" /\
   exists b, data tbv = M8 (bounds_nd b) /\ starts = List.map (fun p => Dt64 p.1) b) ->
  exists ds' w',
    fix_cam_time ds timetype w = (Ok ds', w') /\
    (forall m, m <> "time" -> snap w' ds' m = snap w ds m) /\
    (forall m, snap w' ds m = snap w ds m) /\
    untouched w w' /\ disk w' = disk w.
Proof.
  intros Hc Hd Hnb Htb Hdims Ht Hsz Hmode.
  destruct (fix_cam_time_ok ds w cvs dvs tbv tv starts timetype)
    as (ds' & w' & dates & Hrun & _ & _ & Hoth & Hu & Hdk); auto.
  exists ds', w'. split; [done|]. split; [done|]. split; [|done].
  intros m. apply snap_untouched; [|done]. exists (cvs ++ dvs). by apply holds_app.
Qed.

Lemma fix_cam_time_changes_time_only_witness :
  exists ds' w',
    fix_cam_time (Ex.dataset_of Ex.fluxes) "datetime64" (Ex.world_of Ex.fluxes) = (Ok ds', w') /\
    (forall m, m <> "time" ->
       snap w' ds' m = snap (Ex.world_of Ex.fluxes) (Ex.dataset_of Ex.fluxes) m) /\
    (forall m, snap w' (Ex.dataset_of Ex.fluxes) m =
               snap (Ex.world_of Ex.fluxes) (Ex.dataset_of Ex.fluxes) m) /\
    untouched (Ex.world_of Ex.fluxes) w' /\ disk w' = disk (Ex.world_of Ex.fluxes).
Proof.
  apply (fix_cam_time_changes_time_only (Ex.dataset_of Ex.fluxes) (Ex.world_of Ex.fluxes)
           [Ex.time] (Ex.time_bnds :: List.map snd Ex.fluxes) Ex.time_bnds Ex.time
           [Dt64 (datetime64_of 2008 1 1); Dt64 (datetime64_of 2008 2 1)] "datetime64").
  - repeat constructor.
  - repeat constructor.
  - apply (bool_decide_unpack _). vm_compute. exact I.
  - reflexivity.
  - reflexivity.
  - reflexivity.
  - vm_compute. reflexivity.
  - right. split; [reflexivity|]. eexists. split; reflexivity.
Defined.

(** The corrector on the CAM layout, with the objects of its result. *)
Lemma fix_cam_time_full ds w cvs dvs tbv tv starts timetype :
  holds w (coords ds) cvs -> holds w (data_vars ds) dvs ->
  "time_bounds" ∉ names (data_vars ds) ->
  snap w ds "time_bnds" = Some tbv -> dims tbv = ["time"; "nbnd"] ->
  snap w ds "time" = Some tv ->
  size_conflict "time" "time" (length starts)
    (zip (names (variables ds)) (cvs ++ dvs)) = false ->
  (timetype = "DatetimeNoLeap" /\ bounds_starts (data tbv) starts /\
   Forall start_ok starts) \/
  (timetype = "datetime64" /\
   exists b, data tbv = M8 (bounds_nd b) /\ starts = List.map (fun p => Dt64 p.1) b) ->
  exists ds' w' dates cvs' dvs',
    fix_cam_time ds timetype w = (Ok ds', w') /\
    snap w' ds' "time" = Some (mkVar ["time"] dates (attrs tv)) /\
    instants dates = Some (List.map (representative timetype) starts) /\
    (forall m, m <> "time" -> snap w' ds' m = snap w ds m) /\
    untouched w w' /\ disk w' = disk w /\
    holds w' (coords ds') cvs' /\ holds w' (data_vars ds') dvs' /\
    (forall m, m ∈ names (data_vars ds') -> m ∈ names (data_vars ds)) /\
    (forall m v, (m, v) ∈ zip (names (variables ds')) (cvs' ++ dvs') -> m <> "time" ->
                 (m, v) ∈ zip (names (variables ds)) (cvs ++ dvs)).
Proof.
  intros Hc Hd Hnb Htb Hdims Ht Hsz Hmode. unfold fix_cam_time.
  assert (Hv : valid w ds) by (exists (cvs ++ dvs); by apply holds_app).
  destruct (copy_ok true ds cvs dvs w Hc Hd) as (ds_ & Hcp & Nc & Nd & Hc' & Hd').
  simpl in Hcp. erewrite bind_ok; [|apply Hcp].
  set (w1 := mkWorld (heap w ++ cvs ++ dvs) (disk w)) in *.
  assert (Hu1 : untouched w w1) by (by eexists).
  unfold mem. rewrite Nd, bool_decide_eq_false_2 by done.
  erewrite bind_ok; [|reflexivity].
  destruct (fix_cam_time_from ds ds_ w1 cvs dvs tbv tv starts timetype)
    as (ds' & w' & dates & cvs' & dvs' & Hrun & Hsn & Hinst & Hoth & Hu' & Hdk & Hrest).
  { by eapply holds_untouched. }
  { by eapply holds_untouched. }
  { rewrite <- Htb. apply (snap_same_view _ _ _ _ (cvs ++ dvs)).
    - by apply holds_app.
    - by apply holds_app.
    - unfold variables. by rewrite !names_app, Nc, Nd. }
  { done. }
  { by rewrite (snap_untouched w w1). }
  { done. }
  { done. }
  exists ds', w', dates, cvs', dvs'. split; [exact Hrun|]. split; [done|]. split; [done|].
  split; [intros m Hm; rewrite (Hoth m Hm); by apply snap_untouched|].
  split; [by eapply untouched_trans|]. split; [by rewrite Hdk|]. exact Hrest.
Qed.

(** X6. The corrector is idempotent: it reads the bounds, which it leaves as
    they are, so that run on its own result it finds the same times again
    (the times are not shifted twice), with the same attributes, and every
    other variable is still what it was in the first input. *)
Theorem fix_cam_time_twice ds w cvs dvs tbv tv starts timetype :
  holds w (coords ds) cvs -> holds w (data_vars ds) dvs ->
  "time_bounds" ∉ names (data_vars ds) ->
  snap w ds "time_bnds" = Some tbv -> dims tbv = ["time"; "nbnd"] ->
  snap w ds "time" = Some tv ->
  size_conflict "time" "time" (length starts)
    (zip (names (variables ds)) (cvs ++ dvs)) = false ->
  (timetype = "DatetimeNoLeap" /\ bounds_starts (data tbv) starts /\
   Forall start_ok starts) \/
  (timetype = "datetime64" /\
   exists b, data tbv = M8 (bounds_nd b) /\ starts = List.map (fun p => Dt64 p.1) b) ->
  exists d1 w1 d2 w2 tv1 tv2,
    fix_cam_time ds timetype w = (Ok d1, w1) /\
    fix_cam_time d1 timetype w1 = (Ok d2, w2) /\
    snap w1 d1 "time" = Some tv1 /\ snap w2 d2 "time" = Some tv2 /\
    dims tv2 = dims tv1 /\ attrs tv2 = attrs tv1 /\
    instants (data tv1) = Some (List.map (representative timetype) starts) /\
    instants (data tv2) = instants (data tv1) /\
    (forall m, m <> "time" -> snap w2 d2 m = snap w ds m).
Proof.
  intros Hc Hd Hnb Htb Hdims Ht Hsz Hmode.
  destruct (fix_cam_time_full ds w cvs dvs tbv tv starts timetype)
    as (d1 & w1 & dates & cvs1 & dvs1 & R1 & S1 & I1 & F1 & _ & _ & Hc1 & Hd1 & Hsub & Hzip);
    auto.
  assert (Hnb1 : "time_bounds" ∉ names (data_vars d1)).
  { intros H. by apply Hnb, Hsub. }
  assert (Htb1 : snap w1 d1 "time_bnds" = Some tbv) by (by rewrite F1).
  assert (Hsz1 : size_conflict "time" "time" (length starts)
                   (zip (names (variables d1)) (cvs1 ++ dvs1)) = false).
  { apply size_conflict_false. intros m v Hin Hm.
    pose proof (proj1 (size_conflict_false _ _ _ _) Hsz) as Hold.
    apply (Hold m v); [|done]. by apply Hzip. }
  destruct (fix_cam_time_ok d1 w1 cvs1 dvs1 tbv (mkVar ["time"] dates (attrs tv))
              starts timetype Hc1 Hd1 Hnb1 Htb1 Hdims S1 Hsz1 Hmode)
    as (d2 & w2 & dates2 & R2 & S2 & I2 & F2 & _ & _).
  exists d1, w1, d2, w2, (mkVar ["time"] dates (attrs tv)),
         (mkVar ["time"] dates2 (attrs tv)).
  split; [done|]. split; [done|]. split; [done|]. split; [done|].
  split; [done|]. split; [done|]. split; [done|]. split; [cbn [data]; congruence|].
  intros m Hm. by rewrite F2, F1.
Qed.

Lemma fix_cam_time_twice_witness :
  exists d1 w1 d2 w2 tv1 tv2,
    fix_cam_time (Ex.dataset_of Ex.fluxes) "datetime64" (Ex.world_of Ex.fluxes) = (Ok d1, w1) /\
    fix_cam_time d1 "datetime64" w1 = (Ok d2, w2) /\
    snap w1 d1 "time" = Some tv1 /\ snap w2 d2 "time" = Some tv2 /\
    dims tv2 = dims tv1 /\ attrs tv2 = attrs tv1 /\
    instants (data tv1) =
      Some (List.map (representative "datetime64")
              [Dt64 (datetime64_of 2008 1 1); Dt64 (datetime64_of 2008 2 1)]) /\
    instants (data tv2) = instants (data tv1) /\
    (forall m, m <> "time" ->
       snap w2 d2 m = snap (Ex.world_of Ex.fluxes) (Ex.dataset_of Ex.fluxes) m).
Proof.
  apply (fix_cam_time_twice (Ex.dataset_of Ex.fluxes) (Ex.world_of Ex.fluxes)
           [Ex.time] (Ex.time_bnds :: List.map snd Ex.fluxes) Ex.time_bnds Ex.time
           [Dt64 (datetime64_of 2008 1 1); Dt64 (datetime64_of 2008 2 1)] "datetime64").
  - repeat constructor.
  - repeat constructor.
  - apply (bool_decide_unpack _). vm_compute. exact I.
  - reflexivity.
  - reflexivity.
  - reflexivity.
  - vm_compute. reflexivity.
  - right. split; [reflexivity|]. eexists. split; reflexivity.
Defined.

(** ** The dataset builder: spin-up values of any sign, and the selection *)

Lemma slice_to_end {A} (K : Z) (l : list A) :
  slice K (Z.of_nat (length l)) l = drop (Z.to_nat (clamp K (Z.of_nat (length l)))) l.
Proof.
  unfold slice. set (N := Z.of_nat (length l)).
  assert (HN : clamp N N = N).
  { unfold clamp. destruct (Z.ltb_spec N 0); lia. }
  assert (0 <= clamp K N <= N).
  { unfold clamp. destruct (Z.ltb_spec K 0); lia. }
  rewrite HN. apply take_ge. rewrite length_drop. lia.
Qed.

Lemma isel_obj_steps_any v st K :
  time_steps v = Some st ->
  time_steps (isel_obj "time" K (Z.of_nat (length st)) v) =
    Some (drop (Z.to_nat (clamp K (Z.of_nat (length st)))) st).
Proof.
  unfold time_steps, isel_obj. destruct (dims v) as [|d ds] eqn:Ed; [done|].
  case_bool_decide as E; [|done]. subst d. intros Hr.
  cbn [dim_index]. rewrite bool_decide_eq_true_2 by done. cbn [dims data].
  rewrite bool_decide_eq_true_2 by done.
  destruct (data v) as [[|xs]|[|xs]|[|xs]]; simpl in Hr; try done;
    injection Hr as <-; rewrite length_map in *; simpl;
    rewrite slice_to_end; by rewrite <- fmap_drop.
Qed.

Lemma first_missing_names ds ds' l :
  names (variables ds') = names (variables ds) -> first_missing ds' l = first_missing ds l.
Proof. intros E. induction l as [|n l IH]; [done|]. simpl. by rewrite E, IH. Qed.

(** The first half of [create_dataset], for any value of [spinup_months]:
    what is left to run is the selection, on the dataset whose variables
    are those of the merged dataset sliced along time. *)
Lemma create_dataset_sliced open_files raw_path casename comp hf full fts K pv
    w ds1 w1 cvs dvs tv N :
  merged_dataset open_files raw_path casename comp hf fts w = (Ok ds1, w1) ->
  holds w1 (coords ds1) cvs -> holds w1 (data_vars ds1) dvs ->
  snap w1 ds1 "time" = Some tv -> "time" ∈ dims tv -> arr_len (data tv) = Some N ->
  exists ds2 w2,
    create_dataset open_files raw_path casename comp hf full fts K pv w =
      (if full then ret ds2
       else let* variables := lift (select_variables casename comp pv) in
            getitem_list ds2 variables) w2 /\
    names (coords ds2) = names (coords ds1) /\
    names (data_vars ds2) = names (data_vars ds1) /\
    holds w2 (coords ds2) (List.map (isel_obj "time" K (Z.of_nat N)) cvs) /\
    holds w2 (data_vars ds2) (List.map (isel_obj "time" K (Z.of_nat N)) dvs) /\
    untouched w1 w2 /\ disk w2 = disk w1.
Proof.
  intros Hm Hc Hd Ht Hdt Hlen.
  assert (Hv : holds w1 (variables ds1) (cvs ++ dvs)) by (by apply holds_app).
  pose proof Ht as Ht'. apply snapl_Some in Ht' as (t & Hta & Htv).
  destruct (isel_spec ds1 "time" K (Z.of_nat N) cvs dvs w1 Hc Hd)
    as (ds2 & w2 & Hisel & Nc & Nd & Hc2 & Hd2 & Hu & Hdk).
  { apply elem_of_concat. exists (dims tv). apply and_comm. split; [done|].
    apply list_elem_of_fmap. exists tv. split; [done|]. by eapply snap_elem. }
  exists ds2, w2. split; [|done].
  unfold create_dataset. erewrite bind_ok; [|exact Hm].
  erewrite bind_ok; [|by apply getattr_ok].
  erewrite bind_ok; [|by eapply len_ok].
  by erewrite bind_ok; [|exact Hisel].
Qed.

(** What a name denotes after the slicing. *)
Lemma sliced_view w1 ds1 w2 ds2 cvs dvs (f : var_obj -> var_obj) n :
  holds w1 (coords ds1) cvs -> holds w1 (data_vars ds1) dvs ->
  names (coords ds2) = names (coords ds1) ->
  names (data_vars ds2) = names (data_vars ds1) ->
  holds w2 (coords ds2) (List.map f cvs) -> holds w2 (data_vars ds2) (List.map f dvs) ->
  snap w2 ds2 n = f <$> snap w1 ds1 n.
Proof.
  intros Hc Hd Nc Nd Hc2 Hd2.
  assert (Hv : holds w1 (variables ds1) (cvs ++ dvs)) by (by apply holds_app).
  assert (Hv2 : holds w2 (variables ds2) (List.map f (cvs ++ dvs))).
  { rewrite map_app. by apply holds_app. }
  assert (Nv : names (variables ds2) = names (variables ds1)).
  { unfold variables. by rewrite !names_app, Nc, Nd. }
  unfold snap. fold (snapl w2 (variables ds2) n). fold (snapl w1 (variables ds1) n).
  by rewrite (snapl_view _ _ _ _ Hv2), (snapl_view _ _ _ _ Hv), Nv, assoc_zip_map.
Qed.

(** The steps that [create_dataset] keeps, for any value of
    [spinup_months]: Python's slice puts a negative start at that many steps
    before the end, and a start past the end at the end. *)
Lemma create_dataset_steps open_files raw_path casename comp hf full fts K pv
    w ds1 w1 cvs dvs tv N :
  merged_dataset open_files raw_path casename comp hf fts w = (Ok ds1, w1) ->
  holds w1 (coords ds1) cvs -> holds w1 (data_vars ds1) dvs ->
  NoDup (names (variables ds1)) ->
  snap w1 ds1 "time" = Some tv -> "time" ∈ dims tv -> arr_len (data tv) = Some N ->
  (full = true ->
   exists ds' w',
     create_dataset open_files raw_path casename comp hf full fts K pv w = (Ok ds', w')) /\
  forall ds' w',
    create_dataset open_files raw_path casename comp hf full fts K pv w = (Ok ds', w') ->
    forall n v', snap w' ds' n = Some v' ->
      exists v, snap w1 ds1 n = Some v /\
        forall st, time_steps v = Some st -> length st = N ->
          time_steps v' = Some (drop (Z.to_nat (clamp K (Z.of_nat N))) st).
Proof.
  intros Hm Hc Hd Hnd Ht Hdt Hlen.
  destruct (create_dataset_sliced open_files raw_path casename comp hf full fts K pv
              w ds1 w1 cvs dvs tv N Hm Hc Hd Ht Hdt Hlen)
    as (ds2 & w2 & Hrun & Nc & Nd & Hc2 & Hd2 & Hu & Hdk).
  assert (Nv : names (variables ds2) = names (variables ds1)).
  { unfold variables. by rewrite !names_app, Nc, Nd. }
  assert (A : forall n v', snap w2 ds2 n = Some v' ->
            exists v, snap w1 ds1 n = Some v /\
              forall st, time_steps v = Some st -> length st = N ->
                time_steps v' = Some (drop (Z.to_nat (clamp K (Z.of_nat N))) st)).
  { intros n v'. rewrite (sliced_view w1 ds1 w2 ds2 cvs dvs _ n Hc Hd Nc Nd Hc2 Hd2).
    destruct (snap w1 ds1 n) as [v|]; [|done]. intros [= <-]. exists v. split; [done|].
    intros st Hst <-. by apply isel_obj_steps_any. }
  rewrite Hrun. split.
  - intros ->. by exists ds2, w2.
  - intros ds' w'. destruct full.
    + intros [= <- <-]. exact A.
    + unfold bind at 1, lift.
      destruct (select_variables casename comp pv) as [l|e]; [|done].
      intros Hg. apply getitem_list_inv in Hg as [-> Hsub].
      intros n v' Hs. apply A.
      apply snapl_Some in Hs as (q & Hq & Hv').
      apply assoc_Some_elem, Hsub in Hq.
      unfold snap. erewrite assoc_NoDup; [exact Hv'| |exact Hq]. by rewrite Nv.
Qed.

(** X7. A spin-up that is not shorter than the record leaves no time step at
    all: [create_dataset] still returns a dataset, in which every variable
    over time is empty. *)
Theorem create_dataset_spinup_past_the_end open_files raw_path casename comp hf full fts K pv
    w ds1 w1 cvs dvs tv N :
  merged_dataset open_files raw_path casename comp hf fts w = (Ok ds1, w1) ->
  holds w1 (coords ds1) cvs -> holds w1 (data_vars ds1) dvs ->
  NoDup (names (variables ds1)) ->
  snap w1 ds1 "time" = Some tv -> "time" ∈ dims tv -> arr_len (data tv) = Some N ->
  Z.of_nat N <= K ->
  (full = true ->
   exists ds' w',
     create_dataset open_files raw_path casename comp hf full fts K pv w = (Ok ds', w')) /\
  forall ds' w',
    create_dataset open_files raw_path casename comp hf full fts K pv w = (Ok ds', w') ->
    forall n v', snap w' ds' n = Some v' ->
      exists v, snap w1 ds1 n = Some v /\
        forall st, time_steps v = Some st -> length st = N -> time_steps v' = Some [].
Proof.
  intros Hm Hc Hd Hnd Ht Hdt Hlen HK.
  destruct (create_dataset_steps open_files raw_path casename comp hf full fts K pv
              w ds1 w1 cvs dvs tv N Hm Hc Hd Hnd Ht Hdt Hlen) as [H1 H2].
  split; [exact H1|]. intros ds' w' Hrun n v' Hs.
  destruct (H2 ds' w' Hrun n v' Hs) as (v & Hv & Hst). exists v. split; [done|].
  intros st Hs1 Hl. rewrite (Hst st Hs1 Hl). f_equal. apply drop_ge.
  unfold clamp. destruct (Z.ltb_spec K 0); lia.
Qed.

Lemma create_dataset_spinup_past_the_end_witness :
  let w := Ex.world_of Ex.fluxes in
  let ds1 := Ex.dataset_of Ex.fluxes in
  (true = true ->
   exists ds' w',
     create_dataset Ex.open_files "raw/" "CASE" "atm" "h0" true None 12 false w = (Ok ds', w')) /\
  forall ds' w',
    create_dataset Ex.open_files "raw/" "CASE" "atm" "h0" true None 12 false w = (Ok ds', w') ->
    forall n v', snap w' ds' n = Some v' ->
      exists v, snap w ds1 n = Some v /\
        forall st, time_steps v = Some st -> length st = 2%nat -> time_steps v' = Some [].
Proof.
  apply (create_dataset_spinup_past_the_end Ex.open_files "raw/" "CASE" "atm" "h0" true None
           12 false (Ex.world_of Ex.fluxes) (Ex.dataset_of Ex.fluxes) (Ex.world_of Ex.fluxes)
           [Ex.time] (Ex.time_bnds :: List.map snd Ex.fluxes) Ex.time 2).
  - reflexivity.
  - repeat constructor.
  - repeat constructor.
  - apply (bool_decide_unpack _). vm_compute. exact I.
  - reflexivity.
  - by left.
  - reflexivity.
  - lia.
Defined.



(** X9. With [full_dset = False], a selected variable that the merged dataset
    lacks stops [create_dataset] with a [KeyError] on the first such
    variable, in selection order. *)
Theorem create_dataset_missing_selected_variable open_files raw_path casename comp hf fts K pv
    w ds1 w1 cvs dvs tv N l k :
  merged_dataset open_files raw_path casename comp hf fts w = (Ok ds1, w1) ->
  holds w1 (coords ds1) cvs -> holds w1 (data_vars ds1) dvs ->
  snap w1 ds1 "time" = Some tv -> "time" ∈ dims tv -> arr_len (data tv) = Some N ->
  select_variables casename comp pv = Ok l ->
  first_missing ds1 l = Some k ->
  exists w',
    create_dataset open_files raw_path casename comp hf false fts K pv w =
      (Raise (KeyError k), w') /\
    k ∈ l /\ (k ∉ names (variables ds1)) /\ untouched w1 w' /\ disk w' = disk w1.
Proof.
  intros Hm Hc Hd Ht Hdt Hlen Hsel Hk.
  destruct (create_dataset_sliced open_files raw_path casename comp hf false fts K pv
              w ds1 w1 cvs dvs tv N Hm Hc Hd Ht Hdt Hlen)
    as (ds2 & w2 & Hrun & Nc & Nd & Hc2 & Hd2 & Hu & Hdk).
  assert (Nv : names (variables ds2) = names (variables ds1)).
  { unfold variables. by rewrite !names_app, Nc, Nd. }
  exists w2. rewrite Hrun. split.
  - erewrite bind_ok; [|unfold lift; by rewrite Hsel].
    unfold getitem_list. by rewrite (first_missing_names ds1 ds2 l Nv), Hk.
  - apply first_missing_Some in Hk as [? ?]. done.
Qed.

Lemma create_dataset_missing_selected_variable_witness :
  exists w',
    create_dataset Ex.open_files "raw/" "CASE" "atm" "h0" false None 1 false
      (Ex.world_of Ex.fluxes) = (Raise (KeyError "LANDFRAC"), w') /\
    "LANDFRAC" ∈ (atm_always_include ++
                  ["SFisoprene"; "SFmonoterp"; "N_AER"; "DOD550"; "SOA_A1"; "SOA_NA";
                   "cb_SOA_A1"; "cb_SOA_NA"; "cb_SOA_A1_OCW"; "cb_SOA_NA_OCW";
                   "ACTNL"; "ACTREL"; "CDNUMC"; "CLDHGH"; "CLDLOW"; "CLDMED"; "CLDTOT";
                   "CLDLIQ"; "CLOUD"; "CLOUDCOVER_CLUBB"; "FCTL"; "NUMLIQ"; "TGCLDLWP";
                   "FSDS"; "FSNS"; "FLNT"; "FSNT"; "FLNT_DRF"; "FLNTCDRF"; "FSNTCDRF";
                   "FSNT_DRF"; "LWCF"; "SWCF"; "LHFLX"; "SHFLX"]) /\
    ("LANDFRAC" ∉ names (variables (Ex.dataset_of Ex.fluxes))) /\
    untouched (Ex.world_of Ex.fluxes) w' /\ disk w' = disk (Ex.world_of Ex.fluxes).
Proof.
  apply (create_dataset_missing_selected_variable Ex.open_files "raw/" "CASE" "atm" "h0" None
           1 false (Ex.world_of Ex.fluxes) (Ex.dataset_of Ex.fluxes) (Ex.world_of Ex.fluxes)
           [Ex.time] (Ex.time_bnds :: List.map snd Ex.fluxes) Ex.time 2).
  - reflexivity.
  - repeat constructor.
  - repeat constructor.
  - reflexivity.
  - by left.
  - reflexivity.
  - reflexivity.
  - vm_compute. reflexivity.
Defined.

(** X10. With [full_dset = False] and every selected variable at hand, the
    dataset returned by [create_dataset] has, as data variables, exactly the
    selected names that are data variables of the merged dataset, in
    selection order, and every selected name is a variable of it. *)
Theorem create_dataset_selects open_files raw_path casename comp hf fts K pv
    w ds1 w1 cvs dvs tv N l :
  merged_dataset open_files raw_path casename comp hf fts w = (Ok ds1, w1) ->
  holds w1 (coords ds1) cvs -> holds w1 (data_vars ds1) dvs ->
  snap w1 ds1 "time" = Some tv -> "time" ∈ dims tv -> arr_len (data tv) = Some N ->
  select_variables casename comp pv = Ok l ->
  (forall n, n ∈ l -> n ∈ names (variables ds1)) ->
  exists ds' w',
    create_dataset open_files raw_path casename comp hf false fts K pv w = (Ok ds', w') /\
    names (data_vars ds') =
      List.filter (fun n => mem n (names (data_vars ds1))) (dedup l) /\
    (forall n, n ∈ l -> n ∈ names (variables ds')) /\
    (forall n, n ∈ names (data_vars ds') -> n ∈ l) /\
    untouched w1 w' /\ disk w' = disk w1.
Proof.
  intros Hm Hc Hd Ht Hdt Hlen Hsel Hl.
  destruct (create_dataset_sliced open_files raw_path casename comp hf false fts K pv
              w ds1 w1 cvs dvs tv N Hm Hc Hd Ht Hdt Hlen)
    as (ds2 & w2 & Hrun & Nc & Nd & Hc2 & Hd2 & Hu & Hdk).
  assert (Nv : names (variables ds2) = names (variables ds1)).
  { unfold variables. by rewrite !names_app, Nc, Nd. }
  assert (Hv2 : holds w2 (variables ds2)
                  (List.map (isel_obj "time" K (Z.of_nat N)) (cvs ++ dvs))).
  { rewrite map_app. by apply holds_app. }
  destruct (getitem_list_ok ds2 l _ w2 Hv2) as (ds' & ex & Hg & Hdv & Hco).
  { intros n Hn. rewrite Nv. by apply Hl. }
  exists ds', w2. rewrite Hrun. split.
  { erewrite bind_ok; [|unfold lift; by rewrite Hsel]. exact Hg. }
  assert (Hnames : names (data_vars ds') =
                   List.filter (fun n => mem n (names (data_vars ds1))) (dedup l)).
  { by rewrite Hdv, names_pick, Nd. }
  split; [exact Hnames|]. split; [|split; [|done]].
  - intros n Hn. pose proof (Hl n Hn) as Hp. unfold variables in Hp |- *.
    rewrite names_app in Hp |- *. apply elem_of_dedup in Hn.
    destruct (decide (n ∈ names (coords ds1))) as [Hcn|Hcn].
    + apply elem_of_app. left. rewrite Hco, names_app, names_pick. apply elem_of_app. left.
      apply elem_of_filter_bool. split; [done|]. unfold mem. rewrite Nc.
      by apply bool_decide_eq_true.
    + apply elem_of_app in Hp as [?|Hp]; [done|]. apply elem_of_app. right.
      rewrite Hnames. apply elem_of_filter_bool. split; [done|].
      unfold mem. by apply bool_decide_eq_true.
  - intros n. rewrite Hnames. intros Hn. apply elem_of_filter_bool in Hn as [Hn _].
    by apply elem_of_dedup.
Qed.

Lemma create_dataset_selects_witness :
  let l := (atm_always_include ++
            ["SFisoprene"; "SFmonoterp"; "N_AER"; "DOD550"; "SOA_A1"; "SOA_NA";
             "cb_SOA_A1"; "cb_SOA_NA"; "cb_SOA_A1_OCW"; "cb_SOA_NA_OCW";
             "ACTNL"; "ACTREL"; "CDNUMC"; "CLDHGH"; "CLDLOW"; "CLDMED"; "CLDTOT";
             "CLDLIQ"; "CLOUD"; "CLOUDCOVER_CLUBB"; "FCTL"; "NUMLIQ"; "TGCLDLWP";
             "FSDS"; "FSNS"; "FLNT"; "FSNT"; "FLNT_DRF"; "FLNTCDRF"; "FSNTCDRF";
             "FSNT_DRF"; "LWCF"; "SWCF"; "LHFLX"; "SHFLX"])%list in
  let w := Ex.world_of Ex.atm_output in
  let ds1 := Ex.dataset_of Ex.atm_output in
  exists ds' w',
    create_dataset Ex.open_atm_files "raw/" "CASE" "atm" "h0" false None 1 false w
      = (Ok ds', w') /\
    names (data_vars ds') =
      List.filter (fun n => mem n (names (data_vars ds1))) (dedup l) /\
    (forall n, n ∈ l -> n ∈ names (variables ds')) /\
    (forall n, n ∈ names (data_vars ds') -> n ∈ l) /\
    untouched w w' /\ disk w' = disk w.
Proof.
  apply (create_dataset_selects Ex.open_atm_files "raw/" "CASE" "atm" "h0" None
           1 false (Ex.world_of Ex.atm_output) (Ex.dataset_of Ex.atm_output)
           (Ex.world_of Ex.atm_output)
           [Ex.time] (Ex.time_bnds :: List.map snd Ex.atm_output) Ex.time 2).
  - reflexivity.
  - repeat constructor.
  - repeat constructor.
  - reflexivity.
  - by left.
  - reflexivity.
  - reflexivity.
  - apply Forall_forall. apply (bool_decide_unpack _). vm_compute. exact I.
Defined.

(** X11. A component other than 'atm' and 'lnd' is refused before any file is
    looked for: whatever the file layer would do, [create_dataset] raises
    the [ValueError] of the component and leaves everything as it is. *)
Theorem create_dataset_unsupported_component open_files raw_path casename comp hf full fts K pv w :
  comp <> "atm" -> comp <> "lnd" ->
  create_dataset open_files raw_path casename comp hf full fts K pv w =
    (Raise (ValueError "component not supported. Choose 'atm' or 'lnd'"), w).
Proof.
  intros Ha Hl. unfold create_dataset, merged_dataset.
  by rewrite !bool_decide_eq_false_2 by done.
Qed.

Lemma create_dataset_unsupported_component_witness :
  create_dataset Ex.open_files "raw/" "CASE" "ice" "h0" false (Some "datetime64") 12 false
    (Ex.world_of Ex.fluxes) =
  (Raise (ValueError "component not supported. Choose 'atm' or 'lnd'"), Ex.world_of Ex.fluxes).
Proof.
  apply (create_dataset_unsupported_component Ex.open_files "raw/" "CASE" "ice" "h0" false
           (Some "datetime64") 12 false (Ex.world_of Ex.fluxes)); discriminate.
Defined.

Lemma merged_dataset_opens open_files raw_path casename comp hf fts w :
  comp = "atm" \/ comp = "lnd" ->
  merged_dataset open_files raw_path casename comp hf fts w =
    (let* ds := open_files (file_pattern raw_path casename comp hf) in
     if truthy fts && bool_decide (hf = "h0") then fix_cam_time ds (default EmptyString fts)
     else ret ds) w.
Proof.
  intros [-> | ->]; unfold merged_dataset, file_pattern.
  - rewrite !bool_decide_eq_true_2 by done. by rewrite bind_ret_l.
  - rewrite (bool_decide_eq_false_2 ("lnd" = "atm")) by done.
    rewrite bool_decide_eq_true_2 by done. by rewrite bind_ret_l.
Qed.

(** X12. [create_dataset] looks for the files of one pattern,
    <raw_path><casename>/<comp>/hist/<casename>.<model>.<history_field>.*.nc
    with the model [cam] for 'atm' and [clm2] for 'lnd'; an error of the
    file layer on that pattern is the error of [create_dataset], and
    nothing else is done. *)
Theorem create_dataset_open_error open_files raw_path casename comp hf full fts K pv w e w0 :
  comp = "atm" \/ comp = "lnd" ->
  open_files (file_pattern raw_path casename comp hf) w = (Raise e, w0) ->
  create_dataset open_files raw_path casename comp hf full fts K pv w = (Raise e, w0).
Proof.
  intros Hc Ho. unfold create_dataset.
  erewrite bind_raise; [done|]. rewrite merged_dataset_opens by done.
  by erewrite bind_raise.
Qed.

Lemma create_dataset_open_error_witness :
  create_dataset Ex.no_files "raw/" "CASE" "lnd" "h0" false (Some "datetime64") 12 false
    (Ex.world_of Ex.fluxes) =
  (Raise (OutOfModel "no files to open"), Ex.world_of Ex.fluxes).
Proof.
  apply (create_dataset_open_error Ex.no_files "raw/" "CASE" "lnd" "h0" false
           (Some "datetime64") 12 false (Ex.world_of Ex.fluxes)).
  - by right.
  - reflexivity.
Defined.

(** X13. The error of the time corrector goes through [create_dataset]: with the
    monthly history ('h0') and a [fix_timestamp] that names no supported time
    type, the call raises a [ValueError] once the files are open; the
    objects of the opened dataset are untouched. *)
Theorem create_dataset_unsupported_fix_timestamp
    open_files raw_path casename comp full t K pv w ds0 w0 cvs dvs :
  comp = "atm" \/ comp = "lnd" ->
  open_files (file_pattern raw_path casename comp "h0") w = (Ok ds0, w0) ->
  holds w0 (coords ds0) cvs -> holds w0 (data_vars ds0) dvs ->
  t <> EmptyString -> t <> "DatetimeNoLeap" -> t <> "datetime64" ->
  exists msg w',
    create_dataset open_files raw_path casename comp "h0" full (Some t) K pv w =
      (Raise (ValueError msg), w') /\
    untouched w0 w' /\ disk w' = disk w0 /\
    ("time_bounds" ∉ names (data_vars ds0) ->
     msg = "time type not supported. Choose 'DatetimeNoLeap' or 'datetime64'").
Proof.
  intros Hcomp Ho Hc Hd Hne H1 H2.
  destruct (fix_cam_time_invalid ds0 w0 cvs dvs t Hc Hd H1 H2) as (msg & w' & Hf & Hu & Hdk & Hm).
  exists msg, w'. split; [|done].
  unfold create_dataset. erewrite bind_raise; [done|].
  rewrite merged_dataset_opens by done. erewrite bind_ok; [|exact Ho].
  unfold truthy. rewrite bool_decide_eq_false_2 by done.
  rewrite bool_decide_eq_true_2 by done. exact Hf.
Qed.

Lemma create_dataset_unsupported_fix_timestamp_witness :
  exists msg w',
    create_dataset Ex.open_files "raw/" "CASE" "atm" "h0" false (Some "cftime") 12 false
      (Ex.world_of Ex.fluxes) = (Raise (ValueError msg), w') /\
    untouched (Ex.world_of Ex.fluxes) w' /\ disk w' = disk (Ex.world_of Ex.fluxes) /\
    ("time_bounds" ∉ names (data_vars (Ex.dataset_of Ex.fluxes)) ->
     msg = "time type not supported. Choose 'DatetimeNoLeap' or 'datetime64'").
Proof.
  apply (create_dataset_unsupported_fix_timestamp Ex.open_files "raw/" "CASE" "atm" false
           "cftime" 12 false (Ex.world_of Ex.fluxes) (Ex.dataset_of Ex.fluxes)
           (Ex.world_of Ex.fluxes) [Ex.time] (Ex.time_bnds :: List.map snd Ex.fluxes)).
  - by left.
  - reflexivity.
  - repeat constructor.
  - repeat constructor.
  - discriminate.
  - discriminate.
  - discriminate.
Defined.

Lemma to_list1_Some {A} (a : nd A) l : to_list1 a = Some l -> a = of_list1 l.
Proof.
  destruct a as [x|xs]; [done|]. unfold to_list1, of_list1. intros H. f_equal.
  revert l H. induction xs as [|y xs IH]; intros l; simpl.
  - by intros [= <-].
  - destruct y as [x|]; simpl; [|done].
    destruct (mapM leaf_of xs) as [r|] eqn:E; simpl; [|done].
    intros [= <-]. simpl. f_equal. by apply IH.
Qed.

Lemma slice_of_list1 {A} a b (l : list A) :
  slice_axis 0 a b (of_list1 l) = of_list1 (slice a b l).
Proof.
  unfold of_list1. cbn [slice_axis]. f_equal. unfold slice. rewrite length_map.
  change (List.map Leaf) with (fmap (M := list) (@Leaf A)).
  by rewrite fmap_take, fmap_drop.
Qed.

(** The times of a one-dimensional time variable, sliced to the end. *)
Lemma instants_isel v l K :
  dims v = ["time"] -> instants (data v) = Some l ->
  instants (data (isel_obj "time" K (Z.of_nat (length l)) v)) =
    Some (drop (Z.to_nat (clamp K (Z.of_nat (length l)))) l).
Proof.
  intros Hd Hi. unfold isel_obj. rewrite Hd. cbn [dim_index].
  rewrite bool_decide_eq_true_2 by done. cbn [data].
  destruct (data v) as [x|x|x]; [done| |]; cbn [instants] in Hi;
    (destruct (to_list1 x) as [r|] eqn:E; [|done]); injection Hi as <-;
    apply to_list1_Some in E as ->; rewrite length_map;
    cbn [arr_slice_axis instants];
    rewrite slice_of_list1, to_list1_of_list1, slice_to_end; cbn [fmap option_fmap option_map].
  - change (List.map Dt64) with (fmap (M := list) Dt64). by rewrite fmap_drop.
  - change (List.map Cf) with (fmap (M := list) Cf). by rewrite fmap_drop.
Qed.

Lemma instants_arr_len a l : instants a = Some l -> arr_len a = Some (length l).
Proof.
  destruct a as [x|x|x]; [done| |]; simpl;
    (destruct (to_list1 x) as [r|] eqn:E; [|done]); intros [= <-];
    apply to_list1_Some in E as ->; unfold of_list1; simpl; by rewrite !length_map.
Qed.

(** X14. The whole of [create_dataset] on monthly CAM files: the time stamps of
    the dataset it returns are the representative times of the intervals
    that are left once the spin-up is dropped. *)
Theorem create_dataset_corrects_then_trims
    open_files raw_path casename comp timetype K pv w ds0 w0 cvs dvs tbv tv starts :
  comp = "atm" \/ comp = "lnd" ->
  open_files (file_pattern raw_path casename comp "h0") w = (Ok ds0, w0) ->
  holds w0 (coords ds0) cvs -> holds w0 (data_vars ds0) dvs ->
  "time_bounds" ∉ names (data_vars ds0) ->
  snap w0 ds0 "time_bnds" = Some tbv -> dims tbv = ["time"; "nbnd"] ->
  snap w0 ds0 "time" = Some tv ->
  size_conflict "time" "time" (length starts)
    (zip (names (variables ds0)) (cvs ++ dvs)) = false ->
  (timetype = "DatetimeNoLeap" /\ bounds_starts (data tbv) starts /\
   Forall start_ok starts) \/
  (timetype = "datetime64" /\
   exists b, data tbv = M8 (bounds_nd b) /\ starts = List.map (fun p => Dt64 p.1) b) ->
  exists ds' w' tv',
    create_dataset open_files raw_path casename comp "h0" true (Some timetype) K pv w =
      (Ok ds', w') /\
    snap w' ds' "time" = Some tv' /\
    dims tv' = ["time"] /\ attrs tv' = attrs tv /\
    instants (data tv') =
      Some (drop (Z.to_nat (clamp K (Z.of_nat (length starts))))
                 (List.map (representative timetype) starts)).
Proof.
  intros Hcomp Ho Hc Hd Hnb Htb Hdims Ht Hsz Hmode.
  destruct (fix_cam_time_full ds0 w0 cvs dvs tbv tv starts timetype)
    as (d1 & w1 & dates & cvs1 & dvs1 & R1 & S1 & I1 & F1 & _ & _ & Hc1 & Hd1 & _ & _);
    auto.
  assert (Hne : timetype <> EmptyString).
  { destruct Hmode as [[-> _]|[-> _]]; discriminate. }
  assert (Hm : merged_dataset open_files raw_path casename comp "h0" (Some timetype) w =
               (Ok d1, w1)).
  { rewrite merged_dataset_opens by done. erewrite bind_ok; [|exact Ho].
    unfold truthy. rewrite bool_decide_eq_false_2 by done.
    by rewrite bool_decide_eq_true_2 by done. }
  set (tv1 := mkVar ["time"] dates (attrs tv)) in *.
  set (N := length (List.map (representative timetype) starts)).
  destruct (create_dataset_sliced open_files raw_path casename comp "h0" true (Some timetype)
              K pv w d1 w1 cvs1 dvs1 tv1 N Hm Hc1 Hd1 S1)
    as (ds2 & w2 & Hrun & Nc & Nd & Hc2 & Hd2 & _ & _).
  { by left. }
  { by apply instants_arr_len. }
  exists ds2, w2, (isel_obj "time" K (Z.of_nat N) tv1).
  split; [exact Hrun|]. split.
  { rewrite (sliced_view w1 d1 w2 ds2 cvs1 dvs1 _ "time" Hc1 Hd1 Nc Nd Hc2 Hd2).
    by rewrite S1. }
  split; [unfold isel_obj; cbn; by rewrite bool_decide_eq_true_2|].
  split; [unfold isel_obj; cbn; by rewrite bool_decide_eq_true_2|].
  unfold N. rewrite (instants_isel tv1 _ K eq_refl I1). by rewrite length_map.
Qed.

Lemma create_dataset_corrects_then_trims_witness :
  exists ds' w' tv',
    create_dataset Ex.open_files "raw/" "CASE" "atm" "h0" true (Some "datetime64") 1 false
      (Ex.world_of Ex.fluxes) = (Ok ds', w') /\
    snap w' ds' "time" = Some tv' /\
    dims tv' = ["time"] /\ attrs tv' = attrs Ex.time /\
    instants (data tv') =
      Some (drop (Z.to_nat (clamp 1 (Z.of_nat 2)))
                 (List.map (representative "datetime64")
                    [Dt64 (datetime64_of 2008 1 1); Dt64 (datetime64_of 2008 2 1)])).
Proof.
  apply (create_dataset_corrects_then_trims Ex.open_files "raw/" "CASE" "atm" "datetime64"
           1 false (Ex.world_of Ex.fluxes) (Ex.dataset_of Ex.fluxes) (Ex.world_of Ex.fluxes)
           [Ex.time] (Ex.time_bnds :: List.map snd Ex.fluxes) Ex.time_bnds Ex.time
           [Dt64 (datetime64_of 2008 1 1); Dt64 (datetime64_of 2008 2 1)]).
  - by left.
  - reflexivity.
  - repeat constructor.
  - repeat constructor.
  - apply (bool_decide_unpack _). vm_compute. exact I.
  - reflexivity.
  - reflexivity.
  - reflexivity.
  - vm_compute. reflexivity.
  - right. split; [reflexivity|]. eexists. split; reflexivity.
Defined.

(** ** The unit and name passes: how they compose *)

(** A pass that copies the dataset and rewrites every data variable of the
    copy by [g]. *)
Lemma rewrite_pass (step : Dataset -> string -> M unit)
    (g : string -> var_obj -> result var_obj) ds w cvs dvs dvs' :
  (forall ds_ n p v v' w0,
     assoc n (variables ds_) = Some p -> heap w0 !! p = Some v -> g n v = Ok v' ->
     step ds_ n w0 = (Ok tt, mkWorld (<[p := v']> (heap w0)) (disk w0))) ->
  holds w (coords ds) cvs -> holds w (data_vars ds) dvs ->
  NoDup (names (variables ds)) ->
  mapR (fun nv => g nv.1 nv.2) (zip (names (data_vars ds)) dvs) = Ok dvs' ->
  exists ds' w',
    (let* ds_ := copy true ds in
     let* _ := forM_ (step ds_) (names (data_vars ds_)) in
     ret ds_) w = (Ok ds', w') /\
    names (coords ds') = names (coords ds) /\
    names (data_vars ds') = names (data_vars ds) /\
    holds w' (coords ds') cvs /\ holds w' (data_vars ds') dvs' /\
    untouched w w' /\ disk w' = disk w.
Proof.
  intros Hstep Hc Hd Hnd Hm.
  pose proof (holds_length _ _ _ Hc) as Lc. pose proof (holds_length _ _ _ Hd) as Ld.
  assert (Ld' : length dvs' = length dvs).
  { destruct (mapR_Forall2 (fun nv : string * var_obj => g nv.1 nv.2)
                (zip (names (data_vars ds)) dvs)) as (ys & E & F).
    { intros x Hx. clear -Hm Hx. revert dvs' Hm.
      induction (zip (names (data_vars ds)) dvs) as [|a l IH]; intros dvs' Hm;
        [by apply elem_of_nil in Hx|].
      simpl in Hm. destruct (g a.1 a.2) as [y|] eqn:Ey; [|done].
      destruct (mapR _ l) as [r|] eqn:Er; [|done].
      apply elem_of_cons in Hx as [->|Hx]; [eauto|]. by eapply IH. }
    rewrite Hm in E. injection E as <-.
    apply Forall2_length in F. rewrite length_zip in F. unfold names in F.
    rewrite length_map in F. lia. }
  erewrite bind_ok; [|by apply copy_spec].
  set (ds_ := mkDs _ _).
  assert (Hnd_ : NoDup (names (variables ds_))).
  { unfold variables, ds_ in *. simpl. rewrite names_app, !names_zip_seq.
    by rewrite names_app in Hnd. }
  erewrite bind_ok.
  2:{ rewrite forM_names. unfold ds_ at 2. cbn [data_vars].
      replace (length (heap w) + length (coords ds))%nat with (length (heap w ++ cvs))
        by (rewrite length_app; lia).
      replace (length (data_vars ds)) with (length (names (data_vars ds)))
        by (unfold names; by rewrite length_map).
      cbn [heap disk]. rewrite app_assoc.
      replace dvs with (dvs ++ []) at 1 by apply app_nil_r.
      eapply (forM_update (fun b => step ds_ b.1) g (variables ds_)).
      - intros n p v v' w0 Hin Hp Hu. cbn [fst].
        apply Hstep with (v := v); [|done|done]. by apply assoc_NoDup.
      - intros x Hx. unfold variables, ds_. cbn [coords data_vars].
        apply elem_of_app. right.
        replace (length (heap w) + length (coords ds))%nat with (length (heap w ++ cvs))
          by (rewrite length_app; lia).
        replace (length (data_vars ds)) with (length (names (data_vars ds)))
          by (unfold names; by rewrite length_map).
        done.
      - unfold names. rewrite length_map. done.
      - exact Hm. }
  eexists ds_, _. split; [reflexivity|]. cbn [heap disk].
  split; [apply names_zip_seq|]. split; [apply names_zip_seq|].
  split; [|split; [|split; [|done]]].
  - pose proof (holds_zip_seq (names (coords ds)) cvs (heap w) (dvs' ++ []) (disk w)) as H.
    unfold names in *. rewrite length_map in H. rewrite <- app_assoc. apply H. by rewrite Lc.
  - pose proof (holds_zip_seq (names (data_vars ds)) dvs' (heap w ++ cvs) [] (disk w)) as H.
    unfold names in *. rewrite length_map, length_app, <- Lc in H.
    apply H. by rewrite Ld'.
  - exists (cvs ++ dvs' ++ []). by rewrite <- app_assoc.
Qed.

Lemma fix_units_run ds w cvs dvs dvs' :
  holds w (coords ds) cvs -> holds w (data_vars ds) dvs ->
  NoDup (names (variables ds)) ->
  mapR (fun nv => units_of nv.1 nv.2) (zip (names (data_vars ds)) dvs) = Ok dvs' ->
  exists ds' w',
    fix_units ds w = (Ok ds', w') /\
    names (coords ds') = names (coords ds) /\
    names (data_vars ds') = names (data_vars ds) /\
    holds w' (coords ds') cvs /\ holds w' (data_vars ds') dvs' /\
    untouched w w' /\ disk w' = disk w.
Proof.
  apply (rewrite_pass fix_units_step units_of).
  intros ds_ n p v v' w0. apply fix_units_step_spec.
Qed.

Lemma fix_names_run ds w cvs dvs :
  holds w (coords ds) cvs -> holds w (data_vars ds) dvs ->
  NoDup (names (variables ds)) ->
  exists ds' w',
    fix_names ds w = (Ok ds', w') /\
    names (coords ds') = names (coords ds) /\
    names (data_vars ds') = names (data_vars ds) /\
    holds w' (coords ds') cvs /\
    holds w' (data_vars ds')
      (List.map (fun nv : string * var_obj => names_of nv.1 nv.2)
                (zip (names (data_vars ds)) dvs)) /\
    untouched w w' /\ disk w' = disk w.
Proof.
  intros Hc Hd Hnd.
  apply (rewrite_pass fix_names_step (fun n v => Ok (names_of n v)) ds w cvs dvs);
    [|done|done|done|].
  - intros ds_ n p v v' w0 Hp Hv [= <-]. by apply fix_names_step_spec.
  - apply (mapR_total (fun nv : string * var_obj => names_of nv.1 nv.2)).
Qed.

(** What a name denotes, from the names and the objects. *)
Lemma snap_of_holds w ds cvs dvs n :
  holds w (coords ds) cvs -> holds w (data_vars ds) dvs ->
  snap w ds n = assoc n (zip (names (coords ds) ++ names (data_vars ds)) (cvs ++ dvs)).
Proof.
  intros Hc Hd. unfold snap. fold (snapl w (variables ds) n).
  rewrite (snapl_view _ _ (cvs ++ dvs)) by (by apply holds_app).
  unfold variables. by rewrite names_app.
Qed.

Lemma name_table_keys n k x :
  assoc n name_table = Some (k, x) -> k = "long_name" \/ k = "CLM5_name".
Proof.
  unfold name_table. cbn [assoc].
  repeat (case_bool_decide; [intros [= <- _]; auto|]). done.
Qed.

Lemma units_of_names_of n v v1 :
  units_of n v = Ok v1 -> units_of n (names_of n v) = Ok (names_of n v1).
Proof.
  unfold units_of, names_of.
  destruct (assoc n name_table) as [[k x]|] eqn:En; [|done].
  assert (Hk : k <> "units").
  { apply name_table_keys in En as [-> | ->]; discriminate. }
  destruct (assoc n unit_table) as [[f u]|]; cbn [data dims attrs].
  - destruct (data v); try done. intros [= <-]. cbn [data dims attrs].
    by rewrite insert_insert_ne.
  - destruct (assoc n label_table) as [u|]; intros [= <-]; cbn [data dims attrs]; [|done].
    by rewrite insert_insert_ne.
Qed.

Lemma units_names_lists ns : forall dvs dvs1,
  mapR (fun nv : string * var_obj => units_of nv.1 nv.2) (zip ns dvs) = Ok dvs1 ->
  mapR (fun nv : string * var_obj => units_of nv.1 nv.2)
       (zip ns (List.map (fun nv : string * var_obj => names_of nv.1 nv.2) (zip ns dvs))) =
  Ok (List.map (fun nv : string * var_obj => names_of nv.1 nv.2) (zip ns dvs1)).
Proof.
  induction ns as [|n ns IH]; intros [|v dvs] dvs1; simpl; try by intros [= <-].
  destruct (units_of n v) as [v1|] eqn:E; [|done].
  destruct (mapR _ (zip ns dvs)) as [r|] eqn:Er; [|done]. intros [= <-].
  rewrite (units_of_names_of _ _ _ E). by rewrite (IH _ _ Er).
Qed.

Lemma mapR_numeric ns dvs :
  (forall n v, (n, v) ∈ zip ns dvs ->
               is_Some (assoc n unit_table) -> exists x, data v = F64 x) ->
  exists dvs1, mapR (fun nv : string * var_obj => units_of nv.1 nv.2) (zip ns dvs) = Ok dvs1.
Proof.
  intros Hnum.
  destruct (mapR_Forall2 (fun nv : string * var_obj => units_of nv.1 nv.2) (zip ns dvs))
    as (dvs1 & Hm & _); [|eauto].
  intros [n v] Hin. apply units_of_numeric. by apply Hnum.
Qed.

Lemma mapR_length ns : forall dvs dvs1,
  length ns = length dvs ->
  mapR (fun nv : string * var_obj => units_of nv.1 nv.2) (zip ns dvs) = Ok dvs1 ->
  length dvs1 = length dvs.
Proof.
  induction ns as [|n ns IH]; intros [|v dvs] dvs1 Hl; simpl in *; try done.
  - by intros [= <-].
  - destruct (units_of n v); [|done]. destruct (mapR _ (zip ns dvs)) eqn:E; [|done].
    intros [= <-]. simpl. f_equal. eapply IH; [|done]. lia.
Qed.

(** X15. The two passes commute: rewriting the units and then the names gives a
    dataset in which every name denotes what it denotes after rewriting the
    names and then the units. *)
Theorem fix_units_fix_names_commute ds w cvs dvs :
  holds w (coords ds) cvs -> holds w (data_vars ds) dvs ->
  NoDup (names (variables ds)) ->
  (forall n v, (n, v) ∈ zip (names (data_vars ds)) dvs ->
               is_Some (assoc n unit_table) -> exists x, data v = F64 x) ->
  exists d2 w2 e2 v2,
    (let* d := fix_units ds in fix_names d) w = (Ok d2, w2) /\
    (let* d := fix_names ds in fix_units d) w = (Ok e2, v2) /\
    names (variables d2) = names (variables ds) /\
    names (variables e2) = names (variables ds) /\
    forall n, snap w2 d2 n = snap v2 e2 n.
Proof.
  intros Hc Hd Hnd Hnum.
  set (ns := names (data_vars ds)) in *.
  set (N := fun nv : string * var_obj => names_of nv.1 nv.2).
  destruct (mapR_numeric ns dvs Hnum) as [dvs1 Hm].
  (* units, then names *)
  destruct (fix_units_run ds w cvs dvs dvs1 Hc Hd Hnd Hm)
    as (d1 & w1 & R1 & Nc1 & Nd1 & Hc1 & Hd1 & _ & _).
  assert (Hnd1 : NoDup (names (variables d1))).
  { unfold variables in *. by rewrite names_app, Nc1, Nd1, <- names_app. }
  destruct (fix_names_run d1 w1 cvs dvs1 Hc1 Hd1 Hnd1)
    as (d2 & w2 & R2 & Nc2 & Nd2 & Hc2 & Hd2 & _ & _).
  (* names, then units *)
  destruct (fix_names_run ds w cvs dvs Hc Hd Hnd)
    as (e1 & v1 & S1 & Mc1 & Md1 & Gc1 & Gd1 & _ & _).
  assert (Hne1 : NoDup (names (variables e1))).
  { unfold variables in *. by rewrite names_app, Mc1, Md1, <- names_app. }
  fold ns N in Gd1.
  destruct (fix_units_run e1 v1 cvs (List.map N (zip ns dvs)) (List.map N (zip ns dvs1))
              Gc1 Gd1 Hne1) as (e2 & v2 & S2 & Mc2 & Md2 & Gc2 & Gd2 & _ & _).
  { rewrite Md1. by apply units_names_lists. }
  exists d2, w2, e2, v2.
  split; [by erewrite bind_ok; [|exact R1]|].
  split; [by erewrite bind_ok; [|exact S1]|].
  split; [unfold variables; by rewrite !names_app, Nc2, Nd2, Nc1, Nd1|].
  split; [unfold variables; by rewrite !names_app, Mc2, Md2, Mc1, Md1|].
  intros n. rewrite (snap_of_holds _ _ _ _ n Hc2 Hd2), (snap_of_holds _ _ _ _ n Gc2 Gd2).
  by rewrite Nc2, Nd2, Nc1, Nd1, Mc2, Md2, Mc1, Md1.
Qed.

Lemma fix_units_fix_names_commute_witness :
  exists d2 w2 e2 v2,
    (let* d := fix_units (Ex.dataset_of Ex.aerosols) in fix_names d) (Ex.world_of Ex.aerosols)
      = (Ok d2, w2) /\
    (let* d := fix_names (Ex.dataset_of Ex.aerosols) in fix_units d) (Ex.world_of Ex.aerosols)
      = (Ok e2, v2) /\
    names (variables d2) = names (variables (Ex.dataset_of Ex.aerosols)) /\
    names (variables e2) = names (variables (Ex.dataset_of Ex.aerosols)) /\
    forall n, snap w2 d2 n = snap v2 e2 n.
Proof.
  apply (fix_units_fix_names_commute (Ex.dataset_of Ex.aerosols) (Ex.world_of Ex.aerosols)
           [Ex.time] (Ex.time_bnds :: List.map snd Ex.aerosols)).
  - repeat constructor.
  - repeat constructor.
  - apply (bool_decide_unpack _). vm_compute. exact I.
  - intros n v H Hs. simpl in H.
    repeat (apply elem_of_cons in H as [H|H];
            [injection H as -> ->;
             first [eexists; reflexivity | destruct Hs as [x Hx]; discriminate]|]).
    by apply elem_of_nil in H.
Defined.

Lemma names_of_twice n v : names_of n (names_of n v) = names_of n v.
Proof.
  unfold names_of. destruct (assoc n name_table) as [[k x]|]; [|done].
  cbn [dims data attrs]. by rewrite insert_insert_eq.
Qed.

Lemma names_of_lists ns : forall dvs,
  List.map (fun nv : string * var_obj => names_of nv.1 nv.2)
    (zip ns (List.map (fun nv : string * var_obj => names_of nv.1 nv.2) (zip ns dvs))) =
  List.map (fun nv : string * var_obj => names_of nv.1 nv.2) (zip ns dvs).
Proof.
  induction ns as [|n ns IH]; intros [|v dvs]; simpl; try done.
  by rewrite names_of_twice, IH.
Qed.

(** X16. Running [fix_names] on its own result changes nothing more: every name
    denotes after two runs what it denotes after one. *)
Theorem fix_names_twice ds w cvs dvs :
  holds w (coords ds) cvs -> holds w (data_vars ds) dvs ->
  NoDup (names (variables ds)) ->
  exists d1 w1 d2 w2,
    fix_names ds w = (Ok d1, w1) /\
    fix_names d1 w1 = (Ok d2, w2) /\
    names (variables d2) = names (variables d1) /\
    forall n, snap w2 d2 n = snap w1 d1 n.
Proof.
  intros Hc Hd Hnd.
  destruct (fix_names_run ds w cvs dvs Hc Hd Hnd)
    as (d1 & w1 & R1 & Nc1 & Nd1 & Hc1 & Hd1 & _ & _).
  assert (Hnd1 : NoDup (names (variables d1))).
  { unfold variables in *. by rewrite names_app, Nc1, Nd1, <- names_app. }
  destruct (fix_names_run d1 w1 cvs _ Hc1 Hd1 Hnd1)
    as (d2 & w2 & R2 & Nc2 & Nd2 & Hc2 & Hd2 & _ & _).
  exists d1, w1, d2, w2. split; [done|]. split; [done|].
  split; [unfold variables; by rewrite !names_app, Nc2, Nd2|].
  intros n. rewrite (snap_of_holds _ _ _ _ n Hc2 Hd2), (snap_of_holds _ _ _ _ n Hc1 Hd1).
  by rewrite Nc2, Nd2, Nd1, names_of_lists.
Qed.

Lemma fix_names_twice_witness :
  exists d1 w1 d2 w2,
    fix_names (Ex.dataset_of Ex.aerosols) (Ex.world_of Ex.aerosols) = (Ok d1, w1) /\
    fix_names d1 w1 = (Ok d2, w2) /\
    names (variables d2) = names (variables d1) /\
    forall n, snap w2 d2 n = snap w1 d1 n.
Proof.
  apply (fix_names_twice (Ex.dataset_of Ex.aerosols) (Ex.world_of Ex.aerosols)
           [Ex.time] (Ex.time_bnds :: List.map snd Ex.aerosols)).
  - repeat constructor.
  - repeat constructor.
  - apply (bool_decide_unpack _). vm_compute. exact I.
Defined.

Lemma units_of_twice n v v1 v2 :
  units_of n v = Ok v1 -> units_of n v1 = Ok v2 -> units_rewritten_twice n v v2.
Proof.
  unfold units_of, units_rewritten_twice. destruct (assoc n unit_table) as [[f u]|].
  - destruct (data v) as [x| |] eqn:E; try discriminate. intros [= <-].
    cbn [data dims attrs]. intros [= <-]. cbn [data dims attrs].
    split; [done|]. split.
    + exists x. split; [done|]. by rewrite nd_map_map.
    + by rewrite insert_insert_eq.
  - destruct (assoc n label_table) as [u|]; intros [= <-]; cbn [data dims attrs];
      intros [= <-]; cbn [data dims attrs]; [|done].
    split; [done|]. split; [done|]. by rewrite insert_insert_eq.
Qed.

Lemma units_of_again n v v1 :
  units_of n v = Ok v1 -> exists v2, units_of n v1 = Ok v2.
Proof.
  unfold units_of. destruct (assoc n unit_table) as [[f u]|].
  - destruct (data v) as [x| |]; try discriminate. intros [= <-]. cbn [data]. eauto.
  - destruct (assoc n label_table) as [u|]; intros [= <-]; eauto.
Qed.

Lemma units_twice_lists ns : forall dvs dvs1,
  mapR (fun nv : string * var_obj => units_of nv.1 nv.2) (zip ns dvs) = Ok dvs1 ->
  exists dvs2,
    mapR (fun nv : string * var_obj => units_of nv.1 nv.2) (zip ns dvs1) = Ok dvs2 /\
    Forall2 (fun nv v2 => units_rewritten_twice nv.1 nv.2 v2) (zip ns dvs) dvs2.
Proof.
  induction ns as [|n ns IH]; intros [|v dvs] dvs1; simpl.
  - intros [= <-]. exists []. split; [done|constructor].
  - intros [= <-]. exists []. split; [done|constructor].
  - intros [= <-]. exists []. split; [done|constructor].
  - destruct (units_of n v) as [v1|] eqn:E; [|done].
    destruct (mapR _ (zip ns dvs)) as [r|] eqn:Er; [|done]. intros [= <-].
    destruct (units_of_again _ _ _ E) as [v2 E2].
    destruct (IH _ _ Er) as (r2 & Hr2 & F).
    exists (v2 :: r2). simpl. rewrite E2, Hr2. split; [done|].
    constructor; [|done]. by eapply units_of_twice.
Qed.

(** X17. [fix_units] is not idempotent: run on its own result it multiplies the
    values of a table variable by the factor once more, so that after two
    runs they are scaled twice while the unit string is what one run sets. *)
Theorem fix_units_twice_scales_twice ds w cvs dvs :
  holds w (coords ds) cvs -> holds w (data_vars ds) dvs ->
  NoDup (names (variables ds)) ->
  (forall n v, (n, v) ∈ zip (names (data_vars ds)) dvs ->
               is_Some (assoc n unit_table) -> exists x, data v = F64 x) ->
  exists d2 w2 dvs2,
    (let* d := fix_units ds in fix_units d) w = (Ok d2, w2) /\
    names (coords d2) = names (coords ds) /\
    names (data_vars d2) = names (data_vars ds) /\
    holds w2 (coords d2) cvs /\ holds w2 (data_vars d2) dvs2 /\
    Forall2 (fun nv v2 => units_rewritten_twice nv.1 nv.2 v2)
            (zip (names (data_vars ds)) dvs) dvs2.
Proof.
  intros Hc Hd Hnd Hnum.
  destruct (mapR_numeric _ dvs Hnum) as [dvs1 Hm].
  destruct (units_twice_lists _ _ _ Hm) as (dvs2 & Hm2 & F).
  destruct (fix_units_run ds w cvs dvs dvs1 Hc Hd Hnd Hm)
    as (d1 & w1 & R1 & Nc1 & Nd1 & Hc1 & Hd1 & _ & _).
  assert (Hnd1 : NoDup (names (variables d1))).
  { unfold variables in *. by rewrite names_app, Nc1, Nd1, <- names_app. }
  destruct (fix_units_run d1 w1 cvs dvs1 dvs2 Hc1 Hd1 Hnd1)
    as (d2 & w2 & R2 & Nc2 & Nd2 & Hc2 & Hd2 & _ & _).
  { by rewrite Nd1. }
  exists d2, w2, dvs2. split; [by erewrite bind_ok; [|exact R1]|].
  split; [congruence|]. split; [congruence|]. done.
Qed.

Lemma fix_units_twice_scales_twice_witness :
  exists d2 w2 dvs2,
    (let* d := fix_units (Ex.dataset_of Ex.aerosols) in fix_units d) (Ex.world_of Ex.aerosols)
      = (Ok d2, w2) /\
    names (coords d2) = names (coords (Ex.dataset_of Ex.aerosols)) /\
    names (data_vars d2) = names (data_vars (Ex.dataset_of Ex.aerosols)) /\
    holds w2 (coords d2) [Ex.time] /\ holds w2 (data_vars d2) dvs2 /\
    Forall2 (fun nv v2 => units_rewritten_twice nv.1 nv.2 v2)
            (zip (names (data_vars (Ex.dataset_of Ex.aerosols)))
                 (Ex.time_bnds :: List.map snd Ex.aerosols)) dvs2.
Proof.
  apply (fix_units_twice_scales_twice (Ex.dataset_of Ex.aerosols) (Ex.world_of Ex.aerosols)
           [Ex.time] (Ex.time_bnds :: List.map snd Ex.aerosols)).
  - repeat constructor.
  - repeat constructor.
  - apply (bool_decide_unpack _). vm_compute. exact I.
  - intros n v H Hs. simpl in H.
    repeat (apply elem_of_cons in H as [H|H];
            [injection H as -> ->;
             first [eexists; reflexivity | destruct Hs as [x Hx]; discriminate]|]).
    by apply elem_of_nil in H.
Defined.

(** ** The forcing decomposition: what the function does, and what its
    loops compute *)

(** X18. The presence test fails also when the six prerequisite fluxes are all
    there: the function returns a copy in which every name denotes what it
    denoted; no derived variable is added and no [Ghan_name] is set. *)
Theorem Ghan_with_prerequisites_is_a_copy ds w cvs dvs :
  holds w (coords ds) cvs -> holds w (data_vars ds) dvs ->
  (forall n, n ∈ ["FLNT"; "FSNT"; "FLNT_DRF"; "FLNTCDRF"; "FSNTCDRF"; "FSNT_DRF"] ->
             n ∈ names (data_vars ds)) ->
  exists ds' w',
    aerosol_cloud_forcing_scomposition_Ghan ds w = (Ok ds', w') /\
    names (variables ds') = names (variables ds) /\
    (forall n, snap w' ds' n = snap w ds n) /\
    (forall g, g ∈ Ghan_vars -> g ∉ names (variables ds) -> snap w' ds' g = None) /\
    untouched w w' /\ disk w' = disk w.
Proof.
  intros Hc Hd _. rewrite Ghan_is_copy.
  destruct (copy_ok true ds cvs dvs w Hc Hd) as (ds' & R & Nc & Nd & Hc' & Hd').
  simpl in *. eexists ds', _. split; [exact R|].
  assert (Nv : names (variables ds') = names (variables ds)).
  { unfold variables. by rewrite !names_app, Nc, Nd. }
  assert (Hs : forall n, snap (mkWorld (heap w ++ cvs ++ dvs) (disk w)) ds' n = snap w ds n).
  { intros n. apply (snap_same_view _ _ _ _ (cvs ++ dvs)); [|by apply holds_app|done].
    by apply holds_app. }
  split; [done|]. split; [done|]. split; [|split; [by eexists|done]].
  intros g _ Hg. rewrite Hs. unfold snap.
  destruct (assoc g (variables ds)) as [p|] eqn:E; [|done].
  exfalso. apply Hg. apply assoc_is_Some. by eexists.
Qed.

Lemma Ghan_with_prerequisites_is_a_copy_witness :
  exists ds' w',
    aerosol_cloud_forcing_scomposition_Ghan (Ex.dataset_of Ex.fluxes) (Ex.world_of Ex.fluxes)
      = (Ok ds', w') /\
    names (variables ds') = names (variables (Ex.dataset_of Ex.fluxes)) /\
    (forall n, snap w' ds' n = snap (Ex.world_of Ex.fluxes) (Ex.dataset_of Ex.fluxes) n) /\
    (forall g, g ∈ Ghan_vars -> g ∉ names (variables (Ex.dataset_of Ex.fluxes)) ->
               snap w' ds' g = None) /\
    untouched (Ex.world_of Ex.fluxes) w' /\ disk w' = disk (Ex.world_of Ex.fluxes).
Proof.
  apply (Ghan_with_prerequisites_is_a_copy (Ex.dataset_of Ex.fluxes) (Ex.world_of Ex.fluxes)
           [Ex.time] (Ex.time_bnds :: List.map snd Ex.fluxes)).
  - repeat constructor.
  - repeat constructor.
  - apply Forall_forall. apply (bool_decide_unpack _). vm_compute. exact I.
Defined.




(** ** The writer: what it leaves alone, and how it fails *)












(** X21. For a component that is neither 'atm' nor 'lnd' the catalog function
    ends without having bound its result: on a dataset with a proper time
    coordinate the writer stops there with an [UnboundLocalError], before
    any file is written. *)
Theorem save_postprocessed_unknown_component ds comp path alias pv w tv ts :
  comp <> "atm" -> comp <> "lnd" ->
  snap w ds "time" = Some tv -> instants (data tv) = Some ts -> Forall not_NaT ts ->
  ts <> [] ->
  save_postprocessed ds comp path alias pv w = (Raise (UnboundLocalError "variables"), w).
Proof.
  intros Ha Hl Ht Hi Hn Hne. unfold save_postprocessed.
  destruct ts as [|t0 ts'] eqn:Ets; [done|]. rewrite <- Ets in *.
  destruct (last ts) as [t1|] eqn:El.
  2:{ rewrite Ets in El. by apply last_None in El. }
  erewrite bind_ok; [|by eapply time_years_ok].
  erewrite bind_ok; [|unfold lift_opt; rewrite head_map, Ets; reflexivity].
  erewrite bind_ok; [|by eapply time_years_ok].
  erewrite bind_ok; [|unfold lift_opt; rewrite last_map, El; reflexivity].
  unfold variables_by_component. by rewrite !bool_decide_eq_false_2 by done.
Qed.

Lemma save_postprocessed_unknown_component_witness :
  save_postprocessed (Ex.dataset_of Ex.fluxes) "ice" "out/" "CASE" true (Ex.world_of Ex.fluxes)
    = (Raise (UnboundLocalError "variables"), Ex.world_of Ex.fluxes).
Proof.
  apply (save_postprocessed_unknown_component _ _ _ _ _ _ Ex.time
           [Dt64 (datetime64_of 2008 2 1); Dt64 (datetime64_of 2008 3 1)]).
  - discriminate.
  - discriminate.
  - reflexivity.
  - reflexivity.
  - repeat constructor; by vm_compute.
  - discriminate.
Defined.

(** X22. A dataset whose time coordinate is an empty datetime64 array has
    no first year: the writer stops with an [IndexError] and writes nothing,
    whatever the component. *)
Theorem save_postprocessed_empty_time ds comp path alias pv w tv :
  snap w ds "time" = Some tv -> data tv = M8 (of_list1 []) ->
  save_postprocessed ds comp path alias pv w = (Raise IndexError, w).
Proof.
  intros Ht Hi. unfold save_postprocessed.
  erewrite bind_ok; [|eapply time_years_ok; [exact Ht|by rewrite Hi|constructor]]. done.
Qed.

Lemma save_postprocessed_empty_time_witness :
  save_postprocessed Ex.stepless_dataset "atm" "out/" "CASE" true Ex.stepless_world =
    (Raise IndexError, Ex.stepless_world).
Proof.
  apply (save_postprocessed_empty_time Ex.stepless_dataset "atm" "out/" "CASE" true
           Ex.stepless_world Ex.no_steps); reflexivity.
Defined.



(** The loop of the writer when the first missing variable shows up in the
    selection of the category of index [K]: the categories before it get
    their files, and the loop stops there on that variable. *)
Lemma save_loop_stops ds comp path alias date catalog base vs K catK cvK key :
  variables_by_component comp true = Ok catalog ->
  NoDup (names catalog) ->
  ("RADIATIVE" ∈ names catalog -> is_Some (assoc "TURBFLUXES" catalog)) ->
  catalog !! K = Some (catK, cvK) -> catK <> "TURBFLUXES" ->
  (forall j c, (j < K)%nat -> catalog !! j = Some c -> c.1 <> "TURBFLUXES" ->
     forall n, n ∈ cumulative catalog base (S j) -> n ∈ names (variables ds)) ->
  first_missing ds (cumulative catalog base (S K)) = Some key ->
  forall rest k w,
    drop k catalog = rest -> (k <= K)%nat ->
    holds w (variables ds) vs ->
    exists w' files,
      foldM (save_step ds comp path alias date) (cumulative catalog base k) (names rest) w =
        (Raise (KeyError key), w') /\
      heap w' = heap w /\ disk w' = disk w ++ files /\
      Forall2 (fun (ic : nat * string) (pf : string * file) =>
                 pf.1 = (path ++ alias ++ "_" ++ ic.2 ++ "_" ++ date ++ ".nc")%string /\
                 file_holds w ds (cumulative catalog base (S ic.1)) pf.2)
              (List.filter (fun ic => negb (bool_decide (ic.2 = "TURBFLUXES")))
                           (zip (seq k (K - k)) (names rest)))
              files.
Proof.
  intros Hcat Hnd Htf HK HnK Hpre Hkey rest.
  induction rest as [|[cat cvars] rest IH]; intros k w Hdrop Hle Hv.
  - exfalso. apply lookup_lt_Some in HK.
    apply (f_equal length) in Hdrop. rewrite length_drop in Hdrop. simpl in Hdrop. lia.
  - assert (Hk : catalog !! k = Some (cat, cvars)).
    { rewrite <- (Nat.add_0_r k), <- lookup_drop, Hdrop. done. }
    assert (Hrest : drop (S k) catalog = rest).
    { replace (S k) with (k + 1)%nat by lia. rewrite <- drop_drop, Hdrop. done. }
    assert (Ha : assoc cat catalog = Some cvars).
    { apply assoc_NoDup; [done|]. by eapply list_elem_of_lookup_2. }
    assert (Hr : cat = "RADIATIVE" -> is_Some (assoc "TURBFLUXES" catalog)).
    { intros ->. apply Htf. apply list_elem_of_fmap. exists ("RADIATIVE", cvars).
      split; [done|]. by eapply list_elem_of_lookup_2. }
    pose proof (cumulative_S catalog base k cat cvars Hk) as Ec.
    cbn [names List.map fst foldM]. fold (names rest).
    destruct (decide (k = K)) as [->|Hne].
    + rewrite HK in Hk. injection Hk as <- <-. rewrite Ec in Hkey.
      exists w, []. split.
      { erewrite bind_raise; [done|]. by eapply save_step_raise. }
      split; [done|]. split; [by rewrite app_nil_r|].
      rewrite Nat.sub_diag. constructor.
    + replace (K - k)%nat with (S (K - S k)) by lia.
      cbn [seq zip zip_with List.filter snd List.map].
      destruct (decide (cat = "TURBFLUXES")) as [->|Hnt].
      * erewrite bind_ok; [|by eapply save_step_skip].
        rewrite bool_decide_eq_true_2 by done. cbn [negb].
        destruct (IH (S k) w Hrest ltac:(lia) Hv) as (w' & files & Hrun & Hh & Hd & Hp).
        exists w', files. split; [|done].
        rewrite <- Hrun. f_equal. rewrite Ec.
        rewrite bool_decide_eq_false_2 by done. by rewrite app_nil_r.
      * rewrite bool_decide_eq_false_2 by done. cbn [negb].
        destruct (save_step_write ds comp path alias date (cumulative catalog base k)
                    cat catalog cvars w vs) as (f & Hrun1 & Hf1); auto.
        { intros n Hn. apply (Hpre k (cat, cvars)); [lia|done|done|]. by rewrite Ec. }
        rewrite <- Ec in Hrun1, Hf1.
        erewrite bind_ok; [|exact Hrun1]. set (w1 := mkWorld _ _).
        destruct (IH (S k) w1 Hrest ltac:(lia) Hv) as (w' & files & Hrun & Hh & Hd & Hp).
        exists w', (((path ++ alias ++ "_" ++ cat ++ "_" ++ date ++ ".nc")%string, f) :: files).
        split; [exact Hrun|]. split; [done|]. split.
        { rewrite Hd. unfold w1. simpl. by rewrite <- app_assoc. }
        constructor; [done|].
        eapply Forall2_impl; [exact Hp|]. intros ic pf [? ?]. split; [done|].
        by apply (file_holds_heap w1).
Qed.

Lemma written_take (catalog : list (string * list string)) K :
  (K <= length catalog)%nat ->
  written (take K catalog) =
  List.filter (fun ic : nat * string => negb (bool_decide (ic.2 = "TURBFLUXES")))
              (zip (seq 0 K) (names catalog)).
Proof.
  intros H. unfold written. f_equal. rewrite length_take, Nat.min_l by done.
  unfold names. change (List.map fst (take K catalog)) with (fst <$> take K catalog).
  rewrite fmap_take.
  pose proof (zip_with_take_r pair (seq 0 K) (fst <$> catalog)) as E.
  rewrite length_seq in E. exact E.
Qed.

(** X24. Let the category of index [K] be the first one that gets a file and
    whose cumulative selection has a variable that the dataset lacks. The
    writer writes the files of the categories before it, each with its
    cumulative selection, and then stops with a [KeyError] that names the
    first variable of the selection of category [K], in selection order,
    that the dataset lacks; the files of that category and of the later
    ones are not written. *)
Theorem save_postprocessed_stops_at_first_missing
    ds comp path alias pv w vs tv ts t0 t1 catalog K catK cvK key :
  holds w (variables ds) vs ->
  variables_by_component comp true = Ok catalog ->
  snap w ds "time" = Some tv -> instants (data tv) = Some ts -> Forall not_NaT ts ->
  head ts = Some t0 -> last ts = Some t1 ->
  catalog !! K = Some (catK, cvK) -> catK <> "TURBFLUXES" ->
  (forall j c, (j < K)%nat -> catalog !! j = Some c -> c.1 <> "TURBFLUXES" ->
     forall n, n ∈ cumulative catalog (base_selection comp pv) (S j) ->
               n ∈ names (variables ds)) ->
  first_missing ds (cumulative catalog (base_selection comp pv) (S K)) = Some key ->
  exists w' files,
    save_postprocessed ds comp path alias pv w = (Raise (KeyError key), w') /\
    (key ∉ names (variables ds)) /\
    heap w' = heap w /\ disk w' = disk w ++ files /\
    Forall2 (fun (ic : nat * string) (pf : string * file) =>
               pf.1 = (path ++ file_name alias ic.2 (dt_year t0) (dt_year t1))%string /\
               file_holds w ds (cumulative catalog (base_selection comp pv) (S ic.1)) pf.2)
            (written (take K catalog)) files.
Proof.
  intros Hv Hcat Ht Hi Hn H0 H1 HK HnK Hpre Hkey.
  destruct (catalog_facts comp catalog Hcat) as [Hnd Htf].
  erewrite save_postprocessed_unfold by eauto.
  destruct (save_loop_stops ds comp path alias (str (dt_year t0) ++ str (dt_year t1))%string
              catalog (base_selection comp pv) vs K catK cvK key Hcat Hnd Htf HK HnK Hpre Hkey
              catalog 0%nat w eq_refl ltac:(lia) Hv) as (w' & files & Hrun & Hh & Hd & Hf).
  exists w', files.
  replace (cumulative catalog (base_selection comp pv) 0) with (base_selection comp pv) in Hrun
    by (unfold cumulative; simpl; by rewrite app_nil_r).
  split; [by erewrite bind_raise; [|exact Hrun]|].
  split; [by apply first_missing_Some in Hkey as [_ ?]|].
  split; [done|]. split; [done|].
  rewrite written_take by (apply lookup_lt_Some in HK; lia).
  rewrite Nat.sub_0_r in Hf.
  eapply Forall2_impl; [exact Hf|]. intros ic pf [E ?]. split; [|done].
  by rewrite E.
Qed.

Lemma save_postprocessed_stops_at_first_missing_witness :
  let ds := Ex.dataset_of Ex.atm_output in
  let w := Ex.world_of Ex.atm_output in
  exists w' files,
    save_postprocessed ds "atm" "out/" "CASE" true w = (Raise (KeyError "P0"), w') /\
    ("P0" ∉ names (variables ds)) /\
    heap w' = heap w /\ disk w' = disk w ++ files /\
    Forall2 (fun (ic : nat * string) (pf : string * file) =>
               pf.1 = ("out/" ++ file_name "CASE" ic.2 2008 2008)%string /\
               file_holds w ds
                 (cumulative
                    [("BVOC", ["SFisoprene"; "SFmonoterp"]);
                     ("SOA", ["N_AER"; "DOD550"; "SOA_A1"; "SOA_NA"; "cb_SOA_A1"; "cb_SOA_NA";
                              "cb_SOA_A1_OCW"; "cb_SOA_NA_OCW"]);
                     ("CLOUDPROP", ["ACTNL"; "ACTREL"; "CDNUMC"; "CLDHGH"; "CLDLOW"; "CLDMED";
                                    "CLDTOT"; "CLDLIQ"; "CLOUD"; "CLOUDCOVER_CLUBB"; "FCTL";
                                    "NUMLIQ"; "TGCLDLWP"]);
                     ("RADIATIVE", ["FSDS"; "FSNS"; "FLNT"; "FSNT"; "FLNT_DRF"; "FLNTCDRF";
                                    "FSNTCDRF"; "FSNT_DRF"; "LWCF"; "SWCF"]);
                     ("TURBFLUXES", ["LHFLX"; "SHFLX"])]
                    (base_selection "atm" true) (S ic.1)) pf.2)
            [] files.
Proof.
  apply (save_postprocessed_stops_at_first_missing
           (Ex.dataset_of Ex.atm_output) "atm" "out/" "CASE" true (Ex.world_of Ex.atm_output)
           (heap (Ex.world_of Ex.atm_output)) Ex.time
           [Dt64 (datetime64_of 2008 2 1); Dt64 (datetime64_of 2008 3 1)]
           (Dt64 (datetime64_of 2008 2 1)) (Dt64 (datetime64_of 2008 3 1))
           _ 0%nat "BVOC" ["SFisoprene"; "SFmonoterp"] "P0").
  - repeat constructor.
  - reflexivity.
  - reflexivity.
  - reflexivity.
  - repeat constructor; by vm_compute.
  - reflexivity.
  - reflexivity.
  - reflexivity.
  - discriminate.
  - intros j c Hj. lia.
  - vm_compute. reflexivity.
Defined.

Lemma append_inj_l (a x y : string) : (a ++ x = a ++ y)%string -> x = y.
Proof. induction a as [|c a IH]; simpl; [done|]. intros [= H]. by apply IH. Qed.

Lemma length_append (a b : string) :
  String.length (a ++ b) = (String.length a + String.length b)%nat.
Proof. induction a as [|c a IH]; simpl; [done|]. by rewrite IH. Qed.

Lemma append_inj_r (b x y : string) : (x ++ b = y ++ b)%string -> x = y.
Proof.
  revert y. induction x as [|c x IH]; intros [|d y] H.
  - done.
  - apply (f_equal String.length) in H. rewrite !length_append in H. simpl in H. lia.
  - apply (f_equal String.length) in H. rewrite !length_append in H. simpl in H. lia.
  - change (String c (x ++ b) = String d (y ++ b)) in H.
    injection H as -> H. f_equal. by apply IH.
Qed.

Lemma file_path_inj path alias y0 y1 c c' :
  (path ++ file_name alias c y0 y1 = path ++ file_name alias c' y0 y1)%string -> c = c'.
Proof.
  intros H. apply append_inj_l in H. unfold file_name in H.
  apply append_inj_l in H. apply append_inj_l in H.
  by apply append_inj_r in H.
Qed.

Lemma written_cats (ns : list string) : forall a,
  (List.filter (fun ic : nat * string => negb (bool_decide (ic.2 = "TURBFLUXES")))
               (zip (seq a (length ns)) ns)).*2 =
  List.filter (fun c => negb (bool_decide (c = "TURBFLUXES"))) ns.
Proof.
  induction ns as [|n ns IH]; intros a; [done|]. cbn [length seq zip zip_with List.filter snd].
  destruct (negb (bool_decide (n = "TURBFLUXES"))); [|apply IH].
  cbn [fmap list_fmap snd]. f_equal. apply IH.
Qed.

Lemma NoDup_filter_bool {A} (f : A -> bool) l : NoDup l -> NoDup (List.filter f l).
Proof.
  induction 1 as [|x l Hx Hl IH]; simpl; [constructor|].
  destruct (f x); [|done]. constructor; [|done].
  intros H. apply Hx. by apply elem_of_filter_bool in H as [? _].
Qed.

(** X25. A complete run of the writer never writes twice to the same path: the
    files it adds, one per category but TURBFLUXES, have pairwise distinct
    names. *)
Theorem save_postprocessed_distinct_files ds comp path alias pv w vs tv ts t0 t1 catalog :
  holds w (variables ds) vs ->
  variables_by_component comp true = Ok catalog ->
  snap w ds "time" = Some tv -> instants (data tv) = Some ts -> Forall not_NaT ts ->
  head ts = Some t0 -> last ts = Some t1 ->
  (forall n, n ∈ cumulative catalog (base_selection comp pv) (length catalog) ->
             n ∈ names (variables ds)) ->
  exists w' files,
    save_postprocessed ds comp path alias pv w = (Ok tt, w') /\
    disk w' = disk w ++ files /\
    length files = length (written catalog) /\
    NoDup (names files).
Proof.
  intros Hv Hcat Ht Hi Hn H0 H1 Hpres.
  erewrite save_postprocessed_unfold by eauto.
  destruct (catalog_facts _ _ Hcat) as [Hnd Htf].
  destruct (save_loop ds comp path alias (str (dt_year t0) ++ str (dt_year t1))%string
              catalog (base_selection comp pv) vs Hcat Hnd Htf catalog 0%nat w)
    as (w' & files & Hrun & Hh & Hd & Hf); auto.
  exists w', files.
  change (cumulative catalog (base_selection comp pv) 0) with
    (base_selection comp pv ++ []) in Hrun. rewrite app_nil_r in Hrun.
  split; [by erewrite bind_ok; [|exact Hrun]|]. split; [done|].
  fold (written catalog) in Hf.
  split; [symmetry; by eapply Forall2_length|].
  assert (E : names files =
              (fun c => (path ++ file_name alias c (dt_year t0) (dt_year t1))%string)
                <$> (written catalog).*2).
  { clear -Hf. induction Hf as [|ic pf l k [Hp _] _ IH]; [done|].
    cbn [names List.map fmap list_fmap]. f_equal; [done|exact IH]. }
  rewrite E. apply NoDup_fmap_2_strong.
  - intros c c' _ _. apply file_path_inj.
  - unfold written. replace (length catalog) with (length (names catalog))
      by (unfold names; by rewrite length_map).
    rewrite written_cats. by apply NoDup_filter_bool.
Qed.

Lemma save_postprocessed_distinct_files_witness :
  let ds := Ex.dataset_of Ex.atm_output in
  let w := Ex.world_of Ex.atm_output in
  exists w' files,
    save_postprocessed ds "atm" "out/" "CASE" false w = (Ok tt, w') /\
    disk w' = disk w ++ files /\
    length files = 4%nat /\
    NoDup (names files).
Proof.
  apply (save_postprocessed_distinct_files
           (Ex.dataset_of Ex.atm_output) "atm" "out/" "CASE" false (Ex.world_of Ex.atm_output)
           (heap (Ex.world_of Ex.atm_output)) Ex.time
           [Dt64 (datetime64_of 2008 2 1); Dt64 (datetime64_of 2008 3 1)]
           (Dt64 (datetime64_of 2008 2 1)) (Dt64 (datetime64_of 2008 3 1))
           [("BVOC", ["SFisoprene"; "SFmonoterp"]);
            ("SOA", ["N_AER"; "DOD550"; "SOA_A1"; "SOA_NA"; "cb_SOA_A1"; "cb_SOA_NA";
                     "cb_SOA_A1_OCW"; "cb_SOA_NA_OCW"]);
            ("CLOUDPROP", ["ACTNL"; "ACTREL"; "CDNUMC"; "CLDHGH"; "CLDLOW"; "CLDMED";
                           "CLDTOT"; "CLDLIQ"; "CLOUD"; "CLOUDCOVER_CLUBB"; "FCTL";
                           "NUMLIQ"; "TGCLDLWP"]);
            ("RADIATIVE", ["FSDS"; "FSNS"; "FLNT"; "FSNT"; "FLNT_DRF"; "FLNTCDRF";
                           "FSNTCDRF"; "FSNT_DRF"; "LWCF"; "SWCF"]);
            ("TURBFLUXES", ["LHFLX"; "SHFLX"])]).
  - repeat constructor.
  - reflexivity.
  - reflexivity.
  - reflexivity.
  - repeat constructor; by vm_compute.
  - reflexivity.
  - reflexivity.
  - apply Forall_forall. apply (bool_decide_unpack _). vm_compute. exact I.
Defined.

(** X26. The decomposition followed by the writer, for the atmosphere: since the
    decomposition adds no variable, a dataset that lacks one of the eight
    Ghan variables still lacks it afterwards, and the writer stops with a
    [KeyError] at RADIATIVE at the latest, with or without the six
    prerequisite fluxes. *)
Theorem Ghan_then_save_stops_at_RADIATIVE ds path alias pv w cvs dvs tv ts t0 t1 g :
  holds w (coords ds) cvs -> holds w (data_vars ds) dvs ->
  snap w ds "time" = Some tv -> instants (data tv) = Some ts -> Forall not_NaT ts ->
  head ts = Some t0 -> last ts = Some t1 ->
  g ∈ Ghan_vars -> g ∉ names (variables ds) ->
  exists key w' files,
    (let* d := aerosol_cloud_forcing_scomposition_Ghan ds in
     save_postprocessed d "atm" path alias pv) w = (Raise (KeyError key), w') /\
    (key ∉ names (variables ds)) /\
    disk w' = disk w ++ files /\
    (names files `prefix_of`
       [(path ++ file_name alias "BVOC" (dt_year t0) (dt_year t1))%string;
        (path ++ file_name alias "SOA" (dt_year t0) (dt_year t1))%string;
        (path ++ file_name alias "CLOUDPROP" (dt_year t0) (dt_year t1))%string]).
Proof.
  intros Hc Hd Ht Hi Hn H0 H1 Hg Hgn.
  destruct (copy_ok true ds cvs dvs w Hc Hd) as (ds' & R & Nc & Nd & Hc' & Hd').
  simpl in *. set (w1 := mkWorld (heap w ++ cvs ++ dvs) (disk w)) in *.
  assert (Nv : names (variables ds') = names (variables ds)).
  { unfold variables. by rewrite !names_app, Nc, Nd. }
  assert (Hv' : holds w1 (variables ds') (cvs ++ dvs)) by (by apply holds_app).
  assert (Ht' : snap w1 ds' "time" = Some tv).
  { rewrite <- Ht. apply (snap_same_view _ _ _ _ (cvs ++ dvs)); [|done|done].
    by apply holds_app. }
  erewrite bind_ok; [|rewrite Ghan_is_copy; exact R].
  destruct (variables_by_component "atm" true) as [catalog|] eqn:Hcat; [|done].
  pose proof Hcat as Hcat'. vm_compute in Hcat'. injection Hcat' as Ecat.
  assert (Hin : g ∈ cumulative catalog (base_selection "atm" pv) 4).
  { subst catalog. unfold cumulative. apply elem_of_app. right.
    cbn [take List.map concat]. rewrite !elem_of_app. do 3 right. left.
    unfold category_adds. cbn [fst snd]. rewrite bool_decide_eq_true_2 by done.
    rewrite !elem_of_app. right. by left. }
  erewrite save_postprocessed_unfold by eauto.
  destruct (catalog_facts _ _ Hcat) as [Hnd Htf].
  assert (HK : catalog !! 3%nat =
               Some ("RADIATIVE", ["FSDS"; "FSNS"; "FLNT"; "FSNT"; "FLNT_DRF"; "FLNTCDRF";
                                   "FSNTCDRF"; "FSNT_DRF"; "LWCF"; "SWCF"]))
    by (by subst catalog).
  assert (HnK : "RADIATIVE" <> "TURBFLUXES") by done.
  destruct (save_loop_fail ds' "atm" path alias
              (str (dt_year t0) ++ str (dt_year t1))%string catalog
              (base_selection "atm" pv) (cvs ++ dvs) 3 _ _ g Hcat Hnd Htf HK HnK Hin
              ltac:(by rewrite Nv) catalog 0%nat w1 eq_refl ltac:(lia) Hv')
    as (key & w' & files & Hrun & Hkn & Hh & Hdk & Hp).
  exists key, w', files.
  change (cumulative catalog (base_selection "atm" pv) 0) with
    (base_selection "atm" pv ++ []) in Hrun. rewrite app_nil_r in Hrun.
  split; [by erewrite bind_raise; [|exact Hrun]|].
  split; [by rewrite <- Nv|]. split; [done|].
  subst catalog. exact Hp.
Qed.

Lemma Ghan_then_save_stops_at_RADIATIVE_witness :
  let ds := Ex.dataset_of Ex.fluxes in
  let w := Ex.world_of Ex.fluxes in
  exists key w' files,
    (let* d := aerosol_cloud_forcing_scomposition_Ghan ds in
     save_postprocessed d "atm" "out/" "CASE" false) w = (Raise (KeyError key), w') /\
    (key ∉ names (variables ds)) /\
    disk w' = disk w ++ files /\
    (names files `prefix_of`
       [("out/" ++ file_name "CASE" "BVOC" 2008 2008)%string;
        ("out/" ++ file_name "CASE" "SOA" 2008 2008)%string;
        ("out/" ++ file_name "CASE" "CLOUDPROP" 2008 2008)%string]).
Proof.
  apply (Ghan_then_save_stops_at_RADIATIVE
           (Ex.dataset_of Ex.fluxes) "out/" "CASE" false (Ex.world_of Ex.fluxes)
           [Ex.time] (Ex.time_bnds :: List.map snd Ex.fluxes) Ex.time
           [Dt64 (datetime64_of 2008 2 1); Dt64 (datetime64_of 2008 3 1)]
           (Dt64 (datetime64_of 2008 2 1)) (Dt64 (datetime64_of 2008 3 1)) "SWDIR").
  - repeat constructor.
  - repeat constructor.
  - reflexivity.
  - reflexivity.
  - repeat constructor; by vm_compute.
  - reflexivity.
  - reflexivity.
  - apply (bool_decide_unpack _). vm_compute. exact I.
  - apply (bool_decide_unpack _). vm_compute. exact I.
Defined.

(** ** The selection of the land variables, for every case identifier *)

Lemma find_from_range sub s : forall i,
  find_from sub s i = -1 \/ i <= find_from sub s i.
Proof.
  induction s as [|c s IH]; intros i.
  - change (find_from sub EmptyString i) with (if String.prefix sub EmptyString then i else -1).
    destruct (String.prefix sub EmptyString); [right; lia|by left].
  - rewrite find_from_cons. destruct (String.prefix sub (String c s)); [right; lia|].
    destruct (IH (i + 1)) as [?|?]; [by left|right; lia].
Qed.

Lemma find_from_present sub a b : forall i,
  0 <= i -> find_from sub (a ++ sub ++ b) i <> -1.
Proof.
  induction a as [|c a IH]; intros i Hi.
  - change (EmptyString ++ sub ++ b)%string with (sub ++ b)%string.
    pose proof (prefix_of_app sub b) as H.
    destruct (sub ++ b)%string.
    + change (find_from sub EmptyString i) with (if String.prefix sub EmptyString then i else -1).
      rewrite H. lia.
    + rewrite find_from_cons, H. lia.
  - change (String c a ++ sub ++ b)%string with (String c (a ++ sub ++ b)).
    rewrite find_from_cons. destruct (String.prefix sub _); [lia|]. apply IH. lia.
Qed.

Lemma find_zero_prefix s sub : find s sub = 0 <-> String.prefix sub s = true.
Proof.
  unfold find. destruct s as [|c s].
  - change (find_from sub EmptyString 0) with (if String.prefix sub EmptyString then 0 else -1).
    destruct (String.prefix sub EmptyString); split; (done || lia).
  - rewrite find_from_cons. destruct (String.prefix sub (String c s)); [done|].
    split; [|done]. intros H. destruct (find_from_range sub s (0 + 1)); lia.
Qed.

(** [find] returns a positive index exactly on the strings that contain the
    searched string without starting with it. *)
Lemma find_positive s sub :
  0 < find s sub <->
  (exists a b, s = (a ++ sub ++ b)%string) /\ String.prefix sub s = false.
Proof.
  split.
  - intros H. split.
    + apply (find_from_found sub s 0). unfold find in H. lia.
    + destruct (String.prefix sub s) eqn:E; [|done].
      apply find_zero_prefix in E. lia.
  - intros [(a & b & ->) Hp].
    pose proof (find_from_present sub a b 0 ltac:(lia)) as Hn.
    destruct (find_from_range sub (a ++ sub ++ b) 0) as [?|Hr]; [done|].
    unfold find. destruct (decide (find_from sub (a ++ sub ++ b) 0 = 0)) as [E|]; [|lia].
    apply find_zero_prefix in E. congruence.
Qed.

(** X27. For the land component, and for every case identifier: the
    biogenic-emission variables are left out of the selection exactly when
    the identifier contains "OFF" without starting with it, and they are all
    selected otherwise. *)
Theorem select_variables_lnd_MEG casename pv :
  exists l,
    select_variables casename "lnd" pv = Ok l /\
    ((forall n, n ∈ MEG_vars -> n ∉ l) <->
     (exists a b, casename = (a ++ "OFF" ++ b)%string) /\
     String.prefix "OFF" casename = false) /\
    ((forall n, n ∈ MEG_vars -> n ∈ l) <->
     ~ ((exists a b, casename = (a ++ "OFF" ++ b)%string) /\
        String.prefix "OFF" casename = false)).
Proof.
  destruct (select_variables_lnd casename pv) as (rest & Hsel & Hr).
  pose proof (find_positive casename "OFF") as Hf.
  assert (Hm : "MEG_isoprene" ∈ MEG_vars) by (by left).
  eexists. split; [exact Hsel|].
  destruct (0 <? find casename "OFF") eqn:E.
  - apply Z.ltb_lt in E. split; split.
    + intros _. by apply Hf.
    + intros _. exact Hr.
    + intros H. exfalso. by apply (Hr _ Hm), H.
    + intros H. exfalso. apply H. by apply Hf.
  - apply Z.ltb_ge in E.
    assert (Hin : forall n, n ∈ MEG_vars -> n ∈ lnd_always_include ++ MEG_vars ++ rest).
    { intros n Hn. rewrite !elem_of_app. right. by left. }
    split; split.
    + intros H. exfalso. by apply (H _ Hm), Hin.
    + intros H. apply Hf in H. lia.
    + intros _ H. apply Hf in H. lia.
    + intros _. exact Hin.
Qed.

